(** * SEO-Audit-Pro: the extraction-and-scoring pipeline of [seo-engine]

    A shallow embedding of the Python sources

    - [src/crawler/crawler.py]      (modules [Crawler] and [Extract]),
    - [src/analyzers/onpage.py]     (module [OnPage]),
    - [src/analyzers/technical.py]  (module [Technical]),
    - [src/analyzers/security.py]   (modules [Security] and [SecurityData]),
    - [src/analyzers/performance.py] (module [Performance]),
    - [src/main.py]                 (modules [Main] and [Endpoint]),

    followed by the properties of the specification that were checked
    against it.  Python values are modelled as follows: [str] as [string]
    (one [ascii] per code point below 256), [int] as [Z] ([nat] for the
    results of [len]), [float] as the binary64 numbers of [SpecFloat],
    [dict] as [gmap] or as a record when the keys are fixed, [None] as
    [None], and an exception as the [None] of an [option] result. *)

From Stdlib Require Import ZArith Lia String Ascii List Bool SpecFloat.
From stdpp Require Import base option list strings gmap pretty.

Local Open Scope string_scope.
Local Open Scope list_scope.
Local Open Scope nat_scope.

(** ** Python built-ins used by the sources *)

Module Py.

(** [c.isspace()] for a code point below 256: TAB..CR, FS..US, SPACE,
    NEL and NBSP. *)
Definition isspace (c : ascii) : bool :=
  let n := N_of_ascii c in
  ((9 <=? n) && (n <=? 13) || (28 <=? n) && (n <=? 32)
   || (n =? 133) || (n =? 160))%N.

(** [s.split()]: the maximal runs of non-blank characters, in order. *)
Fixpoint split (s : string) : list string :=
  match s with
  | "" => []
  | String c rest =>
      if isspace c then split rest
      else match rest with
           | "" => [String c ""]
           | String d _ =>
               if isspace d then String c "" :: split rest
               else match split rest with
                    | w :: ws => String c w :: ws
                    | [] => [String c ""]
                    end
           end
  end.

(** [sep.join(l)]. *)
Fixpoint join (sep : string) (l : list string) : string :=
  match l with
  | [] => ""
  | [w] => w
  | w :: ws => w +:+ sep +:+ join sep ws
  end.

(** [s[:n]]. *)
Fixpoint slice_to (n : nat) (s : string) : string :=
  match n, s with
  | S k, String c rest => String c (slice_to k rest)
  | _, _ => ""
  end.

(** [s.startswith(p)]. *)
Definition startswith (s p : string) : bool := String.prefix p s.

(** [sub in s] for strings. *)
Fixpoint contains (sub s : string) : bool :=
  String.prefix sub s ||
  match s with
  | "" => false
  | String _ rest => contains sub rest
  end.

(** [c.lower()] for a code point below 256. *)
Definition lower_char (c : ascii) : ascii :=
  let n := N_of_ascii c in
  if ((65 <=? n) && (n <=? 90)
      || (192 <=? n) && (n <=? 222) && negb (n =? 215))%N
  then ascii_of_N (n + 32) else c.

(** [s.lower()]. *)
Fixpoint lower (s : string) : string :=
  match s with
  | "" => ""
  | String c rest => String (lower_char c) (lower rest)
  end.

(** [bool(s)] for a string. *)
Definition truthy (s : string) : bool := negb (String.eqb s "").

(** [bool(x)] for [x] a string or [None]. *)
Definition truthy_opt (x : option string) : bool :=
  match x with Some s => truthy s | None => false end.

(** [str(n)] for a non-negative integer, as an f-string prints it. *)
Definition str_of_nat (n : nat) : string := pretty n.

(** [str(z)] for an integer. *)
Definition str_of_int (z : Z) : string := pretty z.

(** [str(x)] for [x] a string or [None]. *)
Definition str_of_opt (x : option string) : string := default "None" x.

(** [s * n]: [n] copies of [s]. *)
Fixpoint repeat_str (n : nat) (s : string) : string :=
  match n with
  | O => ""
  | S k => s +:+ repeat_str k s
  end.

End Py.

(** ** The parse tree of [bs4.BeautifulSoup]

    A document is the list of the top-level nodes; a node is a text node
    or an element with its attribute dictionary and its children. *)

Module Soup.

Local Unset Elimination Schemes.
Inductive node :=
| NavigableString (s : string)
| Tag (name : string) (attrs : gmap string string) (contents : list node).
Local Set Elimination Schemes.

Abbreviation soup := (list node).

(** The node and everything below it, in document order. *)
Fixpoint descendants (n : node) : list node :=
  n :: match n with
       | NavigableString _ => []
       | Tag _ _ cs => flat_map descendants cs
       end.

(** [soup.find_all(name)]: the attribute dictionaries of the elements
    called [name], in document order. *)
Definition find_all (name : string) (doc : soup) : list (gmap string string) :=
  omap (fun n => match n with
                 | Tag t attrs _ => if String.eqb t name then Some attrs else None
                 | NavigableString _ => None
                 end)
       (flat_map descendants doc).

(** [tag.get(key, default)]. *)
Definition get (attrs : gmap string string) (key dflt : string) : string :=
  default dflt (attrs !! key).

(** [for e in soup(names): e.decompose()]: every element whose name is in
    [names] is removed from the tree, with its subtree. *)
Fixpoint decompose_node (names : list string) (n : node) : option node :=
  match n with
  | NavigableString _ => Some n
  | Tag t attrs cs =>
      if existsb (String.eqb t) names then None
      else Some (Tag t attrs (omap (decompose_node names) cs))
  end.

Definition decompose (names : list string) (doc : soup) : soup :=
  omap (decompose_node names) doc.

(** The text nodes below a node, in document order. *)
Fixpoint all_strings (n : node) : list string :=
  match n with
  | NavigableString s => [s]
  | Tag _ _ cs => flat_map all_strings cs
  end.

(** [soup.get_text(separator=sep)]. *)
Definition get_text (sep : string) (doc : soup) : string :=
  Py.join sep (flat_map all_strings doc).

End Soup.

(** ** [crawler.py] *)

Module Crawler.
Import Soup.

Record image := {
  src : string;
  alt : string;
  has_alt : bool;
  loading : string;
  width : string;
  height : string
}.

Record script := { script_src : string; async : bool; defer : bool }.

Record stylesheet := { href : string }.

Section WithUrllib.

(** [urllib.parse.urljoin], a library function. *)
Variable urljoin : string -> string -> string.

(** The body of the loop of [_get_images], for one [img] element. *)
Definition image_of (base_url : string) (img : gmap string string) : option image :=
  let s := get img "src" "" in
  if Py.truthy s then
    Some {| src := urljoin base_url s;
            alt := get img "alt" "";
            has_alt := Py.truthy_opt (img !! "alt");
            loading := get img "loading" "";
            width := get img "width" "";
            height := get img "height" "" |}
  else None.

Definition _get_images (doc : soup) (base_url : string) : list image :=
  take 100 (omap (image_of base_url) (find_all "img" doc)).

End WithUrllib.

Definition removed_tags : list string :=
  ["script"; "style"; "nav"; "footer"; "header"].

(** The bound of the slice [text[:10000]]. *)
#[warnings="-abstract-large-number"]
Definition text_limit : nat := 10000.

(** The text of the page once the five kinds of subtree are removed and
    blanks are normalised, before the cut to 10,000 characters. *)
Definition cleaned_text (doc : soup) : string :=
  Py.join " " (Py.split (get_text " " (decompose removed_tags doc))).

(** [_get_text_content] changes the tree it is given: the result is the
    tree it leaves behind and the string it returns. *)
Definition _get_text_content (doc : soup) : soup * string :=
  let doc' := decompose removed_tags doc in
  let text := get_text " " doc' in
  let text := Py.join " " (Py.split text) in
  (doc', Py.slice_to text_limit text).

Definition _get_word_count (doc : soup) : soup * nat :=
  let '(doc', text) := _get_text_content doc in
  let words := Py.split text in
  (doc', length words).

(** [soup.find_all('script', src=True)]. *)
Definition _get_scripts (doc : soup) : list script :=
  omap (fun a : gmap string string =>
          match a !! "src" with
          | Some s => Some {| script_src := s;
                              async := bool_decide (is_Some (a !! "async"));
                              defer := bool_decide (is_Some (a !! "defer")) |}
          | None => None
          end)
       (find_all "script" doc).

(** [soup.find_all('link', rel='stylesheet')], keeping those with a
    non-empty [href]; [rel] is a blank-separated list of values. *)
Definition _get_stylesheets (doc : soup) : list stylesheet :=
  omap (fun a : gmap string string =>
          if existsb (String.eqb "stylesheet") (Py.split (get a "rel" ""))
             && Py.truthy_opt (a !! "href")
          then Some {| href := get a "href" "" |} else None)
       (find_all "link" doc).

(** The content entries of the dictionary built by [crawl], in the order
    in which the dictionary display evaluates them on the one tree. *)
Record content := {
  images : list image;
  word_count : nat;
  text_content : string;
  scripts : list script;
  stylesheets : list stylesheet
}.

Definition crawl_content (urljoin : string -> string -> string)
    (doc : soup) (url : string) : content :=
  let imgs := _get_images urljoin doc url in
  let '(doc1, wc) := _get_word_count doc in
  let '(doc2, tc) := _get_text_content doc1 in
  {| images := imgs;
     word_count := wc;
     text_content := tc;
     scripts := _get_scripts doc2;
     stylesheets := _get_stylesheets doc2 |}.

End Crawler.

(** ** Python's [float]: IEEE 754 binary64, round to nearest even *)

Module PyFloat.

Definition prec : Z := 53.
Definition emax : Z := 1024.

Abbreviation float := spec_float.

(** [float(n)] for an integer [n]. *)
Definition of_int (n : Z) : float := binary_normalize prec emax n 0 false.

Definition mul : float -> float -> float := SFmul prec emax.
Definition add : float -> float -> float := SFadd prec emax.
Definition div : float -> float -> float := SFdiv prec emax.
Definition ltb : float -> float -> bool := SFltb.

(** The decimal literal [num/den] for integers that are themselves
    binary64 numbers: the parser returns the binary64 number nearest to
    the quotient, as the correctly rounded division does. *)
Definition literal (num den : Z) : float := div (of_int num) (of_int den).

(** The magnitude [m * 2^e] rounded to an integer, ties to even: for a
    negative exponent the mantissa is shifted right by [- e] bits, the
    last bit shifted out and the disjunction of the others deciding the
    direction. *)
Definition round_magnitude (m : positive) (e : Z) : Z :=
  if (0 <=? e)%Z then Z.shiftl (Zpos m) e
  else
    let shifted := fst (shr (shr_record_of_loc (Zpos m) loc_Exact) e (- e)) in
    round_nearest_even (shr_m shifted) (loc_of_shr_record shifted).

(** [round(x)]: the nearest integer, ties to even; [None] stands for the
    exception raised on an infinity or a NaN. *)
Definition round (x : float) : option Z :=
  match x with
  | S754_zero _ => Some 0%Z
  | S754_finite s m e =>
      let mag := round_magnitude m e in
      Some (if s then (- mag)%Z else mag)
  | _ => None
  end.

(** [int(x)]: truncation towards zero; [None] stands for the exception
    raised on an infinity or a NaN. *)
Definition to_int (x : float) : option Z :=
  match x with
  | S754_zero _ => Some 0%Z
  | S754_finite s m e =>
      let mag := Z.shiftl (Zpos m) e in
      Some (if s then (- mag)%Z else mag)
  | _ => None
  end.

End PyFloat.

(** [f"{x:.0f}"]: the digits of [x] rounded to an integer, ties to even. *)
Definition format_0f (x : PyFloat.float) : string :=
  match x with
  | S754_zero s => if s then "-0" else "0"
  | S754_finite s m e =>
      (if s then "-" else "") +:+ Py.str_of_int (PyFloat.round_magnitude m e)
  | S754_infinity s => if s then "-inf" else "inf"
  | S754_nan => "nan"
  end.

(** ** The dictionary [page_data] that [Crawler.crawl] returns

    One field per key the analyzers read.  The three mobile signals are
    read by [calculate_mobile_score] and written by no extractor: [None]
    is the absent key. *)

Module PageData.

Record link := {
  link_url : string;
  link_text : string;
  rel : list string;
  nofollow : bool
}.

Record page_data := {
  url : string;
  status_code : Z;
  headers : gmap string string;
  redirects : list string;
  title : option string;
  meta_description : option string;
  canonical : option string;
  robots_meta : option string;
  viewport_meta : bool;
  og_tags : gmap string string;
  headings : gmap string (list string);
  internal_links : list link;
  external_links : list link;
  images : list Crawler.image;
  word_count : nat;
  text_content : string;
  scripts : list Crawler.script;
  stylesheets : list Crawler.stylesheet;
  has_schema : bool;
  schema_types : list string;
  lang : option string;
  small_touch_targets : option Z;
  small_text_count : option Z;
  horizontal_scroll : option bool
}.

End PageData.

(** ** Findings, check results and the scoring loop of the analyzers *)

Module Report.

Inductive issue_type := Error | Warning | Recommendation | Info.
Inductive impact_level := High | Medium | Low.

(** An issue dictionary; ["code"], ["recommendation"] and ["impact"] are
    absent from some of them. *)
Record issue := {
  type : issue_type;
  code : option string;
  message : string;
  recommendation : option string;
  impact : option impact_level
}.

(** The dictionary a [_check_*] method returns. *)
Record check_result := {
  passed : bool;
  issue_of : option issue;
  deduction : Z
}.

(** The result of a check that reports a list of issues. *)
Record multi_result := {
  m_passed : bool;
  m_issues : list issue;
  m_deduction : Z
}.

(** The dictionary an analyzer returns (its ["data"] entry, which no
    score depends on, is left out); also the three local variables
    [score], [issues] and [checks] while [analyze] runs. *)
Record report := {
  score : Z;
  issues : list issue;
  checks : gmap string (option bool)
}.

Definition pass : check_result :=
  {| passed := true; issue_of := None; deduction := 0 |}.

Definition failing (t : issue_type) (c m : string) (r : option string)
    (i : impact_level) (d : Z) : check_result :=
  {| passed := false;
     issue_of := Some {| type := t; code := Some c; message := m;
                         recommendation := r; impact := Some i |};
     deduction := d |}.

(** [issues = []; checks = {}; score = 100]. *)
Definition start : report := {| score := 100; issues := []; checks := ∅ |}.

(** [checks[name] = r["passed"]]
    [if not r["passed"]: issues.append(r["issue"]); score -= r["deduction"]]. *)
Definition record_check (name : string) (r : check_result) (st : report) : report :=
  let checks' := <[name := Some (passed r)]> (checks st) in
  if passed r then
    {| score := score st; issues := issues st; checks := checks' |}
  else
    {| score := score st - deduction r;
       issues := issues st ++ option_list (issue_of r);
       checks := checks' |}.

(** The same with [issues.extend(r.get("issues", []))]. *)
Definition record_multi (name : string) (r : multi_result) (st : report) : report :=
  let checks' := <[name := Some (m_passed r)]> (checks st) in
  if m_passed r then
    {| score := score st; issues := issues st; checks := checks' |}
  else
    {| score := score st - m_deduction r;
       issues := issues st ++ m_issues r;
       checks := checks' |}.

(** [return {"score": max(0, score), "issues": issues, "checks": checks}]. *)
Definition finish (st : report) : report :=
  {| score := Z.max 0 (score st); issues := issues st; checks := checks st |}.

(** Every entry of the [checks] dictionary is [True]. *)
Definition all_passed (r : report) : Prop :=
  ∀ k v, checks r !! k = Some v → v = Some true.

End Report.

(** ** [analyzers/onpage.py] *)

Module OnPage.
Import PageData Report.

Definition _check_title (title : option string) : check_result :=
  if negb (Py.truthy_opt title) then
    failing Error "missing_title" "Missing title tag"
      (Some "Add a unique, descriptive title tag (50-60 characters)") High 20
  else
    let length := String.length (default "" title) in
    if (length <? 30)%nat then
      failing Warning "title_too_short"
        ("Title is too short (" +:+ Py.str_of_nat length +:+ " characters)")
        (Some "Title should be 50-60 characters for optimal display") Medium 5
    else if (60 <? length)%nat then
      failing Warning "title_too_long"
        ("Title is too long (" +:+ Py.str_of_nat length +:+ " characters)")
        (Some "Title may be truncated in search results. Keep it under 60 characters")
        Low 3
    else pass.

Definition _check_meta_description (description : option string) : check_result :=
  if negb (Py.truthy_opt description) then
    failing Error "missing_meta_description" "Missing meta description"
      (Some "Add a compelling meta description (150-160 characters)") High 15
  else
    let length := String.length (default "" description) in
    if (length <? 70)%nat then
      failing Warning "meta_description_too_short"
        ("Meta description is too short (" +:+ Py.str_of_nat length +:+ " characters)")
        (Some "Meta description should be 150-160 characters") Medium 5
    else if (160 <? length)%nat then
      failing Warning "meta_description_too_long"
        ("Meta description is too long (" +:+ Py.str_of_nat length +:+ " characters)")
        (Some "Meta description may be truncated. Keep it under 160 characters")
        Low 3
    else pass.

Definition _check_h1 (headings : gmap string (list string)) : check_result :=
  let h1s := default [] (headings !! "h1") in
  match h1s with
  | [] =>
      failing Error "missing_h1" "No H1 heading found"
        (Some "Add exactly one H1 heading that describes the page content") High 15
  | _ =>
      if (1 <? length h1s)%nat then
        failing Warning "multiple_h1"
          ("Multiple H1 headings found (" +:+ Py.str_of_nat (length h1s) +:+ ")")
          (Some "Use only one H1 heading per page") Medium 5
      else pass
  end.

(** [bool(headings.get(level))]. *)
Definition has_heading (headings : gmap string (list string)) (level : string) : bool :=
  match headings !! level with
  | Some (_ :: _) => true
  | _ => false
  end.

Definition _check_heading_hierarchy (headings : gmap string (list string)) : check_result :=
  let has_h1 := has_heading headings "h1" in
  let has_h2 := has_heading headings "h2" in
  let has_h3 := has_heading headings "h3" in
  if negb has_h1 && (has_h2 || has_h3) then
    failing Warning "broken_heading_hierarchy"
      "Heading hierarchy is broken (H2/H3 without H1)"
      (Some "Maintain proper heading hierarchy (H1 → H2 → H3)") Medium 5
  else pass.

Definition _check_images (images : list Crawler.image) : check_result :=
  match images with
  | [] => pass
  | _ =>
      let missing_alt := filter (fun img => negb (Crawler.has_alt img)) images in
      let missing_count := length missing_alt in
      if (0 <? missing_count)%nat then
        let percentage :=
          PyFloat.mul
            (PyFloat.div (PyFloat.of_int (Z.of_nat missing_count))
                         (PyFloat.of_int (Z.of_nat (length images))))
            (PyFloat.of_int 100) in
        if PyFloat.ltb (PyFloat.of_int 50) percentage then
          failing Error "many_images_missing_alt"
            (Py.str_of_nat missing_count +:+ " images missing alt text ("
               +:+ format_0f percentage +:+ "%)")
            (Some "Add descriptive alt text to all images for accessibility and SEO")
            High 15
        else
          failing Warning "images_missing_alt"
            (Py.str_of_nat missing_count +:+ " images missing alt text")
            (Some "Add descriptive alt text to all images") Medium 5
      else pass
  end.

Definition _check_content (word_count : nat) : check_result :=
  if (word_count <? 300)%nat then
    failing Warning "thin_content"
      ("Content is thin (" +:+ Py.str_of_nat word_count +:+ " words)")
      (Some "Add more substantive content (aim for 800+ words for blog posts)")
      Medium 10
  else pass.

Definition _check_internal_links (internal_links : list link) : check_result :=
  if (length internal_links <? 2)%nat then
    failing Warning "few_internal_links" "Page has few internal links"
      (Some "Add more internal links to help users and search engines navigate")
      Medium 5
  else pass.

Definition _check_og_tags (og_tags : gmap string string) : check_result :=
  let required := ["title"; "description"; "image"] in
  let missing := filter (fun tag => bool_decide (og_tags !! tag = None)) required in
  match missing with
  | [] => pass
  | _ =>
      failing Recommendation "missing_og_tags"
        ("Missing Open Graph tags: " +:+ Py.join ", " missing)
        (Some "Add Open Graph tags for better social media sharing") Low 3
  end.

Definition analyze (pd : page_data) : report :=
  let st := start in
  let st := record_check "title" (_check_title (title pd)) st in
  let st := record_check "metaDescription"
              (_check_meta_description (meta_description pd)) st in
  let st := record_check "h1" (_check_h1 (headings pd)) st in
  let st := record_check "headingHierarchy"
              (_check_heading_hierarchy (headings pd)) st in
  let st := record_check "imageAlt" (_check_images (images pd)) st in
  let st := record_check "contentLength" (_check_content (word_count pd)) st in
  let st := record_check "internalLinks"
              (_check_internal_links (internal_links pd)) st in
  let st := record_check "openGraph" (_check_og_tags (og_tags pd)) st in
  finish st.

End OnPage.

(** ** The collaborators of the probes: [urllib.parse] and [httpx] *)

Module Net.

(** The fields of [urlparse(u)] that the sources read. *)
Record parsed_url := { scheme : string; netloc : string; path : string }.

(** The fields of a response that the sources read. *)
Record response := { status : Z; content_type : option string }.

(** [await client.get(u)] returns a response or raises. *)
Inductive outcome := Responded (r : response) | Raised.

(** What a probe finds when it opens [httpx.AsyncClient(...)]: [None]
    when opening raises, else the answer of the network to each GET. *)
Definition network := option (string → outcome).

End Net.

(** ** [analyzers/technical.py] *)

Module Technical.
Import PageData Report Net.

Section WithUrlparse.

(** [urllib.parse.urlparse], a library function; [None] stands for the
    [ValueError] it raises on a malformed URL. *)
Variable urlparse : string → option parsed_url.

Definition _check_canonical (url : string) (pd : page_data) : option check_result :=
  let canonical := canonical pd in
  if negb (Py.truthy_opt canonical) then
    Some (failing Error "missing_canonical" "Missing canonical tag"
            (Some "Add a canonical tag to specify the preferred URL for this page")
            High 15)
  else
    pc ← urlparse (default "" canonical);
    pu ← urlparse url;
    if negb (String.eqb (path pc) (path pu)) then
      Some {| passed := true;
              issue_of :=
                Some {| type := Warning;
                        code := Some "canonical_mismatch";
                        message := "Canonical URL (" +:+ default "" canonical
                                     +:+ ") differs from current URL";
                        recommendation := Some "Verify this is intentional";
                        impact := Some Low |};
              deduction := 0 |}
    else Some pass.

Definition _check_robots (pd : page_data) : check_result :=
  let robots := robots_meta pd in
  if Py.truthy_opt robots && Py.contains "noindex" (Py.lower (default "" robots)) then
    failing Warning "noindex" "Page is set to noindex"
      (Some "Remove noindex if you want this page to be indexed") High 5
  else pass.

Definition robots_txt_error : check_result :=
  {| passed := false;
     issue_of := Some {| type := Warning; code := Some "robots_txt_error";
                         message := "Could not access robots.txt";
                         recommendation := None; impact := Some Low |};
     deduction := 3 |}.

Definition _check_robots_txt (net : network) (url : string) : check_result :=
  match urlparse url with
  | None => robots_txt_error
  | Some parsed =>
      let robots_url := scheme parsed +:+ "://" +:+ netloc parsed +:+ "/robots.txt" in
      match net with
      | None => robots_txt_error
      | Some client =>
          match client robots_url with
          | Raised => robots_txt_error
          | Responded response =>
              if (status response =? 200)%Z then pass
              else
                failing Warning "missing_robots_txt" "robots.txt not found"
                  (Some "Add a robots.txt file to control crawler access") Medium 5
          end
      end
  end.

(** The result of the outer [except] of [_check_sitemap]. *)
Definition sitemap_check_failed : check_result :=
  {| passed := false;
     issue_of := Some {| type := Error; code := None;
                         message := "Sitemap check failed";
                         recommendation := None; impact := None |};
     deduction := 3 |}.

(** The loop over [sitemap_urls]: [true] when it returns the passing
    result; a GET that raises is skipped by the inner [except]. *)
Fixpoint sitemap_found (client : string → outcome) (sitemap_urls : list string) : bool :=
  match sitemap_urls with
  | [] => false
  | sitemap_url :: rest =>
      match client sitemap_url with
      | Responded response =>
          if (status response =? 200)%Z
             && Py.contains "xml" (default "" (content_type response))
          then true
          else sitemap_found client rest
      | Raised => sitemap_found client rest
      end
  end.

Definition _check_sitemap (net : network) (url : string) : check_result :=
  match urlparse url with
  | None => sitemap_check_failed
  | Some parsed =>
      let sitemap_urls :=
        [scheme parsed +:+ "://" +:+ netloc parsed +:+ "/sitemap.xml";
         scheme parsed +:+ "://" +:+ netloc parsed +:+ "/sitemap_index.xml"] in
      match net with
      | None => sitemap_check_failed
      | Some client =>
          if sitemap_found client sitemap_urls then pass
          else
            failing Warning "missing_sitemap" "XML sitemap not found"
              (Some "Add an XML sitemap to help search engines discover your pages")
              Medium 5
      end
  end.

Definition _check_https (url : string) : check_result :=
  if negb (Py.startswith url "https://") then
    failing Error "no_https" "Site is not using HTTPS"
      (Some "Migrate to HTTPS for security and SEO benefits") High 20
  else pass.

Definition _check_redirects (pd : page_data) : check_result :=
  let redirects := redirects pd in
  if (2 <? length redirects)%nat then
    failing Warning "redirect_chain"
      ("Redirect chain detected (" +:+ Py.str_of_nat (length redirects) +:+ " redirects)")
      (Some "Reduce redirect chain to a single redirect") Medium 10
  else pass.

Definition _check_status_code (pd : page_data) : check_result :=
  let status := status_code pd in
  if negb (status =? 0)%Z && (400 <=? status)%Z then
    {| passed := false;
       issue_of := Some {| type := Error; code := Some "error_status";
                           message := "Page returned status code " +:+ Py.str_of_int status;
                           recommendation := None; impact := Some High |};
       deduction := 30 |}
  else pass.

Definition _check_language (pd : page_data) : check_result :=
  if negb (Py.truthy_opt (lang pd)) then
    failing Warning "missing_lang" "Missing language attribute on HTML tag"
      (Some "Add lang attribute to help search engines understand the page language")
      Low 3
  else pass.

Definition _check_schema (pd : page_data) : check_result :=
  if negb (has_schema pd) then
    failing Recommendation "no_structured_data" "No structured data (Schema.org) found"
      (Some "Add structured data to enhance search results appearance") Medium 5
  else pass.

(** [analyze] raises when [_check_canonical] does; the two probes
    handle their own exceptions. *)
Definition analyze (net : network) (url : string) (pd : page_data) : option report :=
  let st := start in
  canonical_result ← _check_canonical url pd;
  let st := record_check "canonical" canonical_result st in
  let st := record_check "robotsMeta" (_check_robots pd) st in
  let st := record_check "robotsTxt" (_check_robots_txt net url) st in
  let st := record_check "sitemap" (_check_sitemap net url) st in
  let st := record_check "https" (_check_https url) st in
  let st := record_check "redirectChain" (_check_redirects pd) st in
  let st := record_check "statusCode" (_check_status_code pd) st in
  let st := record_check "language" (_check_language pd) st in
  let st := record_check "structuredData" (_check_schema pd) st in
  Some (finish st).

End WithUrlparse.

End Technical.

(** ** [analyzers/security.py] *)

Module Security.
Import PageData Report Net.

Definition _check_https (url : string) : check_result :=
  if negb (Py.startswith url "https://") then
    failing Error "no_https" "Site is not using HTTPS"
      (Some "Migrate to HTTPS immediately. It's a ranking factor.") High 25
  else pass.

(** [name in headers_lower], where
    [headers_lower = {k.lower(): v for k, v in headers.items()}]. *)
Definition in_headers_lower (headers : gmap string string) (name : string) : bool :=
  existsb (fun kv => String.eqb (Py.lower kv.1) name) (map_to_list headers).

Definition header_issue (t : issue_type) (c m r : string) (i : impact_level) : issue :=
  {| type := t; code := Some c; message := m; recommendation := Some r;
     impact := Some i |}.

Definition _check_security_headers (headers : gmap string string) : multi_result :=
  let has := in_headers_lower headers in
  let issues : list issue := [] in
  let deduction := 0%Z in
  let '(issues, deduction) :=
    if negb (has "x-content-type-options") then
      ((issues ++ [header_issue Warning "missing_x_content_type"
                    "Missing X-Content-Type-Options header"
                    "Add 'X-Content-Type-Options: nosniff' header" Low])%list,
       (deduction + 2)%Z)
    else (issues, deduction) in
  let '(issues, deduction) :=
    if negb (has "x-frame-options") && negb (has "content-security-policy") then
      ((issues ++ [header_issue Warning "missing_x_frame_options"
                    "Missing X-Frame-Options header"
                    "Add X-Frame-Options to prevent clickjacking" Medium])%list,
       (deduction + 3)%Z)
    else (issues, deduction) in
  let '(issues, deduction) :=
    if negb (has "strict-transport-security") then
      ((issues ++ [header_issue Warning "missing_hsts"
                    "Missing Strict-Transport-Security header"
                    "Add HSTS header for HTTPS enforcement" Medium])%list,
       (deduction + 5)%Z)
    else (issues, deduction) in
  let '(issues, deduction) :=
    if negb (has "content-security-policy") then
      ((issues ++ [header_issue Recommendation "missing_csp"
                    "Missing Content-Security-Policy header"
                    "Implement CSP to prevent XSS attacks" Medium])%list,
       (deduction + 3)%Z)
    else (issues, deduction) in
  {| m_passed := (length issues =? 0)%nat; m_issues := issues; m_deduction := deduction |}.

Definition _check_mixed_content (pd : page_data) : check_result :=
  let url := url pd in
  if negb (Py.startswith url "https://") then pass
  else
    let http_images :=
      filter (fun img => Py.startswith (Crawler.src img) "http://") (images pd) in
    let http_scripts :=
      filter (fun s => Py.startswith (Crawler.script_src s) "http://") (scripts pd) in
    let http_styles :=
      filter (fun s => Py.startswith (Crawler.href s) "http://") (stylesheets pd) in
    let total_mixed := (length http_images + length http_scripts + length http_styles)%nat in
    if (0 <? total_mixed)%nat then
      failing Error "mixed_content"
        ("Mixed content detected (" +:+ Py.str_of_nat total_mixed
           +:+ " HTTP resources on HTTPS page)")
        (Some "Update all resources to use HTTPS") High 15
    else pass.

Definition sensitive_paths : list string :=
  ["/.env"; "/.git/config"; "/wp-config.php.bak"; "/phpinfo.php"; "/.htaccess";
   "/server-status"].

Definition exposed_issue (path : string) : issue :=
  {| type := Error; code := Some "exposed_sensitive_file";
     message := "Sensitive file exposed: " +:+ path;
     recommendation := Some "Block access to this file immediately";
     impact := Some High |}.

(** The loop over [sensitive_paths], on the pair [(issues, deduction)]. *)
Fixpoint probe_paths (client : string → outcome) (base_url : string)
    (paths : list string) (acc : list issue * Z) : list issue * Z :=
  match paths with
  | [] => acc
  | path :: rest =>
      match client (base_url +:+ path) with
      | Responded response =>
          if (status response =? 200)%Z then
            probe_paths client base_url rest
              ((acc.1 ++ [exposed_issue path])%list, (acc.2 + 10)%Z)
          else probe_paths client base_url rest acc
      | Raised => probe_paths client base_url rest acc
      end
  end.

Section WithUrlparse.

Variable urlparse : string → option parsed_url.

(** [urlparse] is called outside the [try]: its exception is the
    method's. *)
Definition _check_sensitive_paths (net : network) (url : string) : option multi_result :=
  parsed ← urlparse url;
  let base_url := scheme parsed +:+ "://" +:+ netloc parsed in
  let '(issues, deduction) :=
    match net with
    | None => ([], 0%Z)
    | Some client => probe_paths client base_url sensitive_paths ([], 0%Z)
    end in
  Some {| m_passed := (length issues =? 0)%nat; m_issues := issues;
          m_deduction := deduction |}.

Definition analyze (net : network) (url : string) (pd : page_data) : option report :=
  let st := start in
  let st := record_check "https" (_check_https url) st in
  let st := record_multi "securityHeaders" (_check_security_headers (headers pd)) st in
  let st := record_check "noMixedContent" (_check_mixed_content pd) st in
  sensitive_result ← _check_sensitive_paths net url;
  let st := record_multi "noSensitivePaths" sensitive_result st in
  Some (finish st).

End WithUrlparse.

End Security.

(** ** [analyzers/performance.py] *)

Module Performance.
Import Report.

(** A number read from the provider's JSON with [d.get(key, default)]:
    the key is absent, its value is [null], or it is a number (taken
    as a binary64 number). *)
Inductive field := Absent | Null | Num (x : PyFloat.float).

(** One entry of [lighthouseResult.audits]. *)
Record audit := {
  numericValue : field;
  displayValue : option string;
  audit_score : field
}.

(** The part of the provider's JSON that [analyze] reads;
    [audits.get(name, {})] is [None] when it is the empty dictionary. *)
Record lighthouse := {
  performance_score : field;
  largest_contentful_paint : option audit;
  cumulative_layout_shift : option audit;
  first_contentful_paint : option audit;
  uses_optimized_images : option audit;
  total_byte_weight : option audit;
  offscreen_images : option audit
}.

(** What [await client.get(self.api_url, ...)] does: it raises, or it
    returns a response with a status code and a body; the body is [None]
    when [response.json()] raises. *)
Inductive provider := CallRaises | Reply (status_code : Z) (body : option lighthouse).

Definition _get_fallback_analysis (url : string) : report :=
  {| score := 50;
     issues :=
       [ {| type := Info;
            code := Some "pagespeed_unavailable";
            message := "PageSpeed Insights API not available";
            recommendation :=
              Some "Configure PAGESPEED_API_KEY for detailed performance analysis";
            impact := Some Low |} ];
     checks :=
       <["lazyLoading" := None]> (<["bundleSize" := None]>
       (<["imageOptimization" := None]> (<["cls" := None]>
       (<["fcp" := None]> (<["lcp" := None]> ∅))))) |}.

(** [d.get(key, dflt) > bound]; [None] is the [TypeError] of comparing
    [None] with a number. *)
Definition gt (f : field) (dflt bound : PyFloat.float) : option bool :=
  match f with
  | Absent => Some (PyFloat.ltb bound dflt)
  | Null => None
  | Num x => Some (PyFloat.ltb bound x)
  end.

(** [d.get(key, dflt) < bound]. *)
Definition lt (f : field) (dflt bound : PyFloat.float) : option bool :=
  match f with
  | Absent => Some (PyFloat.ltb dflt bound)
  | Null => None
  | Num x => Some (PyFloat.ltb x bound)
  end.

(** [d.get(key, dflt) >= bound]. *)
Definition ge (f : field) (dflt bound : PyFloat.float) : option bool :=
  match f with
  | Absent => Some (SFleb bound dflt)
  | Null => None
  | Num x => Some (SFleb bound x)
  end.

(** [m and m.get("numericValue", 0) > bound] for a metric [m]. *)
Definition metric_exceeds (m : option audit) (bound : PyFloat.float) : option bool :=
  match m with
  | None => Some false
  | Some a => gt (numericValue a) (PyFloat.of_int 0) bound
  end.

Definition display (m : option audit) : string :=
  Py.str_of_opt (m ≫= displayValue).

Definition perf_issue (t : issue_type) (c m r : string) (i : impact_level) : issue :=
  {| type := t; code := Some c; message := m; recommendation := Some r;
     impact := Some i |}.

(** One of the five blocks [if cond: issues.append(i); checks[name] = False]
    [else: checks[name] = True]. *)
Definition flag (name : string) (cond : bool) (i : issue) (st : report) : report :=
  if cond then
    {| score := score st; issues := issues st ++ [i];
       checks := <[name := Some false]> (checks st) |}
  else
    {| score := score st; issues := issues st;
       checks := <[name := Some true]> (checks st) |}.

(** The body of the [try] once the status is 200 and the JSON is read;
    [None] stands for an exception, which the [except] turns into the
    fallback. *)
Definition analyze_lighthouse (data : lighthouse) : option report :=
  let score_or_0 :=
    match performance_score data with
    | Num x => x
    | _ => PyFloat.of_int 0
    end in
  performance_score ← PyFloat.to_int (PyFloat.mul score_or_0 (PyFloat.of_int 100));
  let lcp := largest_contentful_paint data in
  let cls := cumulative_layout_shift data in
  let fcp := first_contentful_paint data in
  let st := {| score := performance_score; issues := []; checks := ∅ |} in
  slow_lcp ← metric_exceeds lcp (PyFloat.of_int 2500);
  let st := flag "lcp" slow_lcp
              (perf_issue Error "slow_lcp"
                 ("Largest Contentful Paint is slow (" +:+ display lcp +:+ ")")
                 "Optimize images, remove render-blocking resources" High) st in
  high_cls ← metric_exceeds cls (PyFloat.literal 1 10);
  let st := flag "cls" high_cls
              (perf_issue Warning "high_cls"
                 ("Cumulative Layout Shift is high (" +:+ display cls +:+ ")")
                 "Specify image dimensions, avoid dynamic content insertion" Medium) st in
  slow_fcp ← metric_exceeds fcp (PyFloat.of_int 1800);
  let st := flag "fcp" slow_fcp
              (perf_issue Warning "slow_fcp"
                 ("First Contentful Paint is slow (" +:+ display fcp +:+ ")")
                 "Reduce server response time, optimize critical rendering path"
                 Medium) st in
  unoptimized ← lt (from_option audit_score Absent (uses_optimized_images data))
                   (PyFloat.of_int 1) (PyFloat.literal 9 10);
  let st := flag "imageOptimization" unoptimized
              (perf_issue Warning "unoptimized_images" "Images are not optimized"
                 "Compress images and use modern formats (WebP)" Medium) st in
  large ← gt (from_option numericValue Absent (total_byte_weight data))
             (PyFloat.of_int 0) (PyFloat.of_int 2000000);
  let st := flag "bundleSize" large
              (perf_issue Warning "large_bundle" "Page size is too large"
                 "Reduce JavaScript bundle size, lazy load non-critical resources"
                 Medium) st in
  lazy ← ge (from_option audit_score Absent (offscreen_images data))
            (PyFloat.of_int 0) (PyFloat.literal 9 10);
  Some {| score := score st; issues := issues st;
          checks := <["lazyLoading" := Some lazy]> (checks st) |}.

(** [analyze]; [api_key] is the attribute set from the environment
    variable [PAGESPEED_API_KEY] (the empty string when it is unset). *)
Definition analyze (api_key : string) (reply : provider) (url : string) : report :=
  if negb (Py.truthy api_key) then _get_fallback_analysis url
  else
    match reply with
    | CallRaises => _get_fallback_analysis url
    | Reply status_code body =>
        if negb (status_code =? 200)%Z then _get_fallback_analysis url
        else
          match body ≫= analyze_lighthouse with
          | Some r => r
          | None => _get_fallback_analysis url
          end
    end.

End Performance.

(** ** [main.py] *)

Module Main.
Import PageData Report.

Definition mobile_issue (t : issue_type) (m : string) (i : impact_level) : issue :=
  {| type := t; code := None; message := m; recommendation := None;
     impact := Some i |}.

Definition calculate_mobile_score (pd : page_data) (performance : report) : report :=
  let issues : list issue := [] in
  let score := 100%Z in
  let '(issues, score) :=
    if negb (viewport_meta pd) then
      ((issues ++ [mobile_issue Error "Missing viewport meta tag" High])%list,
       (score - 20)%Z)
    else (issues, score) in
  let small_buttons := default 0%Z (small_touch_targets pd) in
  let '(issues, score) :=
    if (0 <? small_buttons)%Z then
      ((issues ++ [mobile_issue Warning
                     (Py.str_of_int small_buttons +:+ " touch targets are too small")
                     Medium])%list,
       (score - Z.min (small_buttons * 2) 15)%Z)
    else (issues, score) in
  let '(issues, score) :=
    if (5 <? default 0 (small_text_count pd))%Z then
      ((issues ++ [mobile_issue Warning "Text too small to read on mobile" Medium])%list,
       (score - 10)%Z)
    else (issues, score) in
  let '(issues, score) :=
    if default false (horizontal_scroll pd) then
      ((issues ++ [mobile_issue Error "Content wider than screen" High])%list,
       (score - 15)%Z)
    else (issues, score) in
  {| score := Z.max 0 score;
     issues := issues;
     checks :=
       <["noHorizontalScroll" := Some (negb (default false (horizontal_scroll pd)))]>
       (<["readableText" := Some (default 0 (small_text_count pd) <=? 5)%Z]>
       (<["touchTargets" := Some (small_buttons =? 0)%Z]>
       (<["viewportMeta" := Some (viewport_meta pd)]> ∅))) |}.

(** The dictionary [weights]. *)
Definition weight_technical : PyFloat.float := PyFloat.literal 25 100.
Definition weight_onpage : PyFloat.float := PyFloat.literal 25 100.
Definition weight_performance : PyFloat.float := PyFloat.literal 25 100.
Definition weight_security : PyFloat.float := PyFloat.literal 10 100.
Definition weight_mobile : PyFloat.float := PyFloat.literal 15 100.

(** [int * float]: the integer is converted first. *)
Definition times (n : Z) (w : PyFloat.float) : PyFloat.float :=
  PyFloat.mul (PyFloat.of_int n) w.

Definition calculate_overall_score (technical onpage performance security mobile : Z)
    : option Z :=
  let score :=
    PyFloat.add
      (PyFloat.add
         (PyFloat.add
            (PyFloat.add (times technical weight_technical)
                         (times onpage weight_onpage))
            (times performance weight_performance))
         (times security weight_security))
      (times mobile weight_mobile) in
  PyFloat.round score.

End Main.

(** ** The aggregation formula as the specification words it

    The weighted sum is the rational
    [(5*technical + 5*onPage + 5*performance + 2*security + 3*mobile) / 20];
    it is rounded to an integer, ties to even or ties up. *)

Module Spec.

Definition weighted_sum_20 (technical onpage performance security mobile : Z) : Z :=
  5 * technical + 5 * onpage + 5 * performance + 2 * security + 3 * mobile.

Definition round_half_even (n d : Z) : Z :=
  let q := (n / d)%Z in
  match (2 * (n mod d) ?= d)%Z with
  | Lt => q
  | Gt => (q + 1)%Z
  | Eq => if Z.even q then q else (q + 1)%Z
  end.

Definition round_half_up (n d : Z) : Z := ((2 * n + d) / (2 * d))%Z.

Definition overall_half_even (technical onpage performance security mobile : Z) : Z :=
  round_half_even (weighted_sum_20 technical onpage performance security mobile) 20.

Definition overall_half_up (technical onpage performance security mobile : Z) : Z :=
  round_half_up (weighted_sum_20 technical onpage performance security mobile) 20.

End Spec.

(** ** Values of binary64 numbers, for the analysis of the aggregation

    The sums that [calculate_overall_score] forms are non-negative and
    below 128; their values are followed as integers, scaled by a power
    of two that makes every number involved an integer. *)

Module Binary64.

(** After [k] right shifts from [(m, false, false)] the record holds the
    quotient of [m] by [2^k], and its round and sticky bits place the
    remainder with respect to the half of [2^k]. *)
Definition shifted (m k : Z) (mrs : shr_record) : Prop :=
  (0 ≤ shr_m mrs
   ∧ ∃ rem, m = shr_m mrs * 2 ^ k + rem ∧ 0 ≤ rem < 2 ^ k
       ∧ (shr_r mrs = true ↔ 2 ^ k ≤ 2 * rem)
       ∧ (shr_s mrs = true ↔ if shr_r mrs then 2 ^ k < 2 * rem else 0 < rem))%Z.

(** The value of a non-negative finite binary64 number, times [2^K]. *)
Definition scaled (K : Z) (x : PyFloat.float) : Z :=
  match x with
  | S754_finite false m e => (Zpos m * 2 ^ (e + K))%Z
  | _ => 0%Z
  end.

(** [x] is zero or a positive finite number whose exponent is at least
    [- L]. *)
Definition in_range (L : Z) (x : PyFloat.float) : bool :=
  match x with
  | S754_zero false => true
  | S754_finite false _ e => (- L <=? e)%Z
  | _ => false
  end.

(** The products [n * 0.25], [n * 0.10] and [n * 0.15] for a score [n]:
    the first is [n / 4], the others are within [2^-43 / 10] and
    [2^-43 / 20] of [n / 10] and [3 * n / 20]. *)
Definition products_ok (n : Z) : bool :=
  let quarter := Main.times n Main.weight_technical in
  let tenth := Main.times n Main.weight_security in
  let fifteen := Main.times n Main.weight_mobile in
  (in_range 60 quarter && in_range 60 tenth && in_range 60 fifteen
   && (4 * scaled 300 quarter =? n * 2 ^ 300)
   && (Z.abs (10 * scaled 300 tenth - n * 2 ^ 300) <=? 2 ^ 257)
   && (Z.abs (20 * scaled 300 fifteen - 3 * n * 2 ^ 300) <=? 2 ^ 257))%Z.

End Binary64.

(** ** Notions the claims are worded with *)

Module Claims.

(** The number of URLs of a list that begin with [http://]. *)
Definition http_count (urls : list string) : nat :=
  length (filter (λ u, Py.startswith u "http://" = true) urls).

(** A title, description or alternative text of [n] characters. *)
Definition text_of_length (n : nat) : string := Py.repeat_str n "x".

(** The metrics provider is unavailable: no credential is configured,
    the call raises, or the answer's status is not 200. *)
Definition provider_unavailable (api_key : string) (reply : Performance.provider) : Prop :=
  api_key = ""
  ∨ reply = Performance.CallRaises
  ∨ ∃ status_code body, reply = Performance.Reply status_code body ∧ status_code ≠ 200%Z.

(** What a check takes from the score in the loop of [analyze]. *)
Definition penalty (r : Report.check_result) : Z :=
  if Report.passed r then 0%Z else Report.deduction r.

(** The same for a check that reports a list of issues. *)
Definition penalty_multi (r : Report.multi_result) : Z :=
  if Report.m_passed r then 0%Z else Report.m_deduction r.

(** A GET that returned status 200 with [xml] in its content type. *)
Definition serves_sitemap (o : Net.outcome) : Prop :=
  ∃ response ct, o = Net.Responded response
    ∧ Net.status response = 200%Z
    ∧ Net.content_type response = Some ct
    ∧ Py.contains "xml" ct = true.

(** The two URLs that [_check_sitemap] probes. *)
Definition sitemap_urls (parsed : Net.parsed_url) : list string :=
  [Net.scheme parsed +:+ "://" +:+ Net.netloc parsed +:+ "/sitemap.xml";
   Net.scheme parsed +:+ "://" +:+ Net.netloc parsed +:+ "/sitemap_index.xml"].

End Claims.

(** ** Concrete inputs used by the examples below *)

Module Fixtures.
Import Soup.

(** [urljoin] on an absolute reference returns the reference. *)
Definition urljoin_absolute (base reference : string) : string := reference.

(** A page whose only paragraph holds 6000 one-letter words. *)
#[warnings="-abstract-large-number"]
Definition long_page : soup :=
  [Tag "html" ∅ [Tag "body" ∅ [Tag "p" ∅ [NavigableString (Py.repeat_str 6000 "a ")]]]].

(** [<img src="https://example.com/a.png" alt="">]. *)
Definition decorative_img : gmap string string :=
  <["alt" := ""]> (<["src" := "https://example.com/a.png"]> ∅).

Definition decorative_page : soup :=
  [Tag "html" ∅ [Tag "body" ∅ [Tag "img" decorative_img []]]].

(** [s] cut at the first occurrence of [sep]. *)
Fixpoint cut (sep s : string) : option (string * string) :=
  if String.prefix sep s then
    Some ("", String.substring (String.length sep)
                (String.length s - String.length sep) s)
  else
    match s with
    | "" => None
    | String c rest =>
        match cut sep rest with
        | Some (before, after) => Some (String c before, after)
        | None => None
        end
    end.

(** [urlparse] on URLs of the shape [scheme://host/path]. *)
Definition urlparse_simple (u : string) : option Net.parsed_url :=
  match cut "://" u with
  | Some (sch, rest) =>
      match cut "/" rest with
      | Some (host, p) =>
          Some {| Net.scheme := sch; Net.netloc := host; Net.path := "/" +:+ p |}
      | None => Some {| Net.scheme := sch; Net.netloc := rest; Net.path := "" |}
      end
  | None => Some {| Net.scheme := ""; Net.netloc := ""; Net.path := u |}
  end.

(** A network on which every GET raises. *)
Definition offline : Net.network := Some (λ _, Net.Raised).

(** A network that answers 200 with an XML content type everywhere. *)
Definition serving : Net.network :=
  Some (λ _, Net.Responded {| Net.status := 200;
                               Net.content_type := Some "application/xml" |}).

Definition img (src alt : string) : Crawler.image :=
  {| Crawler.src := src; Crawler.alt := alt; Crawler.has_alt := Py.truthy alt;
     Crawler.loading := ""; Crawler.width := ""; Crawler.height := "" |}.

Definition link_to (u : string) : PageData.link :=
  {| PageData.link_url := u; PageData.link_text := "more"; PageData.rel := [];
     PageData.nofollow := false |}.

(** A page on which every check of the three analyzers passes; its
    images, canonical URL and page URL are the arguments. *)
Definition page (url : string) (canonical : option string)
    (images : list Crawler.image) : PageData.page_data :=
  {| PageData.url := url;
     PageData.status_code := 200;
     PageData.headers :=
       <["X-Content-Type-Options" := "nosniff"]>
       (<["X-Frame-Options" := "DENY"]>
       (<["Strict-Transport-Security" := "max-age=63072000"]>
       (<["Content-Security-Policy" := "default-src 'self'"]> ∅)));
     PageData.redirects := [];
     PageData.title := Some (Claims.text_of_length 40);
     PageData.meta_description := Some (Claims.text_of_length 120);
     PageData.canonical := canonical;
     PageData.robots_meta := None;
     PageData.viewport_meta := true;
     PageData.og_tags :=
       <["title" := "t"]> (<["description" := "d"]> (<["image" := "i"]> ∅));
     PageData.headings := <["h1" := ["Welcome"]]> (<["h2" := ["More"]]> ∅);
     PageData.internal_links :=
       [link_to "https://example.com/a"; link_to "https://example.com/b"];
     PageData.external_links := [];
     PageData.images := images;
     PageData.word_count := 450;
     PageData.text_content := "";
     PageData.scripts := [];
     PageData.stylesheets := [];
     PageData.has_schema := true;
     PageData.schema_types := ["Organization"];
     PageData.lang := Some "en";
     PageData.small_touch_targets := None;
     PageData.small_text_count := None;
     PageData.horizontal_scroll := None |}.

Definition good_page : PageData.page_data :=
  page "https://example.com/" (Some "https://example.com/")
    [img "https://example.com/logo.png" "logo"].

(** The same page with one image fetched over [http://]. *)
Definition mixed_page : PageData.page_data :=
  page "https://example.com/" (Some "https://example.com/")
    [img "https://example.com/logo.png" "logo"; img "http://cdn.example.com/b.png" "b"].

(** The same page declaring another path as canonical. *)
Definition moved_page : PageData.page_data :=
  page "https://example.com/" (Some "https://example.com/home")
    [img "https://example.com/logo.png" "logo"].

(** The same page without a title. *)
Definition untitled_page : PageData.page_data :=
  let p := good_page in
  {| PageData.url := PageData.url p;
     PageData.status_code := PageData.status_code p;
     PageData.headers := PageData.headers p;
     PageData.redirects := PageData.redirects p;
     PageData.title := None;
     PageData.meta_description := PageData.meta_description p;
     PageData.canonical := PageData.canonical p;
     PageData.robots_meta := PageData.robots_meta p;
     PageData.viewport_meta := PageData.viewport_meta p;
     PageData.og_tags := PageData.og_tags p;
     PageData.headings := PageData.headings p;
     PageData.internal_links := PageData.internal_links p;
     PageData.external_links := PageData.external_links p;
     PageData.images := PageData.images p;
     PageData.word_count := PageData.word_count p;
     PageData.text_content := PageData.text_content p;
     PageData.scripts := PageData.scripts p;
     PageData.stylesheets := PageData.stylesheets p;
     PageData.has_schema := PageData.has_schema p;
     PageData.schema_types := PageData.schema_types p;
     PageData.lang := PageData.lang p;
     PageData.small_touch_targets := PageData.small_touch_targets p;
     PageData.small_text_count := PageData.small_text_count p;
     PageData.horizontal_scroll := PageData.horizontal_scroll p |}.

End Fixtures.

(** ** More of Python's [str] *)

Module PyText.

(** [s.lstrip()]: the blanks are the characters of [isspace]. *)
Fixpoint lstrip (s : string) : string :=
  match s with
  | "" => ""
  | String c rest => if Py.isspace c then lstrip rest else s
  end.

(** [s.rstrip()]. *)
Fixpoint rstrip (s : string) : string :=
  match s with
  | "" => ""
  | String c rest =>
      match rstrip rest with
      | "" => if Py.isspace c then "" else String c ""
      | kept => String c kept
      end
  end.

(** [s.strip()]. *)
Definition strip (s : string) : string := rstrip (lstrip s).

(** [s.replace(old, new)] for a non-empty [old]: the occurrences of [old]
    are replaced from left to right, an occurrence starting where the
    previous one ended at the earliest; [skip] counts the characters of
    the occurrence being replaced that are still to be passed. *)
Fixpoint replace_from (old new : string) (skip : nat) (s : string) : string :=
  match s with
  | "" => ""
  | String c rest =>
      match skip with
      | S k => replace_from old new k rest
      | O =>
          if String.prefix old s
          then new +:+ replace_from old new (String.length old - 1) rest
          else String c (replace_from old new 0 rest)
      end
  end.

Definition replace (old new s : string) : string := replace_from old new 0 s.

End PyText.

(** ** Searching the parse tree: [find_all], [find], [get_text(strip=True)] *)

Module Find.
Import Soup.

(** The attribute dictionary of an element. *)
Definition attrs (n : node) : gmap string string :=
  match n with
  | Tag _ a _ => a
  | NavigableString _ => ∅
  end.

(** [soup.find_all(...)]: the elements whose name and attributes satisfy
    the condition [p], in document order; [matches] is the condition on
    a node. *)
Definition matches (p : string → gmap string string → bool) (n : node) : bool :=
  match n with
  | Tag t a _ => p t a
  | NavigableString _ => false
  end.

Definition find_all (p : string → gmap string string → bool) (doc : soup) : list node :=
  filter (λ n, matches p n) (flat_map descendants doc).

(** [soup.find(...)]: the first of them, or [None]. *)
Definition find (p : string → gmap string string → bool) (doc : soup) : option node :=
  head (find_all p doc).

(** The conditions the extractors search with: the name of the element,
    [attrs={key: value}], [key=True], and a value of the blank-separated
    list of [rel]. *)
Definition named (name : string) (t : string) (a : gmap string string) : bool :=
  String.eqb t name.

Definition attr_is (key value : string) (t : string) (a : gmap string string) : bool :=
  bool_decide (a !! key = Some value).

Definition has_attr (key : string) (t : string) (a : gmap string string) : bool :=
  bool_decide (is_Some (a !! key)).

Definition rel_list (a : gmap string string) : list string :=
  Py.split (get a "rel" "").

Definition rel_has (value : string) (t : string) (a : gmap string string) : bool :=
  existsb (String.eqb value) (rel_list a).

(** [re.compile(r'^og:')] searched in the value of [key]. *)
Definition attr_starts (key pre : string) (t : string) (a : gmap string string) : bool :=
  match a !! key with
  | Some v => Py.startswith v pre
  | None => false
  end.

Definition both (p q : string → gmap string string → bool)
    (t : string) (a : gmap string string) : bool :=
  p t a && q t a.

(** [tag.get_text(strip=True)]: the text nodes below the element, each
    stripped, the empty ones dropped, joined without a separator. *)
Definition get_text_strip (n : node) : string :=
  Py.join "" (filter (λ s, Py.truthy s) (PyText.strip <$> all_strings n)).

(** [tag.string]: the text of an element whose only child is a text node,
    or an element with such a [.string]. *)
Fixpoint string_of (n : node) : option string :=
  match n with
  | NavigableString s => Some s
  | Tag _ _ [c] => string_of c
  | Tag _ _ _ => None
  end.

End Find.

(** ** The other extractors of [crawler.py], and [crawl] *)

Module Extract.
Import Soup Find PageData Net.

(** What [await client.get(url, headers=self.headers)] returned, with
    [response.text] parsed by [BeautifulSoup(response.text, 'lxml')]. *)
Record fetched := {
  response_url : string;
  response_status_code : Z;
  response_headers : gmap string string;
  response_history : list string;
  response_soup : soup
}.

Section WithLibraries.

(** [urllib.parse.urljoin]. *)
Variable urljoin : string → string → string.

(** [urllib.parse.urlparse]; [None] stands for the [ValueError] it
    raises on a malformed URL. *)
Variable urlparse : string → option parsed_url.

(** The body of the [try] of [_get_schema_types] for one JSON-LD script:
    the [@type] values that [json.loads(script.string)] leads it to
    append, none when an exception is raised. *)
Variable ld_json_types : option string → list string.

Definition _get_title (doc : soup) : option string :=
  match find (named "title") doc with
  | Some title_tag => Some (get_text_strip title_tag)
  | None => None
  end.

Definition _get_meta_description (doc : soup) : option string :=
  match find (both (named "meta") (attr_is "name" "description")) doc with
  | Some meta => Some (PyText.strip (get (attrs meta) "content" ""))
  | None => None
  end.

Definition _get_canonical (doc : soup) (base_url : string) : option string :=
  match find (both (named "link") (rel_has "canonical")) doc with
  | Some link =>
      if Py.truthy_opt (attrs link !! "href")
      then Some (urljoin base_url (get (attrs link) "href" ""))
      else None
  | None => None
  end.

Definition _get_robots_meta (doc : soup) : option string :=
  match find (both (named "meta") (attr_is "name" "robots")) doc with
  | Some meta => Some (PyText.strip (get (attrs meta) "content" ""))
  | None => None
  end.

Definition _get_viewport_meta (doc : soup) : bool :=
  match find (both (named "meta") (attr_is "name" "viewport")) doc with
  | Some _ => true
  | None => false
  end.

(** The body of the loop of [_get_og_tags], for one [meta] element. *)
Definition og_step (og_tags : gmap string string) (meta : node) : gmap string string :=
  let prop := PyText.replace "og:" "" (get (attrs meta) "property" "") in
  let content := get (attrs meta) "content" "" in
  if Py.truthy prop && Py.truthy content then <[prop := content]> og_tags else og_tags.

Definition _get_og_tags (doc : soup) : gmap string string :=
  foldl og_step ∅ (find_all (both (named "meta") (attr_starts "property" "og:")) doc).

(** The body of the loop of [_get_headings], for one level. *)
Definition headings_step (doc : soup) (headings : gmap string (list string))
    (level : nat) : gmap string (list string) :=
  let tag := "h" +:+ Py.str_of_nat level in
  <[tag := get_text_strip <$> find_all (named tag) doc]> headings.

Definition _get_headings (doc : soup) : gmap string (list string) :=
  foldl (headings_step doc) ∅ (seq 1 6).

(** What the two loops over [soup.find_all('a', href=True)] compute for
    one anchor: the parsed absolute URL and the dictionary of the link.
    The key ["nofollow"] is written for an external link only, and no
    code reads it. *)
Definition link_of (base_url : string) (a : node) : option (parsed_url * link) :=
  let href := get (attrs a) "href" "" in
  let full_url := urljoin base_url href in
  parsed ← urlparse full_url;
  Some (parsed,
        {| link_url := full_url;
           link_text := Py.slice_to 100 (get_text_strip a);
           rel := rel_list (attrs a);
           nofollow := existsb (String.eqb "nofollow") (rel_list (attrs a)) |}).

Definition anchors (doc : soup) : list node :=
  find_all (both (named "a") (has_attr "href")) doc.

Definition is_internal (base_domain : string) (parsed : parsed_url) : bool :=
  String.eqb (netloc parsed) base_domain || negb (Py.truthy (netloc parsed)).

Definition is_external (base_domain : string) (parsed : parsed_url) : bool :=
  Py.truthy (netloc parsed) && negb (String.eqb (netloc parsed) base_domain).

(** The list [internal] before the slice. *)
Definition internal_all (doc : soup) (base_url : string) : option (list link) :=
  base ← urlparse base_url;
  links ← mapM (link_of base_url) (anchors doc);
  Some (snd <$> filter (λ pl, is_internal (netloc base) pl.1) links).

Definition _get_internal_links (doc : soup) (base_url : string) : option (list link) :=
  internal ← internal_all doc base_url;
  Some (take 100 internal).

(** The list [external] before the slice. *)
Definition external_all (doc : soup) (base_url : string) : option (list link) :=
  base ← urlparse base_url;
  links ← mapM (link_of base_url) (anchors doc);
  Some (snd <$> filter (λ pl, is_external (netloc base) pl.1) links).

Definition _get_external_links (doc : soup) (base_url : string) : option (list link) :=
  external ← external_all doc base_url;
  Some (take 50 external).

Definition _has_schema (doc : soup) : bool :=
  match find (both (named "script") (attr_is "type" "application/ld+json")) doc with
  | Some _ => true
  | None =>
      match find (has_attr "itemscope") doc with
      | Some _ => true
      | None => false
      end
  end.

Definition _get_schema_types (doc : soup) : list string :=
  let types :=
    flat_map (λ script, ld_json_types (string_of script))
      (find_all (both (named "script") (attr_is "type" "application/ld+json")) doc) in
  types ++ ((λ elem, get (attrs elem) "itemtype" "") <$> find_all (has_attr "itemtype") doc).

Definition _get_language (doc : soup) : option string :=
  match find (named "html") doc with
  | Some html => attrs html !! "lang"
  | None => None
  end.

(** [crawl]: the entries of the dictionary are evaluated in the order of
    the display, on the one tree, which [_get_word_count] and
    [_get_text_content] change; [None] stands for the dictionary with
    the key ["error"] that the three [except] clauses return.  The keys
    [small_touch_targets], [small_text_count] and [horizontal_scroll]
    are not written. *)
Definition crawl (client_get : string → option fetched) (url : string)
    : option page_data :=
  response ← client_get url;
  let soup := response_soup response in
  let title := _get_title soup in
  let meta_description := _get_meta_description soup in
  let canonical := _get_canonical soup url in
  let robots_meta := _get_robots_meta soup in
  let viewport_meta := _get_viewport_meta soup in
  let og_tags := _get_og_tags soup in
  let headings := _get_headings soup in
  internal_links ← _get_internal_links soup url;
  external_links ← _get_external_links soup url;
  let images := Crawler._get_images urljoin soup url in
  let '(soup, word_count) := Crawler._get_word_count soup in
  let '(soup, text_content) := Crawler._get_text_content soup in
  let scripts := Crawler._get_scripts soup in
  let stylesheets := Crawler._get_stylesheets soup in
  let has_schema := _has_schema soup in
  let schema_types := _get_schema_types soup in
  let lang := _get_language soup in
  Some {| PageData.url := response_url response;
          PageData.status_code := response_status_code response;
          PageData.headers := response_headers response;
          PageData.redirects := response_history response;
          PageData.title := title;
          PageData.meta_description := meta_description;
          PageData.canonical := canonical;
          PageData.robots_meta := robots_meta;
          PageData.viewport_meta := viewport_meta;
          PageData.og_tags := og_tags;
          PageData.headings := headings;
          PageData.internal_links := internal_links;
          PageData.external_links := external_links;
          PageData.images := images;
          PageData.word_count := word_count;
          PageData.text_content := text_content;
          PageData.scripts := scripts;
          PageData.stylesheets := stylesheets;
          PageData.has_schema := has_schema;
          PageData.schema_types := schema_types;
          PageData.lang := lang;
          PageData.small_touch_targets := None;
          PageData.small_text_count := None;
          PageData.horizontal_scroll := None |}.

End WithLibraries.

End Extract.

(** ** [_list_security_headers] of [security.py] *)

Module SecurityData.

Definition security_headers : list string :=
  ["strict-transport-security"; "content-security-policy"; "x-content-type-options";
   "x-frame-options"; "x-xss-protection"; "referrer-policy"; "permissions-policy"].

Definition _list_security_headers (headers : gmap string string) : list string :=
  filter (λ h, Security.in_headers_lower headers h) security_headers.

End SecurityData.

(** ** The endpoint [analyze_url] of [main.py] *)

Module Endpoint.
Import PageData Report Net.

(** The dictionary the endpoint returns. *)
Record audit := {
  audit_url : string;
  technical : report;
  onPage : report;
  performance : report;
  security : report;
  mobile : report;
  overallScore : Z
}.

(** The endpoint returns the dictionary or raises [HTTPException]. *)
Inductive outcome := HTTPException (status_code : Z) | Returned (body : audit).

(** What the endpoint meets outside the program: the library functions,
    the answer to the crawler's GET, the networks that the probes of the
    technical and of the security analyzer find, the API key of the
    environment and the answer of the metrics provider. *)
Record world := {
  urljoin : string → string → string;
  urlparse : string → option parsed_url;
  ld_json_types : option string → list string;
  client_get : string → option Extract.fetched;
  technical_net : network;
  security_net : network;
  api_key : string;
  provider_reply : Performance.provider
}.

(** The calls between the crawl and the [return]: [None] stands for an
    exception, which the last [except] turns into status 500. *)
Definition run_analyzers (w : world) (url : string) (page_data : page_data)
    : option audit :=
  technical_results ← Technical.analyze (urlparse w) (technical_net w) url page_data;
  let onpage_results := OnPage.analyze page_data in
  let performance_results := Performance.analyze (api_key w) (provider_reply w) url in
  security_results ← Security.analyze (urlparse w) (security_net w) url page_data;
  let mobile_score := Main.calculate_mobile_score page_data performance_results in
  overall_score ←
    Main.calculate_overall_score (score technical_results) (score onpage_results)
      (score performance_results) (score security_results) (score mobile_score);
  Some {| audit_url := url;
          technical := technical_results;
          onPage := onpage_results;
          performance := performance_results;
          security := security_results;
          mobile := mobile_score;
          overallScore := overall_score |}.

Definition analyze_url (w : world) (url : string) : outcome :=
  match Extract.crawl (urljoin w) (urlparse w) (ld_json_types w) (client_get w) url with
  | None => HTTPException 400
  | Some page_data =>
      match run_analyzers w url page_data with
      | Some body => Returned body
      | None => HTTPException 500
      end
  end.

End Endpoint.
(** ** Notions the further properties are worded with *)

Module Notions.

(** A word: a non-empty string without a blank. *)
Fixpoint no_blank (s : string) : bool :=
  match s with
  | "" => true
  | String c rest => negb (Py.isspace c) && no_blank rest
  end.

Definition word (s : string) : bool := Py.truthy s && no_blank s.

(** What the loop of [_get_og_tags] writes under the key [k] for one
    [meta] element, if anything. *)
Definition og_entry (k : string) (meta : Soup.node) : option string :=
  let prop := PyText.replace "og:" "" (Soup.get (Find.attrs meta) "property" "") in
  let content := Soup.get (Find.attrs meta) "content" "" in
  if String.eqb prop k && Py.truthy prop && Py.truthy content then Some content else None.

(** The [meta] elements that [_get_og_tags] visits. *)
Definition og_metas (doc : Soup.soup) : list Soup.node :=
  Find.find_all (Find.both (Find.named "meta") (Find.attr_starts "property" "og:")) doc.

(** The percentage that [_check_images] computes for [missing] images
    out of [total], and the test that it exceeds 50 exactly when more
    than half of the images are missing, for every [missing] from 1 to
    [total]. *)
Definition percentage (missing total : Z) : PyFloat.float :=
  PyFloat.mul (PyFloat.div (PyFloat.of_int missing) (PyFloat.of_int total))
    (PyFloat.of_int 100).

Definition percentage_exact (total : Z) : bool :=
  forallb (λ missing, Bool.eqb (PyFloat.ltb (PyFloat.of_int 50) (percentage missing total))
                        (total <? 2 * missing)%Z)
          (seqZ 1 total).

(** A GET that returned status 200. *)
Definition answers_200 (o : Net.outcome) : bool :=
  match o with
  | Net.Responded response => (Net.status response =? 200)%Z
  | Net.Raised => false
  end.

(** The URL that [_check_robots_txt] probes, and the prefix of the URLs
    that [_check_sensitive_paths] probes. *)
Definition robots_url (parsed : Net.parsed_url) : string :=
  Net.scheme parsed +:+ "://" +:+ Net.netloc parsed +:+ "/robots.txt".

Definition base_url (parsed : Net.parsed_url) : string :=
  Net.scheme parsed +:+ "://" +:+ Net.netloc parsed.

(** The sensitive paths that answer 200 on a network. *)
Definition exposed (net : Net.network) (parsed : Net.parsed_url) : list string :=
  match net with
  | Some client =>
      filter (λ path, answers_200 (client (base_url parsed +:+ path)))
        Security.sensitive_paths
  | None => []
  end.

(** The float that [analyze] truncates to the performance score:
    [(categories.performance.score or 0) * 100]. *)
Definition score_times_100 (data : Performance.lighthouse) : PyFloat.float :=
  PyFloat.mul
    match Performance.performance_score data with
    | Performance.Num x => x
    | _ => PyFloat.of_int 0
    end
    (PyFloat.of_int 100).





(** The score that [analyze] reports for the provider's score [k/100]. *)
Definition truncated (k : Z) : option Z :=
  PyFloat.to_int (PyFloat.mul (PyFloat.literal k 100) (PyFloat.of_int 100)).

Definition truncated_as_expected (k : Z) : bool :=
  bool_decide (truncated k = Some (if bool_decide (k ∈ [29; 57; 58]%Z) then k - 1 else k)%Z).

(** A string that [strip] leaves as it is: it does not begin with a
    blank and [rstrip] takes nothing from it. *)
Definition starts_with_blank (s : string) : bool :=
  match s with
  | "" => false
  | String c _ => Py.isspace c
  end.

Definition stripped (s : string) : Prop :=
  starts_with_blank s = false ∧ PyText.rstrip s = s.

(** What the loop of [analyze] appends to [issues] for one check. *)
Definition reported (r : Report.check_result) : list Report.issue :=
  if Report.passed r then [] else option_list (Report.issue_of r).

(** A check that failed carries an issue, and not the canonical-mismatch
    warning. *)
Definition failure_reported (r : Report.check_result) : Prop :=
  Report.passed r = false →
  ∃ i, Report.issue_of r = Some i ∧ Report.code i ≠ Some "canonical_mismatch".

(** The number of entries of [checks] that are [False]. *)
Definition failed_checks (r : Report.report) : nat :=
  length (filter (λ kv : string * option bool, kv.2 = Some false)
            (map_to_list (Report.checks r))).

End Notions.

(** ** A page and its surroundings, for the examples *)

Module Samples.
Import Soup.

Definition quote : string := String (ascii_of_nat 34) "".

(** The text of a JSON-LD script. *)
Definition json_ld : string :=
  "{" +:+ quote +:+ "@type" +:+ quote +:+ ": " +:+ quote +:+ "Organization" +:+ quote +:+ "}".

Definition attr (k v : string) : gmap string string := <[k := v]> ∅.

(** A shop page: its structured data is a JSON-LD script, its [h1] is in
    the [header], and it links to one page of its own host and to one
    of another host. *)
Definition shop_page : soup :=
  [Tag "html" (attr "lang" "en")
     [Tag "head" ∅
        [Tag "title" ∅ [NavigableString " Shop "];
         Tag "meta" (<["content" := "width=device-width"]> (attr "name" "viewport")) [];
         Tag "meta" (<["content" := "Shop"]> (attr "property" "og:title")) [];
         Tag "meta" (<["content" := ""]> (attr "property" "og:image")) [];
         Tag "script" (attr "type" "application/ld+json") [NavigableString json_ld]];
      Tag "body" ∅
        [Tag "header" ∅ [Tag "h1" ∅ [NavigableString "Shop"]];
         Tag "p" ∅ [NavigableString "All  our goods "];
         Tag "a" (attr "href" "https://shop.example/about") [NavigableString "About"];
         Tag "a" (<["rel" := "nofollow noopener"]> (attr "href" "https://other.example/"))
           [NavigableString "Partner"]]]].

(** The JSON-LD reading of a script that holds [json_ld]. *)
Definition ld_types (text : option string) : list string :=
  match text with
  | Some _ => ["Organization"]
  | None => []
  end.

Definition shop_response : Extract.fetched :=
  {| Extract.response_url := "https://shop.example/";
     Extract.response_status_code := 200;
     Extract.response_headers := attr "content-type" "text/html";
     Extract.response_history := [];
     Extract.response_soup := shop_page |}.

(** A world in which the shop answers, the probes find nothing to GET
    and no API key is configured. *)
Definition shop_world : Endpoint.world :=
  {| Endpoint.urljoin := Fixtures.urljoin_absolute;
     Endpoint.urlparse := Fixtures.urlparse_simple;
     Endpoint.ld_json_types := ld_types;
     Endpoint.client_get := λ _, Some shop_response;
     Endpoint.technical_net := Fixtures.offline;
     Endpoint.security_net := Fixtures.offline;
     Endpoint.api_key := "";
     Endpoint.provider_reply := Performance.CallRaises |}.

(** A network that answers every GET with the given status and an HTML
    content type. *)
Definition answering (status : Z) : Net.network :=
  Some (λ _, Net.Responded {| Net.status := status;
                               Net.content_type := Some "text/html" |}).

(** A page on which every check of the on-page and of the technical
    analyzer fails with its largest deduction, and every check of the
    security analyzer once it is requested over [http://] and served,
    after a redirect, over [https://]. *)
Definition worst_page : PageData.page_data :=
  {| PageData.url := "https://old.example/";
     PageData.status_code := 404;
     PageData.headers := ∅;
     PageData.redirects := ["http://old.example/"; "http://old.example/a";
                            "http://old.example/b"];
     PageData.title := None;
     PageData.meta_description := Some "";
     PageData.canonical := None;
     PageData.robots_meta := Some "NOINDEX, nofollow";
     PageData.viewport_meta := false;
     PageData.og_tags := ∅;
     PageData.headings := <["h2" := ["News"]]> ∅;
     PageData.internal_links := [];
     PageData.external_links := [];
     PageData.images := [Fixtures.img "http://old.example/a.png" ""];
     PageData.word_count := 12;
     PageData.text_content := "";
     PageData.scripts := [];
     PageData.stylesheets := [];
     PageData.has_schema := false;
     PageData.schema_types := [];
     PageData.lang := None;
     PageData.small_touch_targets := None;
     PageData.small_text_count := None;
     PageData.horizontal_scroll := None |}.

(** An answer of the metrics provider with the score [k/100], a largest
    contentful paint with the given [numericValue] and no other audit. *)
Definition lighthouse_reply (k : Z) (lcp : Performance.field) : Performance.lighthouse :=
  {| Performance.performance_score := Performance.Num (PyFloat.literal k 100);
     Performance.largest_contentful_paint :=
       Some {| Performance.numericValue := lcp;
               Performance.displayValue := Some "3.1 s";
               Performance.audit_score := Performance.Absent |};
     Performance.cumulative_layout_shift := None;
     Performance.first_contentful_paint := None;
     Performance.uses_optimized_images := None;
     Performance.total_byte_weight := None;
     Performance.offscreen_images := None |}.

(** The dictionary that [crawl] builds for the shop. *)
Definition shop_data : option PageData.page_data :=
  Extract.crawl Fixtures.urljoin_absolute Fixtures.urlparse_simple ld_types
    (λ _, Some shop_response) "https://shop.example/".

End Samples.

(** * Properties *)

(** ** Strings *)

Lemma slice_to_all (n : nat) (s : string) :
  String.length s ≤ n → Py.slice_to n s = s.
Proof.
  revert n; induction s as [|c s IH]; intros [|n] Hlen; simpl in *; try done; try lia.
  f_equal. apply IH. lia.
Qed.

Example split_join_slice :
  Py.split "  the quick   brown fox " = ["the"; "quick"; "brown"; "fox"]
  ∧ Py.join " " ["the"; "quick"; "brown"] = "the quick brown"
  ∧ Py.slice_to 7 "the quick brown" = "the qui"
  ∧ Py.split (Py.slice_to 7 "the quick brown") = ["the"; "qui"]
  ∧ Py.lower "NoIndex, Follow" = "noindex, follow"
  ∧ Py.contains "xml" "text/xml; charset=utf-8" = true
  ∧ Py.startswith "http://example.com" "https://" = false.
Proof. split_and!; reflexivity. Qed.

(** ** The parse tree *)

Section NodeInduction.
Import Soup.
Variable P : node → Prop.
Hypothesis Hstring : ∀ s, P (NavigableString s).
Hypothesis Htag : ∀ t attrs cs, Forall P cs → P (Tag t attrs cs).

Lemma node_ind (n : node) : P n.
Proof.
  revert n. fix IH 1. intros [s|t attrs cs]; [apply Hstring|].
  apply Htag. induction cs as [|c cs IHcs]; constructor; [apply IH|apply IHcs].
Qed.

End NodeInduction.

Lemma omap_fixed {A} (f : A → option A) (l : list A) :
  Forall (λ x, ∀ y, f x = Some y → f y = Some y) l →
  omap f (omap f l) = omap f l.
Proof.
  induction 1 as [|x l Hx _ IH]; simpl; [done|].
  destruct (f x) as [y|] eqn:Hfx; simpl; [|done].
  rewrite (Hx y eq_refl). f_equal. exact IH.
Qed.

Lemma decompose_node_fixed (names : list string) (n n' : Soup.node) :
  Soup.decompose_node names n = Some n' → Soup.decompose_node names n' = Some n'.
Proof.
  revert n'. induction n as [s|t attrs cs IH] using node_ind; intros n' Hn; simpl in Hn.
  - by inversion Hn.
  - destruct (existsb (String.eqb t) names) eqn:Hbad; [done|].
    inversion Hn; subst n'; clear Hn. simpl. rewrite Hbad.
    do 2 f_equal. by apply omap_fixed.
Qed.

(** Removing the same elements a second time changes nothing. *)
Lemma decompose_idempotent (names : list string) (doc : Soup.soup) :
  Soup.decompose names (Soup.decompose names doc) = Soup.decompose names doc.
Proof.
  unfold Soup.decompose. apply omap_fixed, Forall_forall.
  intros n _ n'. apply decompose_node_fixed.
Qed.

(** ** Word count and text content ([crawler.py]) *)

Lemma _get_text_content_spec (doc : Soup.soup) :
  Crawler._get_text_content doc =
    (Soup.decompose Crawler.removed_tags doc,
     Py.slice_to Crawler.text_limit (Crawler.cleaned_text doc)).
Proof. reflexivity. Qed.

(** The cleaned text of the tree that [_get_text_content] leaves is the
    cleaned text of the tree it was given. *)
Lemma cleaned_text_decompose (doc : Soup.soup) :
  Crawler.cleaned_text (Soup.decompose Crawler.removed_tags doc) =
  Crawler.cleaned_text doc.
Proof. unfold Crawler.cleaned_text. by rewrite decompose_idempotent. Qed.

(** [crawl_content] with its two calls of [_get_text_content] written
    out: the stored text is the text that was counted. *)
Lemma crawl_content_spec (urljoin : string → string → string)
    (doc : Soup.soup) (url : string) :
  let text := Py.slice_to Crawler.text_limit (Crawler.cleaned_text doc) in
  let doc' := Soup.decompose Crawler.removed_tags doc in
  Crawler.crawl_content urljoin doc url =
    {| Crawler.images := Crawler._get_images urljoin doc url;
       Crawler.word_count := length (Py.split text);
       Crawler.text_content := text;
       Crawler.scripts := Crawler._get_scripts doc';
       Crawler.stylesheets := Crawler._get_stylesheets doc' |}.
Proof.
  unfold Crawler.crawl_content, Crawler._get_word_count.
  rewrite (_get_text_content_spec doc). cbv beta iota zeta.
  rewrite _get_text_content_spec, cleaned_text_decompose, decompose_idempotent.
  reflexivity.
Qed.

(** No element called [name] is left below a node that [decompose_node]
    kept, when [name] is one of the removed names. *)
Lemma find_all_decompose_node (names : list string) (name : string)
    (n n' : Soup.node) :
  existsb (String.eqb name) names = true →
  Soup.decompose_node names n = Some n' →
  Soup.find_all name [n'] = [].
Proof.
  intros Hname. unfold Soup.find_all. cbn [flat_map]. rewrite app_nil_r.
  revert n'. induction n as [s|t attrs cs IH] using node_ind; intros n' Hn; simpl in Hn.
  - by injection Hn as <-.
  - destruct (existsb (String.eqb t) names) eqn:Hkeep; [done|].
    injection Hn as <-. cbn [Soup.descendants omap list_omap].
    destruct (String.eqb_spec t name) as [->|_].
    { congruence. }
    clear Hkeep. induction IH as [|c cs Hc _ IHcs]; [done|].
    cbn [omap list_omap]. destruct (Soup.decompose_node names c) as [c'|] eqn:Hc'.
    + cbn [flat_map]. rewrite omap_app, (Hc c' eq_refl). exact IHcs.
    + exact IHcs.
Qed.

Lemma find_all_decompose (names : list string) (name : string) (doc : Soup.soup) :
  existsb (String.eqb name) names = true →
  Soup.find_all name (Soup.decompose names doc) = [].
Proof.
  intros Hname. unfold Soup.decompose.
  induction doc as [|n doc IH]; [done|]. cbn [omap list_omap].
  destruct (Soup.decompose_node names n) as [n'|] eqn:Hn; [|exact IH].
  pose proof (find_all_decompose_node names name n n' Hname Hn) as Hn'.
  unfold Soup.find_all in *. cbn [flat_map] in *. rewrite app_nil_r in Hn'.
  by rewrite omap_app, Hn'.
Qed.

(** [crawl] extracts the scripts from the tree after [_get_word_count]
    removed the [script] elements from it: the list is always empty. *)
Lemma crawl_content_scripts (urljoin : string → string → string)
    (doc : Soup.soup) (url : string) :
  Crawler.scripts (Crawler.crawl_content urljoin doc url) = [].
Proof.
  pose proof (crawl_content_spec urljoin doc url) as Hc. cbv zeta in Hc. rewrite Hc.
  cbn [Crawler.scripts]. unfold Crawler._get_scripts.
  by rewrite find_all_decompose.
Qed.

(** C1, as the claim states it, fails: on a page of 6000 one-letter words
    the cleaned text has 6000 blank-delimited tokens and [word_count] is
    5000, the number of tokens in its first 10,000 characters. *)
#[warnings="-abstract-large-number"]
Lemma word_count_counts_truncated_text :
  Crawler.word_count
    (Crawler.crawl_content Fixtures.urljoin_absolute Fixtures.long_page "https://example.com/")
  = 5000%nat
  ∧ length (Py.split (Crawler.cleaned_text Fixtures.long_page)) = 6000%nat
  ∧ String.length (Crawler.cleaned_text Fixtures.long_page) = 11999%nat.
Proof. split_and!; vm_compute; reflexivity. Qed.

(** C1, amended: for every page, [word_count] is the number of
    blank-delimited tokens of the stored [text_content], which is the
    first 10,000 characters of the cleaned text; so it is the count over
    the whole cleaned text whenever that text has at most 10,000
    characters. *)
Theorem word_count_of_stored_text
    (urljoin : string → string → string) (doc : Soup.soup) (url : string) :
  let c := Crawler.crawl_content urljoin doc url in
  Crawler.word_count c = length (Py.split (Crawler.text_content c))
  ∧ Crawler.text_content c = Py.slice_to Crawler.text_limit (Crawler.cleaned_text doc)
  ∧ (String.length (Crawler.cleaned_text doc) ≤ Crawler.text_limit →
     Crawler.word_count c = length (Py.split (Crawler.cleaned_text doc))).
Proof.
  pose proof (crawl_content_spec urljoin doc url) as Hc.
  cbv zeta in Hc |- *. rewrite Hc.
  cbn [Crawler.word_count Crawler.text_content].
  split_and!; [done..|].
  intros Hshort. by rewrite slice_to_all.
Qed.

(** ** Images ([crawler.py]) *)

(** C2, as the claim states it, fails: [<img src=... alt="">] carries an
    [alt] attribute, and its record has [has_alt = false]. *)
Lemma empty_alt_has_alt_false :
  Soup.find_all "img" Fixtures.decorative_page = [Fixtures.decorative_img]
  ∧ Fixtures.decorative_img !! "alt" = Some ""
  ∧ Crawler.has_alt <$>
      Crawler._get_images Fixtures.urljoin_absolute Fixtures.decorative_page
        "https://example.com/"
    = [false].
Proof. split_and!; vm_compute; reflexivity. Qed.

Lemma truthy_true (s : string) : Py.truthy s = true ↔ s ≠ "".
Proof.
  unfold Py.truthy. destruct (String.eqb_spec s ""); simpl; split; congruence.
Qed.

(** C2, amended: every image record comes from an [img] element of the
    page that has a non-empty [src], and its [has_alt] is true exactly
    when that element carries an [alt] attribute whose value is not the
    empty string. *)
Theorem has_alt_iff_alt_not_empty
    (urljoin : string → string → string) (doc : Soup.soup) (base_url : string)
    (r : Crawler.image) :
  r ∈ Crawler._get_images urljoin doc base_url →
  ∃ img : gmap string string,
    img ∈ Soup.find_all "img" doc
    ∧ Crawler.image_of urljoin base_url img = Some r
    ∧ (Crawler.has_alt r = true ↔ ∃ v, img !! "alt" = Some v ∧ v ≠ "").
Proof.
  unfold Crawler._get_images. intros Hr.
  apply subseteq_take, list_elem_of_omap in Hr as (img & Himg & Hrec).
  exists img. split_and!; [done..|].
  unfold Crawler.image_of in Hrec.
  destruct (Py.truthy (Soup.get img "src" "")); [|done].
  injection Hrec as <-. cbn [Crawler.has_alt].
  destruct (img !! "alt") as [v|]; simpl.
  - rewrite truthy_true. split; [eauto|]. by intros (? & [= <-] & ?).
  - split; [done|]. by intros (? & ? & _).
Qed.

(** The theorem at the decorative image of [Fixtures]. *)
Lemma has_alt_iff_alt_not_empty_witness :
  ∃ img : gmap string string,
    img ∈ Soup.find_all "img" Fixtures.decorative_page
    ∧ Crawler.image_of Fixtures.urljoin_absolute "https://example.com/" img
      = Some {| Crawler.src := "https://example.com/a.png"; Crawler.alt := "";
                Crawler.has_alt := false; Crawler.loading := "";
                Crawler.width := ""; Crawler.height := "" |}
    ∧ (false = true ↔ ∃ v, img !! "alt" = Some v ∧ v ≠ "").
Proof.
  apply (has_alt_iff_alt_not_empty Fixtures.urljoin_absolute Fixtures.decorative_page
           "https://example.com/"
           {| Crawler.src := "https://example.com/a.png"; Crawler.alt := "";
              Crawler.has_alt := false; Crawler.loading := "";
              Crawler.width := ""; Crawler.height := "" |}).
  vm_compute. apply list_elem_of_singleton. reflexivity.
Defined.

(** ** The title check ([onpage.py]) *)

Lemma text_of_length_length (n : nat) : String.length (Claims.text_of_length n) = n.
Proof. induction n as [|n IH]; simpl; [done|]. by rewrite <- IH at 2. Qed.

(** C4: a title of 30 characters passes, one of 29 fails with
    [title_too_short] and deduction 5, one of 60 passes, one of 61 fails
    with [title_too_long] and deduction 3, and an absent title fails
    with deduction 20. *)
Theorem title_length_boundaries (t : string) :
  (String.length t = 30 → OnPage._check_title (Some t) = Report.pass)
  ∧ (String.length t = 29 →
     OnPage._check_title (Some t) =
       Report.failing Report.Warning "title_too_short"
         "Title is too short (29 characters)"
         (Some "Title should be 50-60 characters for optimal display")
         Report.Medium 5)
  ∧ (String.length t = 60 → OnPage._check_title (Some t) = Report.pass)
  ∧ (String.length t = 61 →
     OnPage._check_title (Some t) =
       Report.failing Report.Warning "title_too_long"
         "Title is too long (61 characters)"
         (Some "Title may be truncated in search results. Keep it under 60 characters")
         Report.Low 3)
  ∧ Report.passed (OnPage._check_title None) = false
  ∧ Report.deduction (OnPage._check_title None) = 20%Z.
Proof.
  assert (Hpresent : ∀ n, String.length t = S n → Py.truthy_opt (Some t) = true).
  { intros n Hn. by destruct t. }
  split_and!; try reflexivity; intros Hlen; unfold OnPage._check_title;
    rewrite (Hpresent _ Hlen); change (default "" (Some t)) with t; cbv beta iota zeta;
    rewrite Hlen; reflexivity.
Qed.

(** The theorem at titles of 30, 29, 60 and 61 characters. *)
Lemma title_length_boundaries_witness :
  OnPage._check_title (Some (Claims.text_of_length 30)) = Report.pass
  ∧ Report.deduction (OnPage._check_title (Some (Claims.text_of_length 29))) = 5%Z
  ∧ OnPage._check_title (Some (Claims.text_of_length 60)) = Report.pass
  ∧ Report.deduction (OnPage._check_title (Some (Claims.text_of_length 61))) = 3%Z.
Proof.
  split_and!.
  - exact (proj1 (title_length_boundaries (Claims.text_of_length 30)) eq_refl).
  - rewrite (proj1 (proj2 (title_length_boundaries (Claims.text_of_length 29))));
      reflexivity.
  - exact (proj1 (proj2 (proj2 (title_length_boundaries (Claims.text_of_length 60))))
             eq_refl).
  - rewrite (proj1 (proj2 (proj2 (proj2
               (title_length_boundaries (Claims.text_of_length 61))))));
      reflexivity.
Defined.

(** ** Mixed content ([security.py]) *)

Lemma http_count_fmap {A} (f : A → string) (l : list A) :
  length (filter (λ x, Py.startswith (f x) "http://") l) = Claims.http_count (f <$> l).
Proof.
  unfold Claims.http_count. induction l as [|x l IH]; [done|].
  rewrite fmap_cons, !filter_cons.
  destruct (Py.startswith (f x) "http://") eqn:E;
    repeat case_decide; simpl in *; try done; by rewrite IH.
Qed.

(** C5: on a page whose URL begins with [https://], exactly one image
    [src] beginning with [http://] and no such script or stylesheet make
    the check fail with code [mixed_content], deduction 15, and a message
    counting 1 HTTP resource; on a page whose URL does not begin with
    [https://] the check passes whatever the resources are. *)
Theorem mixed_content_check (pd : PageData.page_data) :
  (Py.startswith (PageData.url pd) "https://" = true →
   Claims.http_count (Crawler.src <$> PageData.images pd) = 1 →
   Claims.http_count (Crawler.script_src <$> PageData.scripts pd) = 0 →
   Claims.http_count (Crawler.href <$> PageData.stylesheets pd) = 0 →
   Security._check_mixed_content pd =
     Report.failing Report.Error "mixed_content"
       "Mixed content detected (1 HTTP resources on HTTPS page)"
       (Some "Update all resources to use HTTPS") Report.High 15)
  ∧ (Py.startswith (PageData.url pd) "https://" = false →
     Security._check_mixed_content pd = Report.pass).
Proof.
  unfold Security._check_mixed_content. split.
  - intros -> Himg Hscript Hstyle. cbn [negb].
    rewrite !http_count_fmap, Himg, Hscript, Hstyle. reflexivity.
  - by intros ->.
Qed.

(** The theorem at an https page with one image fetched over http. *)
Lemma mixed_content_check_witness :
  Security._check_mixed_content Fixtures.mixed_page =
    Report.failing Report.Error "mixed_content"
      "Mixed content detected (1 HTTP resources on HTTPS page)"
      (Some "Update all resources to use HTTPS") Report.High 15.
Proof.
  apply (proj1 (mixed_content_check Fixtures.mixed_page)); reflexivity.
Defined.

(** ** The fallback of the performance analyzer ([performance.py]) *)

Lemma analyze_unavailable (api_key : string) (reply : Performance.provider)
    (url : string) :
  Claims.provider_unavailable api_key reply →
  Performance.analyze api_key reply url = Performance._get_fallback_analysis url.
Proof.
  unfold Performance.analyze. intros [->|[->|(st & body & -> & Hst)]].
  - reflexivity.
  - by destruct (negb (Py.truthy api_key)).
  - destruct (negb (Py.truthy api_key)); [done|].
    by destruct (Z.eqb_spec st 200).
Qed.

(** C6: when the metrics provider is unavailable the report has score
    50, its six checks are all [None], and its findings are exactly one
    finding of type [info]. *)
Theorem performance_unavailable_fallback (api_key : string)
    (reply : Performance.provider) (url : string) :
  Claims.provider_unavailable api_key reply →
  let r := Performance.analyze api_key reply url in
  Report.score r = 50%Z
  ∧ (∀ k, k ∈ ["lcp"; "fcp"; "cls"; "imageOptimization"; "bundleSize"; "lazyLoading"] →
          Report.checks r !! k = Some None)
  ∧ (∀ k v, Report.checks r !! k = Some v → v = None)
  ∧ ∃ i, Report.issues r = [i] ∧ Report.type i = Report.Info.
Proof.
  intros Hun r. subst r. rewrite (analyze_unavailable _ _ _ Hun).
  split_and!.
  - reflexivity.
  - intros k Hk. repeat (apply elem_of_cons in Hk as [->|Hk]; [reflexivity|]).
    by apply elem_of_nil in Hk.
  - intros k v Hk. cbn [Performance._get_fallback_analysis Report.checks] in Hk.
    repeat (apply lookup_insert_Some in Hk as [[_ <-]|[_ Hk]]; [done|]).
    by rewrite lookup_empty in Hk.
  - eexists. split; reflexivity.
Qed.

(** The theorem at an analyzer with no API key. *)
Lemma performance_unavailable_fallback_witness :
  let r := Performance.analyze "" (Performance.Reply 200 None) "https://example.com/" in
  Report.score r = 50%Z
  ∧ (∀ k, k ∈ ["lcp"; "fcp"; "cls"; "imageOptimization"; "bundleSize"; "lazyLoading"] →
          Report.checks r !! k = Some None)
  ∧ (∀ k v, Report.checks r !! k = Some v → v = None)
  ∧ ∃ i, Report.issues r = [i] ∧ Report.type i = Report.Info.
Proof.
  apply (performance_unavailable_fallback "" (Performance.Reply 200 None)).
  left. reflexivity.
Defined.

(** ** The scoring loop *)

Lemma score_record_check (name : string) (r : Report.check_result) (st : Report.report) :
  Report.score (Report.record_check name r st) = (Report.score st - Claims.penalty r)%Z.
Proof.
  unfold Report.record_check, Claims.penalty. destruct (Report.passed r); simpl; lia.
Qed.

Lemma checks_record_check (name : string) (r : Report.check_result) (st : Report.report) :
  Report.checks (Report.record_check name r st) =
  <[name := Some (Report.passed r)]> (Report.checks st).
Proof. unfold Report.record_check. by destruct (Report.passed r). Qed.

Lemma score_record_multi (name : string) (r : Report.multi_result) (st : Report.report) :
  Report.score (Report.record_multi name r st) =
  (Report.score st - Claims.penalty_multi r)%Z.
Proof.
  unfold Report.record_multi, Claims.penalty_multi.
  destruct (Report.m_passed r); simpl; lia.
Qed.

Lemma checks_record_multi (name : string) (r : Report.multi_result) (st : Report.report) :
  Report.checks (Report.record_multi name r st) =
  <[name := Some (Report.m_passed r)]> (Report.checks st).
Proof. unfold Report.record_multi. by destruct (Report.m_passed r). Qed.

Ltac scoring :=
  repeat first [ rewrite score_record_check | rewrite checks_record_check
               | rewrite score_record_multi | rewrite checks_record_multi ].

(** The scores of [Technical.analyze]: 100 less the penalty of each of
    the nine checks, and at least 0. *)
Lemma technical_score (urlparse : string → option Net.parsed_url)
    (net : Net.network) (url : string) (pd : PageData.page_data)
    (cr : Report.check_result) :
  Technical._check_canonical urlparse url pd = Some cr →
  ∃ r, Technical.analyze urlparse net url pd = Some r
    ∧ Report.checks r =
        <["structuredData" := Some (Report.passed (Technical._check_schema pd))]>
        (<["language" := Some (Report.passed (Technical._check_language pd))]>
        (<["statusCode" := Some (Report.passed (Technical._check_status_code pd))]>
        (<["redirectChain" := Some (Report.passed (Technical._check_redirects pd))]>
        (<["https" := Some (Report.passed (Technical._check_https url))]>
        (<["sitemap" := Some (Report.passed (Technical._check_sitemap urlparse net url))]>
        (<["robotsTxt" :=
             Some (Report.passed (Technical._check_robots_txt urlparse net url))]>
        (<["robotsMeta" := Some (Report.passed (Technical._check_robots pd))]>
        (<["canonical" := Some (Report.passed cr)]> ∅))))))))
    ∧ Report.score r =
        Z.max 0 (100 - Claims.penalty cr
                 - Claims.penalty (Technical._check_robots pd)
                 - Claims.penalty (Technical._check_robots_txt urlparse net url)
                 - Claims.penalty (Technical._check_sitemap urlparse net url)
                 - Claims.penalty (Technical._check_https url)
                 - Claims.penalty (Technical._check_redirects pd)
                 - Claims.penalty (Technical._check_status_code pd)
                 - Claims.penalty (Technical._check_language pd)
                 - Claims.penalty (Technical._check_schema pd)).
Proof.
  intros Hcr. unfold Technical.analyze. rewrite Hcr. cbn [mbind option_bind].
  eexists. split; [reflexivity|]. unfold Report.finish. cbn [Report.score Report.checks].
  scoring. split; reflexivity.
Qed.

(** ** The canonical check ([technical.py]) *)

(** C8: when the canonical URL is present and its path differs from the
    path of the requested URL, the check is recorded as passed
    ([checks["canonical"]] is [True]) with deduction 0, and the score is
    100 less the penalties of the other eight checks only. *)
Theorem canonical_mismatch_soft_pass (urlparse : string → option Net.parsed_url)
    (net : Net.network) (url : string) (pd : PageData.page_data)
    (c : string) (pc pu : Net.parsed_url) :
  PageData.canonical pd = Some c → c ≠ "" →
  urlparse c = Some pc → urlparse url = Some pu →
  Net.path pc ≠ Net.path pu →
  ∃ cr r,
    Technical._check_canonical urlparse url pd = Some cr
    ∧ Report.passed cr = true ∧ Report.deduction cr = 0%Z
    ∧ Technical.analyze urlparse net url pd = Some r
    ∧ Report.checks r !! "canonical" = Some (Some true)
    ∧ Report.score r =
        Z.max 0 (100
                 - Claims.penalty (Technical._check_robots pd)
                 - Claims.penalty (Technical._check_robots_txt urlparse net url)
                 - Claims.penalty (Technical._check_sitemap urlparse net url)
                 - Claims.penalty (Technical._check_https url)
                 - Claims.penalty (Technical._check_redirects pd)
                 - Claims.penalty (Technical._check_status_code pd)
                 - Claims.penalty (Technical._check_language pd)
                 - Claims.penalty (Technical._check_schema pd)).
Proof.
  intros Hc Hne Hpc Hpu Hpath.
  assert (Hcr : ∃ cr, Technical._check_canonical urlparse url pd = Some cr
                      ∧ Report.passed cr = true ∧ Report.deduction cr = 0%Z).
  { unfold Technical._check_canonical. rewrite Hc. cbn [Py.truthy_opt default].
    apply truthy_true in Hne as ->. cbn [negb].
    unfold id. rewrite Hpc, Hpu. cbn [mbind option_bind].
    destruct (String.eqb_spec (Net.path pc) (Net.path pu)) as [|_]; [done|].
    eexists. split; [reflexivity|]. split; reflexivity. }
  destruct Hcr as (cr & Hcr & Hpass & Hded).
  destruct (technical_score urlparse net url pd cr Hcr) as (r & Hr & Hchk & Hscore).
  exists cr, r. split_and!; [done|done|done|done| |].
  { rewrite Hchk, Hpass, !lookup_insert_ne by done. apply lookup_insert_eq. }
  rewrite Hscore. unfold Claims.penalty at 1. rewrite Hpass. f_equal; lia.
Qed.

(** The theorem at a page at [/] whose canonical URL is [/home]. *)
Lemma canonical_mismatch_soft_pass_witness :
  ∃ cr r,
    Technical._check_canonical Fixtures.urlparse_simple "https://example.com/"
      Fixtures.moved_page = Some cr
    ∧ Report.passed cr = true ∧ Report.deduction cr = 0%Z
    ∧ Technical.analyze Fixtures.urlparse_simple Fixtures.serving "https://example.com/"
        Fixtures.moved_page = Some r
    ∧ Report.checks r !! "canonical" = Some (Some true)
    ∧ Report.score r =
        Z.max 0 (100
                 - Claims.penalty (Technical._check_robots Fixtures.moved_page)
                 - Claims.penalty (Technical._check_robots_txt Fixtures.urlparse_simple
                                     Fixtures.serving "https://example.com/")
                 - Claims.penalty (Technical._check_sitemap Fixtures.urlparse_simple
                                     Fixtures.serving "https://example.com/")
                 - Claims.penalty (Technical._check_https "https://example.com/")
                 - Claims.penalty (Technical._check_redirects Fixtures.moved_page)
                 - Claims.penalty (Technical._check_status_code Fixtures.moved_page)
                 - Claims.penalty (Technical._check_language Fixtures.moved_page)
                 - Claims.penalty (Technical._check_schema Fixtures.moved_page)).
Proof.
  apply (canonical_mismatch_soft_pass Fixtures.urlparse_simple Fixtures.serving
           "https://example.com/" Fixtures.moved_page "https://example.com/home"
           {| Net.scheme := "https"; Net.netloc := "example.com"; Net.path := "/home" |}
           {| Net.scheme := "https"; Net.netloc := "example.com"; Net.path := "/" |});
    [reflexivity|discriminate|reflexivity|reflexivity|discriminate].
Defined.

(** ** The sitemap check ([technical.py]) *)

Lemma sitemap_found_iff (client : string → Net.outcome) (urls : list string) :
  Technical.sitemap_found client urls = true ↔
  ∃ u, u ∈ urls ∧ Claims.serves_sitemap (client u).
Proof.
  unfold Claims.serves_sitemap. induction urls as [|u urls IH]; simpl.
  - split; [done|]. intros (u & Hu & _). by apply elem_of_nil in Hu.
  - destruct (client u) as [response|] eqn:Hu.
    + destruct (Z.eqb_spec (Net.status response) 200) as [Hst|Hst]; simpl.
      * destruct (Net.content_type response) as [ct|] eqn:Hct; simpl.
        -- destruct (Py.contains "xml" ct) eqn:Hxml.
           ++ split; [|done]. intros _. exists u. split; [left|].
              rewrite Hu. by exists response, ct.
           ++ rewrite IH. split.
              ** intros (v & Hv & H). exists v. split; [by right|done].
              ** intros (v & [->|Hv]%elem_of_cons & H); [|by exists v].
                 rewrite Hu in H. destruct H as (? & ? & [= <-] & _ & Hct' & Hxml').
                 rewrite Hct in Hct'. injection Hct' as <-. congruence.
        -- rewrite IH. split.
           ** intros (v & Hv & H). exists v. split; [by right|done].
           ** intros (v & [->|Hv]%elem_of_cons & H); [|by exists v].
              rewrite Hu in H. destruct H as (? & ? & [= <-] & _ & Hct' & _).
              congruence.
      * rewrite IH. split.
        -- intros (v & Hv & H). exists v. split; [by right|done].
        -- intros (v & [->|Hv]%elem_of_cons & H); [|by exists v].
           rewrite Hu in H. by destruct H as (? & ? & [= <-] & ? & _).
    + rewrite IH. split.
      * intros (v & Hv & H). exists v. split; [by right|done].
      * intros (v & [->|Hv]%elem_of_cons & H); [|by exists v].
        rewrite Hu in H. by destruct H as (? & ? & ? & _).
Qed.

(** C9, as the claim states it, fails: when both GETs of the sitemap
    probe raise, the check deducts 5 (finding [missing_sitemap]), not 3;
    the robots.txt probe on the same network deducts 3. *)
Lemma sitemap_request_errors_deduct_5 :
  Technical._check_sitemap Fixtures.urlparse_simple Fixtures.offline
    "https://example.com/page"
  = Report.failing Report.Warning "missing_sitemap" "XML sitemap not found"
      (Some "Add an XML sitemap to help search engines discover your pages")
      Report.Medium 5
  ∧ Report.deduction
      (Technical._check_robots_txt Fixtures.urlparse_simple Fixtures.offline
         "https://example.com/page") = 3%Z.
Proof. split; reflexivity. Qed.

(** C9, amended: when the URL parses and the client opens, the check
    passes if one of the two sitemap URLs answers 200 with an XML
    content type and deducts 5 otherwise, a GET that raises counting as
    a URL that does not answer so; it deducts 3 exactly when parsing the
    URL or opening the client raises. *)
Theorem sitemap_deductions (urlparse : string → option Net.parsed_url)
    (net : Net.network) (url : string) :
  let r := Technical._check_sitemap urlparse net url in
  (∀ parsed client, urlparse url = Some parsed → net = Some client →
     (∃ u, u ∈ Claims.sitemap_urls parsed ∧ Claims.serves_sitemap (client u)) →
     r = Report.pass)
  ∧ (∀ parsed client, urlparse url = Some parsed → net = Some client →
       (∀ u, u ∈ Claims.sitemap_urls parsed → ¬ Claims.serves_sitemap (client u)) →
       Report.passed r = false ∧ Report.deduction r = 5%Z)
  ∧ (urlparse url = None ∨ net = None →
     Report.passed r = false ∧ Report.deduction r = 3%Z)
  ∧ (Report.deduction r = 3%Z → urlparse url = None ∨ net = None).
Proof.
  intros r. subst r. unfold Technical._check_sitemap. split_and!.
  - intros parsed client -> -> Hserved.
    apply sitemap_found_iff in Hserved. fold (Claims.sitemap_urls parsed).
    by rewrite Hserved.
  - intros parsed client -> -> Hnone. fold (Claims.sitemap_urls parsed).
    destruct (Technical.sitemap_found client (Claims.sitemap_urls parsed)) eqn:Hf.
    + apply sitemap_found_iff in Hf as (u & Hu & Hs). by destruct (Hnone u Hu).
    + by split.
  - intros [->| ->]; [by split|]. by destruct (urlparse url).
  - destruct (urlparse url) as [parsed|]; [|by left].
    destruct net as [client|]; [|by right].
    by destruct (Technical.sitemap_found _ _).
Qed.

(** The theorem on a network where every GET raises, and without a
    client. *)
Lemma sitemap_deductions_witness :
  (Report.passed (Technical._check_sitemap Fixtures.urlparse_simple Fixtures.offline
                    "https://example.com/page") = false
   ∧ Report.deduction (Technical._check_sitemap Fixtures.urlparse_simple Fixtures.offline
                         "https://example.com/page") = 5%Z)
  ∧ (Report.passed (Technical._check_sitemap Fixtures.urlparse_simple None
                      "https://example.com/page") = false
     ∧ Report.deduction (Technical._check_sitemap Fixtures.urlparse_simple None
                           "https://example.com/page") = 3%Z).
Proof.
  split.
  - apply (proj1 (proj2 (sitemap_deductions Fixtures.urlparse_simple Fixtures.offline
                           "https://example.com/page"))
             {| Net.scheme := "https"; Net.netloc := "example.com"; Net.path := "/page" |}
             (λ _, Net.Raised) eq_refl eq_refl).
    intros u _ (response & ct & Hraised & _). discriminate Hraised.
  - apply (proj1 (proj2 (proj2 (sitemap_deductions Fixtures.urlparse_simple None
                                  "https://example.com/page")))).
    right. reflexivity.
Defined.

(** ** The mobile score ([main.py]) *)

(** C10: whatever the viewport flag, the number of small touch targets,
    the small-text count and the horizontal-scroll flag are, the mobile
    score is at least 40 (and at most 100). *)
Theorem mobile_score_at_least_40 (pd : PageData.page_data) (performance : Report.report) :
  (40 ≤ Report.score (Main.calculate_mobile_score pd performance) ≤ 100)%Z.
Proof.
  unfold Main.calculate_mobile_score.
  destruct (negb (PageData.viewport_meta pd));
    destruct (Z.ltb_spec 0 (default 0%Z (PageData.small_touch_targets pd)));
    destruct (Z.ltb_spec 5 (default 0%Z (PageData.small_text_count pd)));
    destruct (default false (PageData.horizontal_scroll pd));
    cbn [Report.score]; lia.
Qed.

(** ** Scores never grow with violations *)

Lemma failing_penalty (t : Report.issue_type) (c m : string) (r : option string)
    (i : Report.impact_level) (d : Z) :
  Claims.penalty (Report.failing t c m r i d) = d.
Proof. reflexivity. Qed.

Lemma pass_penalty : Claims.penalty Report.pass = 0%Z.
Proof. reflexivity. Qed.

(** A check result that passed costs nothing. *)
Lemma penalty_passed (r : Report.check_result) :
  Report.passed r = true → Claims.penalty r = 0%Z.
Proof. unfold Claims.penalty. by intros ->. Qed.

Lemma penalty_multi_passed (r : Report.multi_result) :
  Report.m_passed r = true → Claims.penalty_multi r = 0%Z.
Proof. unfold Claims.penalty_multi. by intros ->. Qed.

Ltac penalty_cases :=
  repeat case_match; rewrite ?failing_penalty, ?pass_penalty;
  first [reflexivity | lia | unfold Claims.penalty; simpl; lia].

Lemma onpage_penalties_nonneg (pd : PageData.page_data) :
  (0 ≤ Claims.penalty (OnPage._check_title (PageData.title pd))
   ∧ 0 ≤ Claims.penalty (OnPage._check_meta_description (PageData.meta_description pd))
   ∧ 0 ≤ Claims.penalty (OnPage._check_h1 (PageData.headings pd))
   ∧ 0 ≤ Claims.penalty (OnPage._check_heading_hierarchy (PageData.headings pd))
   ∧ 0 ≤ Claims.penalty (OnPage._check_images (PageData.images pd))
   ∧ 0 ≤ Claims.penalty (OnPage._check_content (PageData.word_count pd))
   ∧ 0 ≤ Claims.penalty (OnPage._check_internal_links (PageData.internal_links pd))
   ∧ 0 ≤ Claims.penalty (OnPage._check_og_tags (PageData.og_tags pd)))%Z.
Proof.
  unfold OnPage._check_title, OnPage._check_meta_description, OnPage._check_h1,
    OnPage._check_heading_hierarchy, OnPage._check_images, OnPage._check_content,
    OnPage._check_internal_links, OnPage._check_og_tags.
  split_and!; penalty_cases.
Qed.

Lemma onpage_analyze_spec (pd : PageData.page_data) :
  let r := OnPage.analyze pd in
  Report.checks r =
    <["openGraph" := Some (Report.passed (OnPage._check_og_tags (PageData.og_tags pd)))]>
    (<["internalLinks" :=
         Some (Report.passed (OnPage._check_internal_links (PageData.internal_links pd)))]>
    (<["contentLength" :=
         Some (Report.passed (OnPage._check_content (PageData.word_count pd)))]>
    (<["imageAlt" := Some (Report.passed (OnPage._check_images (PageData.images pd)))]>
    (<["headingHierarchy" :=
         Some (Report.passed (OnPage._check_heading_hierarchy (PageData.headings pd)))]>
    (<["h1" := Some (Report.passed (OnPage._check_h1 (PageData.headings pd)))]>
    (<["metaDescription" :=
         Some (Report.passed
                 (OnPage._check_meta_description (PageData.meta_description pd)))]>
    (<["title" := Some (Report.passed (OnPage._check_title (PageData.title pd)))]>
       ∅)))))))
  ∧ Report.score r =
      Z.max 0 (100
               - Claims.penalty (OnPage._check_title (PageData.title pd))
               - Claims.penalty (OnPage._check_meta_description (PageData.meta_description pd))
               - Claims.penalty (OnPage._check_h1 (PageData.headings pd))
               - Claims.penalty (OnPage._check_heading_hierarchy (PageData.headings pd))
               - Claims.penalty (OnPage._check_images (PageData.images pd))
               - Claims.penalty (OnPage._check_content (PageData.word_count pd))
               - Claims.penalty (OnPage._check_internal_links (PageData.internal_links pd))
               - Claims.penalty (OnPage._check_og_tags (PageData.og_tags pd))).
Proof.
  intros r. subst r. unfold OnPage.analyze, Report.finish.
  cbn [Report.score Report.checks]. scoring. split; reflexivity.
Qed.

(** From a dictionary whose entries are all [True], the entry of a name. *)
Ltac entry_passed Hall name :=
  let H := fresh "Hp" in
  eassert (H : Some _ = Some true);
  [ apply (Hall name); rewrite ?lookup_insert_ne by done; apply lookup_insert_eq
  | injection H as H ].

Lemma onpage_score_le_100 (pd : PageData.page_data) :
  (Report.score (OnPage.analyze pd) ≤ 100)%Z.
Proof.
  destruct (onpage_analyze_spec pd) as [_ ->].
  pose proof (onpage_penalties_nonneg pd). lia.
Qed.

Lemma onpage_all_passed_100 (pd : PageData.page_data) :
  Report.all_passed (OnPage.analyze pd) → Report.score (OnPage.analyze pd) = 100%Z.
Proof.
  intros Hall. unfold Report.all_passed in Hall.
  destruct (onpage_analyze_spec pd) as [Hchk ->]. rewrite Hchk in Hall.
  entry_passed Hall "title". entry_passed Hall "metaDescription".
  entry_passed Hall "h1". entry_passed Hall "headingHierarchy".
  entry_passed Hall "imageAlt". entry_passed Hall "contentLength".
  entry_passed Hall "internalLinks". entry_passed Hall "openGraph".
  rewrite !penalty_passed by done. reflexivity.
Qed.

Lemma technical_analyze_inv (urlparse : string → option Net.parsed_url)
    (net : Net.network) (url : string) (pd : PageData.page_data) (r : Report.report) :
  Technical.analyze urlparse net url pd = Some r →
  ∃ cr, Technical._check_canonical urlparse url pd = Some cr
    ∧ Report.checks r =
        <["structuredData" := Some (Report.passed (Technical._check_schema pd))]>
        (<["language" := Some (Report.passed (Technical._check_language pd))]>
        (<["statusCode" := Some (Report.passed (Technical._check_status_code pd))]>
        (<["redirectChain" := Some (Report.passed (Technical._check_redirects pd))]>
        (<["https" := Some (Report.passed (Technical._check_https url))]>
        (<["sitemap" := Some (Report.passed (Technical._check_sitemap urlparse net url))]>
        (<["robotsTxt" :=
             Some (Report.passed (Technical._check_robots_txt urlparse net url))]>
        (<["robotsMeta" := Some (Report.passed (Technical._check_robots pd))]>
        (<["canonical" := Some (Report.passed cr)]> ∅))))))))
    ∧ Report.score r =
        Z.max 0 (100 - Claims.penalty cr
                 - Claims.penalty (Technical._check_robots pd)
                 - Claims.penalty (Technical._check_robots_txt urlparse net url)
                 - Claims.penalty (Technical._check_sitemap urlparse net url)
                 - Claims.penalty (Technical._check_https url)
                 - Claims.penalty (Technical._check_redirects pd)
                 - Claims.penalty (Technical._check_status_code pd)
                 - Claims.penalty (Technical._check_language pd)
                 - Claims.penalty (Technical._check_schema pd)).
Proof.
  intros Hr. destruct (Technical._check_canonical urlparse url pd) as [cr|] eqn:Hcr.
  - destruct (technical_score urlparse net url pd cr Hcr) as (r' & Hr' & Hchk & Hscore).
    rewrite Hr in Hr'. injection Hr' as <-. by exists cr.
  - unfold Technical.analyze in Hr. by rewrite Hcr in Hr.
Qed.

Lemma technical_penalties_nonneg (urlparse : string → option Net.parsed_url)
    (net : Net.network) (url : string) (pd : PageData.page_data)
    (cr : Report.check_result) :
  Technical._check_canonical urlparse url pd = Some cr →
  (0 ≤ Claims.penalty cr
   ∧ 0 ≤ Claims.penalty (Technical._check_robots pd)
   ∧ 0 ≤ Claims.penalty (Technical._check_robots_txt urlparse net url)
   ∧ 0 ≤ Claims.penalty (Technical._check_sitemap urlparse net url)
   ∧ 0 ≤ Claims.penalty (Technical._check_https url)
   ∧ 0 ≤ Claims.penalty (Technical._check_redirects pd)
   ∧ 0 ≤ Claims.penalty (Technical._check_status_code pd)
   ∧ 0 ≤ Claims.penalty (Technical._check_language pd)
   ∧ 0 ≤ Claims.penalty (Technical._check_schema pd))%Z.
Proof.
  intros Hcr. split_and!.
  - unfold Technical._check_canonical in Hcr.
    destruct (negb (Py.truthy_opt (PageData.canonical pd))); [by injection Hcr as <-|].
    destruct (urlparse (default "" (PageData.canonical pd))) as [pc|]; [|done].
    destruct (urlparse url) as [pu|]; [|done]. cbn [mbind option_bind] in Hcr.
    destruct (negb (Net.path pc =? Net.path pu)%string); by injection Hcr as <-.
  - unfold Technical._check_robots. penalty_cases.
  - unfold Technical._check_robots_txt, Technical.robots_txt_error. penalty_cases.
  - unfold Technical._check_sitemap, Technical.sitemap_check_failed. penalty_cases.
  - unfold Technical._check_https. penalty_cases.
  - unfold Technical._check_redirects. penalty_cases.
  - unfold Technical._check_status_code. penalty_cases.
  - unfold Technical._check_language. penalty_cases.
  - unfold Technical._check_schema. penalty_cases.
Qed.

Lemma technical_score_le_100 (urlparse : string → option Net.parsed_url)
    (net : Net.network) (url : string) (pd : PageData.page_data) (r : Report.report) :
  Technical.analyze urlparse net url pd = Some r → (Report.score r ≤ 100)%Z.
Proof.
  intros (cr & Hcr & _ & ->)%technical_analyze_inv.
  pose proof (technical_penalties_nonneg urlparse net url pd cr Hcr). lia.
Qed.

Lemma technical_all_passed_100 (urlparse : string → option Net.parsed_url)
    (net : Net.network) (url : string) (pd : PageData.page_data) (r : Report.report) :
  Technical.analyze urlparse net url pd = Some r →
  Report.all_passed r → Report.score r = 100%Z.
Proof.
  intros (cr & Hcr & Hchk & ->)%technical_analyze_inv Hall.
  unfold Report.all_passed in Hall. rewrite Hchk in Hall.
  entry_passed Hall "canonical". entry_passed Hall "robotsMeta".
  entry_passed Hall "robotsTxt". entry_passed Hall "sitemap".
  entry_passed Hall "https". entry_passed Hall "redirectChain".
  entry_passed Hall "statusCode". entry_passed Hall "language".
  entry_passed Hall "structuredData".
  rewrite !penalty_passed by done. reflexivity.
Qed.

Lemma probe_paths_deduction (client : string → Net.outcome) (base_url : string)
    (paths : list string) (acc : list Report.issue * Z) :
  (acc.2 ≤ (Security.probe_paths client base_url paths acc).2)%Z.
Proof.
  revert acc. induction paths as [|path paths IH]; intros acc; simpl; [lia|].
  destruct (client (base_url +:+ path)) as [response|]; [|apply IH].
  destruct (Net.status response =? 200)%Z; [|apply IH].
  etrans; [|apply IH]. simpl. lia.
Qed.

Lemma security_analyze_inv (urlparse : string → option Net.parsed_url)
    (net : Net.network) (url : string) (pd : PageData.page_data) (r : Report.report) :
  Security.analyze urlparse net url pd = Some r →
  ∃ sr, Security._check_sensitive_paths urlparse net url = Some sr
    ∧ Report.checks r =
        <["noSensitivePaths" := Some (Report.m_passed sr)]>
        (<["noMixedContent" := Some (Report.passed (Security._check_mixed_content pd))]>
        (<["securityHeaders" :=
             Some (Report.m_passed
                     (Security._check_security_headers (PageData.headers pd)))]>
        (<["https" := Some (Report.passed (Security._check_https url))]> ∅)))
    ∧ Report.score r =
        Z.max 0 (100 - Claims.penalty (Security._check_https url)
                 - Claims.penalty_multi
                     (Security._check_security_headers (PageData.headers pd))
                 - Claims.penalty (Security._check_mixed_content pd)
                 - Claims.penalty_multi sr).
Proof.
  unfold Security.analyze. intros Hr.
  destruct (Security._check_sensitive_paths urlparse net url) as [sr|]; [|done].
  cbn [mbind option_bind] in Hr. injection Hr as <-. exists sr.
  unfold Report.finish. cbn [Report.score Report.checks]. scoring.
  split_and!; reflexivity.
Qed.

Lemma security_penalties_nonneg (urlparse : string → option Net.parsed_url)
    (net : Net.network) (url : string) (pd : PageData.page_data)
    (sr : Report.multi_result) :
  Security._check_sensitive_paths urlparse net url = Some sr →
  (0 ≤ Claims.penalty (Security._check_https url)
   ∧ 0 ≤ Claims.penalty_multi (Security._check_security_headers (PageData.headers pd))
   ∧ 0 ≤ Claims.penalty (Security._check_mixed_content pd)
   ∧ 0 ≤ Claims.penalty_multi sr)%Z.
Proof.
  intros Hsr. split_and!.
  - unfold Security._check_https. penalty_cases.
  - unfold Security._check_security_headers, Claims.penalty_multi.
    repeat case_match; simplify_eq/=; lia.
  - unfold Security._check_mixed_content. penalty_cases.
  - unfold Security._check_sensitive_paths in Hsr.
    destruct (urlparse url) as [parsed|]; [|done]. cbn [mbind option_bind] in Hsr.
    destruct net as [client|].
    + pose proof (probe_paths_deduction client
                    (Net.scheme parsed +:+ "://" +:+ Net.netloc parsed)
                    Security.sensitive_paths ([], 0%Z)) as Hge.
      destruct (Security.probe_paths _ _ _ _) as [issues deduction].
      injection Hsr as <-. unfold Claims.penalty_multi. simpl in *. case_match; lia.
    + injection Hsr as <-. reflexivity.
Qed.

Lemma security_score_le_100 (urlparse : string → option Net.parsed_url)
    (net : Net.network) (url : string) (pd : PageData.page_data) (r : Report.report) :
  Security.analyze urlparse net url pd = Some r → (Report.score r ≤ 100)%Z.
Proof.
  intros (sr & Hsr & _ & ->)%security_analyze_inv.
  pose proof (security_penalties_nonneg urlparse net url pd sr Hsr). lia.
Qed.

Lemma security_all_passed_100 (urlparse : string → option Net.parsed_url)
    (net : Net.network) (url : string) (pd : PageData.page_data) (r : Report.report) :
  Security.analyze urlparse net url pd = Some r →
  Report.all_passed r → Report.score r = 100%Z.
Proof.
  intros (sr & Hsr & Hchk & ->)%security_analyze_inv Hall.
  unfold Report.all_passed in Hall. rewrite Hchk in Hall.
  entry_passed Hall "https". entry_passed Hall "securityHeaders".
  entry_passed Hall "noMixedContent". entry_passed Hall "noSensitivePaths".
  rewrite !penalty_passed, !penalty_multi_passed by done. reflexivity.
Qed.

(** C7: for each analyzer of the document model (on-page, technical,
    security), a report in which every check passed has a score that no
    other input can exceed: whatever is changed in the page, its URL or
    the answers of the probes, so that some check now fails, the new
    score is not higher. *)
Theorem score_monotone_in_violations :
  (∀ pd pd',
     Report.all_passed (OnPage.analyze pd) →
     (Report.score (OnPage.analyze pd') ≤ Report.score (OnPage.analyze pd))%Z)
  ∧ (∀ urlparse net url pd r net' url' pd' r',
       Technical.analyze urlparse net url pd = Some r →
       Report.all_passed r →
       Technical.analyze urlparse net' url' pd' = Some r' →
       (Report.score r' ≤ Report.score r)%Z)
  ∧ (∀ urlparse net url pd r net' url' pd' r',
       Security.analyze urlparse net url pd = Some r →
       Report.all_passed r →
       Security.analyze urlparse net' url' pd' = Some r' →
       (Report.score r' ≤ Report.score r)%Z).
Proof.
  split_and!.
  - intros pd pd' Hall. rewrite (onpage_all_passed_100 pd Hall).
    apply onpage_score_le_100.
  - intros urlparse net url pd r net' url' pd' r' Hr Hall Hr'.
    rewrite (technical_all_passed_100 _ _ _ _ _ Hr Hall).
    by eapply technical_score_le_100.
  - intros urlparse net url pd r net' url' pd' r' Hr Hall Hr'.
    rewrite (security_all_passed_100 _ _ _ _ _ Hr Hall).
    by eapply security_score_le_100.
Qed.

(** The theorem at a page that passes every on-page check and at the
    same page without its title. *)
Lemma score_monotone_in_violations_witness :
  (Report.score (OnPage.analyze Fixtures.untitled_page)
   ≤ Report.score (OnPage.analyze Fixtures.good_page))%Z.
Proof.
  apply (proj1 score_monotone_in_violations).
  intros k v Hk. destruct (onpage_analyze_spec Fixtures.good_page) as [Hchk _].
  rewrite Hchk in Hk.
  repeat (apply lookup_insert_Some in Hk as [[_ <-]|[_ Hk]]; [vm_compute; reflexivity|]).
  by rewrite lookup_empty in Hk.
Defined.

(** The three analyzers on the pages of [Fixtures]. *)
Example good_page_scores :
  Report.score (OnPage.analyze Fixtures.good_page) = 100%Z
  ∧ Report.score <$> Technical.analyze Fixtures.urlparse_simple Fixtures.serving
                       "https://example.com/" Fixtures.good_page = Some 100%Z
  ∧ Report.score <$> Security.analyze Fixtures.urlparse_simple Fixtures.offline
                       "https://example.com/" Fixtures.good_page = Some 100%Z.
Proof. split_and!; vm_compute; reflexivity. Qed.

Example violating_page_scores :
  Report.score (OnPage.analyze Fixtures.untitled_page) = 80%Z
  ∧ Report.score <$> Technical.analyze Fixtures.urlparse_simple Fixtures.offline
                       "https://example.com/" Fixtures.moved_page = Some 92%Z
  ∧ Report.score <$> Security.analyze Fixtures.urlparse_simple Fixtures.serving
                       "https://example.com/" Fixtures.mixed_page = Some 25%Z.
Proof. split_and!; vm_compute; reflexivity. Qed.

(** Python's [round] and literals on binary64 numbers. *)
Example round_ties_to_even :
  PyFloat.round (PyFloat.literal 5 10) = Some 0%Z
  ∧ PyFloat.round (PyFloat.literal 15 10) = Some 2%Z
  ∧ PyFloat.round (PyFloat.literal 25 10) = Some 2%Z
  ∧ PyFloat.round (PyFloat.literal 26 10) = Some 3%Z
  ∧ PyFloat.literal 1 10 = S754_finite false 7205759403792794 (-56)
  ∧ PyFloat.literal 15 100 = S754_finite false 5404319552844595 (-55).
Proof. split_and!; vm_compute; reflexivity. Qed.

(** ** Binary64 rounding, as far as the aggregation needs it *)

Section Binary64Rounding.
Import Binary64.
Local Open Scope Z_scope.

Lemma pow2_pos (n : Z) : 0 ≤ n → 0 < 2 ^ n.
Proof. intros. by apply Z.pow_pos_nonneg. Qed.

Lemma pow2_succ (n : Z) : 0 ≤ n → 2 ^ (n + 1) = 2 * 2 ^ n.
Proof. intros. rewrite Z.pow_add_r by lia. lia. Qed.

Lemma pow2_le (a b : Z) : 0 ≤ a ≤ b → 2 ^ a ≤ 2 ^ b.
Proof. intros. apply Z.pow_le_mono_r; lia. Qed.

Lemma pow2_lt (a b : Z) : 0 ≤ a < b → 2 ^ a < 2 ^ b.
Proof. intros. apply Z.pow_lt_mono_r; lia. Qed.

(** The number of binary digits. *)
Lemma digits2_pos_size (p : positive) : digits2_pos p = Pos.size p.
Proof. induction p; simpl; congruence. Qed.

Lemma digits2_bounds (p : positive) :
  2 ^ (Zpos (digits2_pos p) - 1) ≤ Zpos p < 2 ^ Zpos (digits2_pos p).
Proof.
  rewrite digits2_pos_size. split.
  - pose proof (Pos.size_le p) as H.
    apply Pos2Z.pos_le_pos in H. rewrite Pos2Z.inj_pow in H.
    rewrite Pos2Z.inj_xO in H.
    replace (Zpos (Pos.size p)) with (Zpos (Pos.size p) - 1 + 1) in H by lia.
    rewrite pow2_succ in H by lia. lia.
  - pose proof (Pos.size_gt p) as H.
    apply Pos2Z.pos_lt_pos in H. by rewrite Pos2Z.inj_pow in H.
Qed.

Lemma digits2_unique (p : positive) (d : Z) :
  2 ^ (d - 1) ≤ Zpos p < 2 ^ d → Zpos (digits2_pos p) = d.
Proof.
  intros [Hlo Hhi]. pose proof (digits2_bounds p) as [Hlo' Hhi'].
  assert (0 < d).
  { destruct (Z.lt_trichotomy d 0) as [|[->|]]; [|simpl in Hhi; lia|done].
    rewrite Z.pow_neg_r in Hhi by done. lia. }
  destruct (Z.lt_trichotomy (Zpos (digits2_pos p)) d) as [Hlt|[Heq|Hgt]]; [|done|].
  - pose proof (pow2_le (Zpos (digits2_pos p)) (d - 1) ltac:(lia)). lia.
  - pose proof (pow2_le d (Zpos (digits2_pos p) - 1) ltac:(lia)). lia.
Qed.

(** Shifting left. *)
Lemma pos_iter_xO (d m : positive) : Zpos (Pos.iter xO m d) = Zpos m * 2 ^ Zpos d.
Proof.
  revert m. induction d as [d IH|d IH|]; intros m; simpl Pos.iter.
  - rewrite (Pos2Z.inj_xO (Pos.iter _ _ _)), !IH, (Pos2Z.inj_xI d).
    replace (2 * Zpos d + 1) with (Zpos d + Zpos d + 1) by lia.
    rewrite pow2_succ, Z.pow_add_r by lia. lia.
  - rewrite !IH, (Pos2Z.inj_xO d).
    replace (2 * Zpos d) with (Zpos d + Zpos d) by lia.
    rewrite Z.pow_add_r by lia. lia.
  - rewrite (Pos2Z.inj_xO m). lia.
Qed.


Lemma iff_cases (b : bool) (P : Prop) :
  (b = true ↔ P) → (b = true ∧ P) ∨ (b = false ∧ ¬ P).
Proof.
  destruct b; intros [H1 H2]; [left; auto|right].
  split; [done|]. intros HP. by apply H2 in HP.
Qed.

Ltac iff_arith := split; intros; first [done | lia].

Lemma shifted_start (m : Z) : 0 ≤ m → shifted m 0 (shr_record_of_loc m loc_Exact).
Proof.
  intros Hm. split; [done|]. exists 0. simpl. split_and!; try lia; iff_arith.
Qed.

Lemma shifted_step (m k : Z) (mrs : shr_record) :
  0 ≤ k → shifted m k mrs → shifted m (k + 1) (shr_1 mrs).
Proof.
  intros Hk (Hq & rem & Hm & Hrem & Hr & Hs).
  pose proof (pow2_pos k Hk) as Hpos. unfold shifted. rewrite pow2_succ by done.
  destruct mrs as [q r s]. simpl in *.
  apply iff_cases in Hr as [[-> Hr]|[-> Hr]]; apply iff_cases in Hs as [[-> Hs]|[-> Hs]];
    simpl in *;
    (destruct q as [|[q|q|]|q]; simpl; [|rewrite (Pos2Z.inj_xI q) in Hm
                                        |rewrite (Pos2Z.inj_xO q) in Hm| |lia]);
    (split; [lia|]);
    first [ by (exists rem; split_and!; first [lia | iff_arith])
          | by (exists (rem + 2 ^ k); split_and!; first [lia | iff_arith]) ].
Qed.

Lemma shifted_iter (m : Z) (p : positive) (k : Z) (mrs : shr_record) :
  0 ≤ k → shifted m k mrs → shifted m (k + Zpos p) (SpecFloat.iter_pos shr_1 p mrs).
Proof.
  revert k mrs. induction p as [p IH|p IH|]; intros k mrs Hk Hs; simpl SpecFloat.iter_pos.
  - replace (k + Zpos p~1) with (k + 1 + Zpos p + Zpos p) by lia.
    apply IH; [lia|]. apply IH; [lia|]. by apply shifted_step.
  - replace (k + Zpos p~0) with (k + Zpos p + Zpos p) by lia.
    apply IH; [lia|]. by apply IH.
  - by apply shifted_step.
Qed.

(** Rounding the shifted record to nearest, ties to even, moves the
    value by at most half a unit of the last kept bit. *)
Lemma round_nearest_even_shifted (m k : Z) (mrs : shr_record) :
  0 ≤ k → shifted m k mrs →
  let r := round_nearest_even (shr_m mrs) (loc_of_shr_record mrs) in
  shr_m mrs ≤ r ≤ shr_m mrs + 1 ∧ 2 * Z.abs (r * 2 ^ k - m) ≤ 2 ^ k.
Proof.
  intros Hk (Hq & rem & Hm & Hrem & Hr & Hs).
  pose proof (pow2_pos k Hk) as Hpos.
  destruct mrs as [q r s]. simpl in *.
  apply iff_cases in Hr as [[-> Hr]|[-> Hr]]; apply iff_cases in Hs as [[-> Hs]|[-> Hs]];
    simpl in *; try destruct (Z.even q); split; nia.
Qed.

(** [binary_round_aux] on a mantissa of exactly 53 digits returns it. *)
Lemma binary_round_aux_exact (m : positive) (e : Z) :
  Zpos (digits2_pos m) = 53 → -1074 ≤ e ≤ 971 →
  binary_round_aux 53 1024 false (Zpos m) e loc_Exact = S754_finite false m e.
Proof.
  intros Hd He. unfold binary_round_aux, shr_fexp, Zdigits2, fexp, emin.
  rewrite Hd. replace (Z.max (53 + e - 53) (3 - 1024 - 53) - e) with 0 by lia.
  cbn [shr shr_record_of_loc shr_m loc_of_shr_record round_nearest_even].
  rewrite Hd. replace (Z.max (53 + e - 53) (3 - 1024 - 53) - e) with 0 by lia.
  cbn [shr shr_record_of_loc shr_m].
  by destruct (Z.leb_spec e (1024 - 53)); [|lia].
Qed.

(** On a longer mantissa it drops the [n] extra digits, rounding to
    nearest. *)
Lemma binary_round_aux_round (m n : positive) (e : Z) :
  Zpos (digits2_pos m) = 53 + Zpos n → -1074 ≤ e → e + Zpos n ≤ 970 →
  ∃ m' e', binary_round_aux 53 1024 false (Zpos m) e loc_Exact = S754_finite false m' e'
    ∧ e + Zpos n ≤ e' ≤ e + Zpos n + 1
    ∧ 2 * Z.abs (Zpos m' * 2 ^ (e' - e) - Zpos m) ≤ 2 ^ Zpos n.
Proof.
  intros Hd He Hhi. unfold binary_round_aux, shr_fexp, fexp, emin.
  cbn [Zdigits2]. rewrite Hd.
  replace (Z.max (53 + Zpos n + e - 53) (3 - 1024 - 53) - e) with (Zpos n) by lia.
  cbn [shr].
  pose proof (shifted_iter (Zpos m) n 0 _ ltac:(done) (shifted_start (Zpos m) ltac:(done)))
    as Hsh.
  rewrite Z.add_0_l in Hsh.
  set (mrs := SpecFloat.iter_pos shr_1 n (shr_record_of_loc (Zpos m) loc_Exact)) in *.
  pose proof (round_nearest_even_shifted (Zpos m) (Zpos n) mrs ltac:(done) Hsh)
    as [Hr Herr].
  cbv zeta in Hr, Herr.
  set (r := round_nearest_even (shr_m mrs) (loc_of_shr_record mrs)) in *.
  destruct Hsh as (Hq & rem & Hm & Hrem & _).
  pose proof (digits2_bounds m) as [Hlo Hhi']. rewrite Hd in Hlo, Hhi'.
  replace (53 + Zpos n - 1) with (52 + Zpos n) in Hlo by lia.
  rewrite Z.pow_add_r in Hlo, Hhi' by lia.
  pose proof (pow2_pos (Zpos n) ltac:(done)) as Hpos.
  assert (Hqb : 2 ^ 52 ≤ shr_m mrs < 2 ^ 53) by (split; nia).
  assert (Hrb : 2 ^ 52 ≤ r ≤ 2 ^ 53) by lia.
  change (2 ^ 52) with 4503599627370496 in *.
  change (2 ^ 53) with 9007199254740992 in *.
  clearbody r. destruct (Z.eq_dec r 9007199254740992) as [->|Hne].
  - change (Zdigits2 9007199254740992) with 54.
    replace (Z.max (54 + (e + Zpos n) - 53) (3 - 1024 - 53) - (e + Zpos n)) with 1 by lia.
    cbn -[Z.add Z.leb Z.sub].
    destruct (Z.leb_spec (e + Zpos n + 1) (1024 - 53)); [|lia].
    eexists _, _. split; [reflexivity|]. split; [lia|].
    replace (e + Zpos n + 1 - e) with (Zpos n + 1) by lia.
    rewrite pow2_succ by lia. lia.
  - destruct r as [|r'|r'] eqn:Hr'; [lia| |lia].
    assert (Hd' : Zpos (digits2_pos r') = 53).
    { apply digits2_unique. change (2 ^ (53 - 1)) with 4503599627370496.
      change (2 ^ 53) with 9007199254740992. lia. }
    cbn [Zdigits2]. rewrite Hd'.
    replace (Z.max (53 + (e + Zpos n) - 53) (3 - 1024 - 53) - (e + Zpos n)) with 0 by lia.
    cbn [shr shr_record_of_loc shr_m].
    destruct (Z.leb_spec (e + Zpos n) (1024 - 53)); [|lia].
    eexists _, _. split; [reflexivity|]. split; [lia|].
    by replace (e + Zpos n - e) with (Zpos n) by lia.
Qed.

(** [binary_round] on a positive mantissa: the result is again positive
    and finite; it is the same number when the mantissa has at most 53
    digits, and otherwise differs from it by at most half a unit of the
    last of the 53 digits kept. *)
Lemma binary_round_cases (m : positive) (e : Z) :
  let d := Zpos (digits2_pos m) in
  -1021 ≤ e → d + e ≤ 1000 →
  ∃ m' e', binary_round 53 1024 false m e = S754_finite false m' e'
    ∧ (e - 52 ≤ e' ≤ e ∧ Zpos m' = Zpos m * 2 ^ (e - e')
       ∨ e < e' ≤ d + e - 52 ∧ 53 < d
         ∧ 2 * Z.abs (Zpos m' * 2 ^ (e' - e) - Zpos m) ≤ 2 ^ (d - 53)).
Proof.
  intros d He Hhi. unfold binary_round.
  pose proof (digits2_bounds m) as [Hlo Hup]. fold d in Hlo, Hup.
  assert (Hd : 0 < d) by (subst d; lia).
  assert (Hf : fexp 53 1024 (d + e) = d + e - 53) by (unfold fexp, emin; lia).
  fold d. rewrite Hf. unfold shl_align.
  replace (d + e - 53 - e) with (d - 53) by lia.
  destruct (d - 53) as [|n|n] eqn:Hn.
  - rewrite binary_round_aux_exact by (fold d; lia).
    eexists _, _. split; [reflexivity|]. left. rewrite Z.sub_diag. lia.
  - destruct (binary_round_aux_round m n e) as (m' & e' & -> & He' & Herr);
      [fold d; lia|lia|lia|].
    eexists _, _. split; [reflexivity|]. right. by split_and!; [lia|lia|lia|].
  - assert (Hmz : Zpos (Pos.iter xO m n) = Zpos m * 2 ^ Zpos n) by apply pos_iter_xO.
    rewrite binary_round_aux_exact.
    + eexists _, _. split; [reflexivity|]. left.
      split; [lia|]. rewrite Hmz. f_equal. f_equal. lia.
    + apply digits2_unique. rewrite Hmz.
      assert (H1 : 2 ^ (53 - 1) = 2 ^ (d - 1) * 2 ^ Zpos n).
      { rewrite <- Z.pow_add_r by lia. f_equal. lia. }
      assert (H2 : 2 ^ 53 = 2 ^ d * 2 ^ Zpos n).
      { rewrite <- Z.pow_add_r by lia. f_equal. lia. }
      rewrite H1, H2. pose proof (pow2_pos (Zpos n) ltac:(done)). split.
      * by apply Z.mul_le_mono_nonneg_r; [lia|].
      * by apply Z.mul_lt_mono_pos_r.
    + lia.
Qed.


Lemma binary_round_scaled (K : Z) (m : positive) (e : Z) :
  let d := Zpos (digits2_pos m) in
  -1021 ≤ e → d + e ≤ 1000 → 0 ≤ e - 52 + K →
  ∃ m' e', binary_round 53 1024 false m e = S754_finite false m' e'
    ∧ e - 52 ≤ e'
    ∧ 2 * Z.abs (Zpos m' * 2 ^ (e' + K) - Zpos m * 2 ^ (e + K)) ≤ 2 ^ (d + e - 53 + K).
Proof.
  intros d He Hhi HK.
  destruct (binary_round_cases m e He Hhi) as (m' & e' & -> & Hcases).
  fold d in Hcases. assert (0 < d) by (subst d; lia).
  pose proof (pow2_pos (d + e - 53 + K) ltac:(lia)) as Hpos.
  exists m', e'. split; [done|].
  destruct Hcases as [(He' & ->)|(He' & Hd & Herr)].
  - split; [lia|]. rewrite <- Z.mul_assoc, <- Z.pow_add_r by lia.
    replace (e - e' + (e' + K)) with (e + K) by lia. lia.
  - split; [lia|].
    replace (e' + K) with (e' - e + (e + K)) by lia.
    replace (d + e - 53 + K) with (d - 53 + (e + K)) by lia.
    rewrite (Z.pow_add_r 2 (e' - e) (e + K)), (Z.pow_add_r 2 (d - 53) (e + K)) by lia.
    pose proof (pow2_pos (e + K) ltac:(lia)).
    replace (Zpos m' * (2 ^ (e' - e) * 2 ^ (e + K)) - Zpos m * 2 ^ (e + K))
      with ((Zpos m' * 2 ^ (e' - e) - Zpos m) * 2 ^ (e + K)) by ring.
    rewrite Z.abs_mul, (Z.abs_eq (2 ^ (e + K))), Z.mul_assoc by lia.
    by apply Z.mul_le_mono_nonneg_r; [lia|].
Qed.

Lemma shl_align_down (m : positive) (e e' : Z) :
  e' ≤ e → Zpos (shl_align m e e').1 = Zpos m * 2 ^ (e - e').
Proof.
  intros Hle. unfold shl_align. destruct (e' - e) as [|n|n] eqn:Hn; simpl; [|lia|].
  - replace (e - e') with 0 by lia. lia.
  - rewrite pos_iter_xO. f_equal. f_equal. lia.
Qed.

Lemma pow2_lt_inv (a b : Z) : 0 ≤ a → 2 ^ a < 2 ^ b → a < b.
Proof.
  intros Ha Hlt. destruct (Z.lt_ge_cases a b) as [|Hge]; [done|].
  pose proof (pow2_pos b) as Hb.
  destruct (Z.lt_ge_cases b 0); [rewrite (Z.pow_neg_r 2 b) in Hlt by done;
                                 pose proof (pow2_pos a Ha); lia|].
  pose proof (pow2_le b a ltac:(lia)). lia.
Qed.

Lemma in_range_cases (L : Z) (x : PyFloat.float) :
  in_range L x = true →
  x = S754_zero false ∨ ∃ m e, x = S754_finite false m e ∧ - L ≤ e.
Proof.
  destruct x as [[]|[]| |[] m e]; simpl; try done; [by left|].
  intros He%Z.leb_le. right. by exists m, e.
Qed.

(** Adding two non-negative numbers whose sum is below 128: the result
    is within [2^-47] of the sum. *)
Lemma add_scaled (K L : Z) (x y : PyFloat.float) :
  0 ≤ L → L + 53 ≤ K → K ≤ 1000 →
  in_range L x = true → in_range L y = true →
  scaled K x + scaled K y < 2 ^ (7 + K) →
  in_range (L + 53) (PyFloat.add x y) = true
  ∧ Z.abs (scaled K (PyFloat.add x y) - (scaled K x + scaled K y)) ≤ 2 ^ (K - 47).
Proof.
  intros HL HK HK' Hx Hy Hsum.
  pose proof (pow2_pos (K - 47) ltac:(lia)) as Hpos.
  assert (Hweak : ∀ z, in_range L z = true → in_range (L + 53) z = true).
  { intros [[]|[]| |[] m e]; simpl; try done. rewrite !Z.leb_le. lia. }
  apply in_range_cases in Hx as [->|(mx & ex & -> & Hex)];
    apply in_range_cases in Hy as [->|(my & ey & -> & Hey)].
  - simpl. split; [done|lia].
  - split; [apply Hweak; simpl; by apply Z.leb_le|].
    unfold PyFloat.add, SFadd. rewrite Z.add_0_l, Z.sub_diag. simpl. lia.
  - split; [apply Hweak; simpl; by apply Z.leb_le|].
    unfold PyFloat.add, SFadd. rewrite Z.add_0_r, Z.sub_diag. simpl. lia.
  - unfold PyFloat.add, PyFloat.prec, PyFloat.emax, SFadd, cond_Zopp.
    set (ez := Z.min ex ey).
    pose proof (shl_align_down mx ex ez ltac:(lia)) as Hax.
    pose proof (shl_align_down my ey ez ltac:(lia)) as Hay.
    destruct (shl_align mx ex ez) as [ax ?], (shl_align my ey ez) as [ay ?].
    cbn [fst] in *. change (Zpos ax + Zpos ay) with (Zpos (ax + ay)).
    unfold binary_normalize.
    cbn [scaled] in Hsum |- *.
    assert (Hval : Zpos (ax + ay) * 2 ^ (ez + K)
                   = Zpos mx * 2 ^ (ex + K) + Zpos my * 2 ^ (ey + K)).
    { rewrite Pos2Z.inj_add, Hax, Hay, Z.mul_add_distr_r, <- !Z.mul_assoc,
        <- !Z.pow_add_r by lia.
      f_equal; f_equal; f_equal; lia. }
    rewrite <- Hval in Hsum |- *.
    pose proof (digits2_bounds (ax + ay)) as [Hlo _].
    set (d := Zpos (digits2_pos (ax + ay))) in *.
    assert (0 < d) by (subst d; lia).
    assert (Hd : d + ez ≤ 7).
    { pose proof (pow2_pos (ez + K) ltac:(lia)).
      assert (2 ^ (d - 1 + (ez + K)) < 2 ^ (7 + K)) as Hlt%pow2_lt_inv; [|lia|lia].
      rewrite Z.pow_add_r by lia.
      eapply Z.le_lt_trans; [|exact Hsum]. by apply Z.mul_le_mono_nonneg_r; [lia|]. }
    destruct (binary_round_scaled K (ax + ay) ez) as (m' & e' & -> & He' & Herr);
      [lia|fold d; lia|lia|].
    fold d in Herr. cbn [in_range scaled]. split; [apply Z.leb_le; lia|].
    pose proof (pow2_le (d + ez - 53 + K) (K - 46) ltac:(lia)) as Hle.
    replace (K - 46) with (K - 47 + 1) in Hle by lia.
    rewrite pow2_succ in Hle by lia. lia.
Qed.

Lemma shiftl_pow2 (a n : Z) : 0 ≤ n → Z.shiftl a n = a * 2 ^ n.
Proof. intros. by apply Z.shiftl_mul_pow2. Qed.

(** [round] returns an integer nearest to the number. *)
Lemma round_scaled (K L : Z) (x : PyFloat.float) :
  0 ≤ L ≤ K → in_range L x = true →
  ∃ q, PyFloat.round x = Some q ∧ 2 * Z.abs (q * 2 ^ K - scaled K x) ≤ 2 ^ K.
Proof.
  intros HL Hx. pose proof (pow2_pos K ltac:(lia)) as Hpos.
  apply in_range_cases in Hx as [->|(m & e & -> & He)].
  - exists 0. simpl. split; [done|lia].
  - unfold PyFloat.round, PyFloat.round_magnitude. eexists. split; [reflexivity|].
    cbn [scaled]. destruct (Z.leb_spec 0 e) as [Hpos'|Hneg].
    + rewrite shiftl_pow2 by done.
      rewrite <- Z.mul_assoc, <- Z.pow_add_r by lia.
      replace (Zpos m * 2 ^ (e + K) - Zpos m * 2 ^ (e + K)) with 0 by lia. lia.
    + destruct e as [|e|p]; [lia|lia|]. cbn [Z.opp shr fst].
      pose proof (shifted_iter (Zpos m) p 0 _ ltac:(done)
                    (shifted_start (Zpos m) ltac:(done))) as Hsh.
      rewrite Z.add_0_l in Hsh.
      pose proof (round_nearest_even_shifted (Zpos m) (Zpos p) _ ltac:(done) Hsh)
        as [_ Herr].
      cbv zeta in Herr.
      set (r := round_nearest_even _ _) in *. clearbody r.
      replace K with (Zpos p + (Z.neg p + K)) at 1 3 by lia.
      rewrite Z.pow_add_r by lia.
      pose proof (pow2_pos (Z.neg p + K) ltac:(lia)).
      replace (r * (2 ^ Zpos p * 2 ^ (Z.neg p + K)) - Zpos m * 2 ^ (Z.neg p + K))
        with ((r * 2 ^ Zpos p - Zpos m) * 2 ^ (Z.neg p + K)) by ring.
      rewrite Z.abs_mul, (Z.abs_eq (2 ^ (Z.neg p + K))), Z.mul_assoc by lia.
      by apply Z.mul_le_mono_nonneg_r; [lia|].
Qed.

Lemma in_range_weaken (L L' : Z) (x : PyFloat.float) :
  L ≤ L' → in_range L x = true → in_range L' x = true.
Proof.
  intros HL. destruct x as [[]|[]| |[] m e]; simpl; try done. rewrite !Z.leb_le. lia.
Qed.


Lemma forallb_seqZ (f : Z → bool) (len x : Z) :
  forallb f (seqZ 0 len) = true → 0 ≤ x < len → f x = true.
Proof.
  intros Hall Hx. rewrite forallb_forall in Hall. apply Hall.
  apply list_elem_of_In, elem_of_seqZ. lia.
Qed.

Lemma products_ok_all : forallb products_ok (seqZ 0 101) = true.
Proof. vm_compute. reflexivity. Qed.

Lemma products_ok_at (n : Z) :
  0 ≤ n ≤ 100 →
  in_range 60 (Main.times n Main.weight_technical) = true
  ∧ in_range 60 (Main.times n Main.weight_security) = true
  ∧ in_range 60 (Main.times n Main.weight_mobile) = true
  ∧ 4 * scaled 300 (Main.times n Main.weight_technical) = n * 2 ^ 300
  ∧ Z.abs (10 * scaled 300 (Main.times n Main.weight_security) - n * 2 ^ 300) ≤ 2 ^ 257
  ∧ Z.abs (20 * scaled 300 (Main.times n Main.weight_mobile) - 3 * n * 2 ^ 300) ≤ 2 ^ 257.
Proof.
  intros Hn. pose proof (forallb_seqZ products_ok 101 n products_ok_all ltac:(lia)) as H.
  unfold products_ok in H. cbv zeta in H.
  repeat (apply andb_prop in H as [H ?]).
  split_and!; try done; first [by apply Z.eqb_eq | by apply Z.leb_le].
Qed.

(** [add_scaled] at the scale [2^300], with [E = 2^253]. *)
Lemma add_300 (L : Z) (x y : PyFloat.float) :
  0 ≤ L ≤ 247 →
  in_range L x = true → in_range L y = true →
  scaled 300 x + scaled 300 y < 128 * 2 ^ 300 →
  in_range (L + 53) (PyFloat.add x y) = true
  ∧ Z.abs (scaled 300 (PyFloat.add x y) - (scaled 300 x + scaled 300 y)) ≤ 2 ^ 253.
Proof.
  intros HL Hx Hy Hsum. apply (add_scaled 300 L x y); try done; try lia.
Qed.

(** The float that [calculate_overall_score] rounds is within [2^-40] of
    the weighted sum, for component scores of [0, 100]; so the result
    is an integer nearest to the weighted sum. *)
Lemma overall_score_near (t o p s m : Z) :
  0 ≤ t ≤ 100 → 0 ≤ o ≤ 100 → 0 ≤ p ≤ 100 → 0 ≤ s ≤ 100 → 0 ≤ m ≤ 100 →
  ∃ r, Main.calculate_overall_score t o p s m = Some r
    ∧ Z.abs (20 * r - Spec.weighted_sum_20 t o p s m) ≤ 10.
Proof.
  intros Ht Ho Hp Hs Hm. unfold Main.calculate_overall_score.
  change Main.weight_onpage with Main.weight_technical.
  change Main.weight_performance with Main.weight_technical.
  destruct (products_ok_at t Ht) as (Rt & _ & _ & Vt & _ & _).
  destruct (products_ok_at o Ho) as (Ro & _ & _ & Vo & _ & _).
  destruct (products_ok_at p Hp) as (Rp & _ & _ & Vp & _ & _).
  destruct (products_ok_at s Hs) as (_ & Rs & _ & _ & Vs & _).
  destruct (products_ok_at m Hm) as (_ & _ & Rm & _ & _ & Vm).
  set (qt := Main.times t Main.weight_technical) in *.
  set (qo := Main.times o Main.weight_technical) in *.
  set (qp := Main.times p Main.weight_technical) in *.
  set (fs := Main.times s Main.weight_security) in *.
  set (fm := Main.times m Main.weight_mobile) in *.
  destruct (add_300 60 qt qo) as [R1 V1]; [lia|done|done|lia|].
  set (a1 := PyFloat.add qt qo) in *.
  destruct (add_300 113 a1 qp) as [R2 V2];
    [lia|done|by apply (in_range_weaken 60)|lia|].
  set (a2 := PyFloat.add a1 qp) in *.
  destruct (add_300 166 a2 fs) as [R3 V3];
    [lia|done|by apply (in_range_weaken 60)|lia|].
  set (a3 := PyFloat.add a2 fs) in *.
  destruct (add_300 219 a3 fm) as [R4 V4];
    [lia|done|by apply (in_range_weaken 60)|lia|].
  set (a4 := PyFloat.add a3 fm) in *.
  destruct (round_scaled 300 272 a4) as (r & -> & Vr); [lia|done|].
  exists r. split; [done|].
  unfold Spec.weighted_sum_20. lia.
Qed.

End Binary64Rounding.

(** ** The overall score ([main.py]) *)

(** C3, as the claim states it, fails: for security 1 and mobile 36 (the
    other scores 0) the weighted sum is 5.5, which rounds to 6 with ties
    to even and with ties up, and the code returns 5; the binary64 sum
    is just below 5.5. *)
Lemma overall_score_differs_from_exact_rounding :
  Main.calculate_overall_score 0 0 0 1 36 = Some 5%Z
  ∧ Spec.weighted_sum_20 0 0 0 1 36 = 110%Z
  ∧ Spec.overall_half_even 0 0 0 1 36 = 6%Z
  ∧ Spec.overall_half_up 0 0 0 1 36 = 6%Z.
Proof. split_and!; vm_compute; reflexivity. Qed.

(** C3, amended: for component scores of [0, 100] the aggregator returns
    an integer nearest to the weighted sum
    [0.25*technical + 0.25*onPage + 0.25*performance + 0.10*security + 0.15*mobile];
    when that sum is not halfway between two integers this is the sum
    rounded (ties to even and ties up agree), and when it is halfway the
    result is one of the two neighbours, as the binary64 evaluation
    decides.  In particular five scores of 80 give 80. *)
Theorem overall_score_nearest_integer (t o p s m : Z) :
  (0 ≤ t ≤ 100)%Z → (0 ≤ o ≤ 100)%Z → (0 ≤ p ≤ 100)%Z →
  (0 ≤ s ≤ 100)%Z → (0 ≤ m ≤ 100)%Z →
  ∃ r, Main.calculate_overall_score t o p s m = Some r
    ∧ (Z.abs (20 * r - Spec.weighted_sum_20 t o p s m) ≤ 10)%Z
    ∧ ((Spec.weighted_sum_20 t o p s m) `mod` 20 ≠ 10 →
       r = Spec.overall_half_even t o p s m ∧ r = Spec.overall_half_up t o p s m)%Z
    ∧ (t = o → o = p → p = s → s = m → r = t).
Proof.
  intros Ht Ho Hp Hs Hm.
  destruct (overall_score_near t o p s m Ht Ho Hp Hs Hm) as (r & Hr & Hnear).
  exists r. unfold Spec.overall_half_even, Spec.overall_half_up, Spec.round_half_even,
    Spec.round_half_up in *.
  set (n := Spec.weighted_sum_20 t o p s m) in *.
  assert (Hn : n = (5 * t + 5 * o + 5 * p + 2 * s + 3 * m)%Z) by reflexivity.
  clearbody n. split_and!; [done|done| |lia].
  intros Htie.
  pose proof (Z.div_mod n 20 ltac:(lia)) as Hdiv.
  pose proof (Z.mod_pos_bound n 20 ltac:(lia)) as Hmod.
  assert (Hcase : (n `mod` 20 < 10 ∧ r = n `div` 20
                   ∨ 10 < n `mod` 20 ∧ r = n `div` 20 + 1)%Z) by lia.
  split.
  - destruct (Z.compare_spec (2 * n `mod` 20) 20); lia.
  - apply (Z.div_unique _ _ _ (2 * n + 20 - 40 * r)); lia.
Qed.

(** The theorem at five scores of 80. *)
Lemma overall_score_nearest_integer_witness :
  ∃ r, Main.calculate_overall_score 80 80 80 80 80 = Some r
    ∧ (Z.abs (20 * r - Spec.weighted_sum_20 80 80 80 80 80) ≤ 10)%Z
    ∧ ((Spec.weighted_sum_20 80 80 80 80 80) `mod` 20 ≠ 10 →
       r = Spec.overall_half_even 80 80 80 80 80
       ∧ r = Spec.overall_half_up 80 80 80 80 80)%Z
    ∧ (80 = 80 → 80 = 80 → 80 = 80 → 80 = 80 → r = 80)%Z.
Proof. apply (overall_score_nearest_integer 80 80 80 80 80); lia. Defined.

(** * Further properties of the code *)

(** ** [str.split] and [str.join] *)

Lemma split_blank (c : ascii) (s : string) :
  Py.isspace c = true → Py.split (String c s) = Py.split s.
Proof. intros Hc. simpl. by rewrite Hc. Qed.

(** A string of [n] characters has at most [(n + 1) / 2] words. *)
Lemma split_length (s : string) :
  2 * length (Py.split s) ≤ String.length s + 1
  ∧ (∀ c rest, s = String c rest → Py.isspace c = true →
       2 * length (Py.split s) ≤ String.length s).
Proof.
  induction s as [|c s [IH1 IH2]].
  { split; [simpl; lia|]. intros c rest Hs. discriminate Hs. }
  assert (Hgen : 2 * length (Py.split (String c s)) ≤ String.length (String c s) + 1
                 ∧ (Py.isspace c = true →
                    2 * length (Py.split (String c s)) ≤ String.length (String c s))).
  { destruct (Py.isspace c) eqn:Hc.
    - rewrite (split_blank c s Hc). cbn [String.length]. split; [lia|]. intros _. lia.
    - split; [|done]. cbn [Py.split]. rewrite Hc.
      destruct s as [|d s']; [cbn [length String.length]; lia|].
      destruct (Py.isspace d) eqn:Hd.
      + specialize (IH2 d s' eq_refl Hd). cbn [length String.length] in *. lia.
      + destruct (Py.split (String d s')) as [|w ws]; cbn [length String.length] in *; lia. }
  destruct Hgen as [H1 H2]. split; [done|].
  intros c' rest [= <- <-]. exact H2.
Qed.

Lemma split_word (w : string) : Notions.word w = true → Py.split w = [w].
Proof.
  unfold Notions.word. induction w as [|c w IH]; [done|].
  cbn [Notions.no_blank]. intros [_ [Hc Hw]%andb_prop]%andb_prop.
  apply negb_true_iff in Hc. cbn [Py.split]. rewrite Hc.
  destruct w as [|d w']; [done|].
  cbn [Notions.no_blank] in Hw. pose proof Hw as [Hd _]%andb_prop.
  apply negb_true_iff in Hd. rewrite Hd.
  rewrite IH; [done|]. exact Hw.
Qed.

Lemma split_word_blank (w t : string) :
  Notions.word w = true → Py.split (w +:+ " " +:+ t) = w :: Py.split t.
Proof.
  unfold Notions.word. induction w as [|c w IH]; [done|].
  cbn [Notions.no_blank]. intros [_ [Hc Hw]%andb_prop]%andb_prop.
  apply negb_true_iff in Hc.
  change (String c w +:+ " " +:+ t) with (String c (w +:+ " " +:+ t)).
  cbn [Py.split]. rewrite Hc.
  destruct w as [|d w'].
  - change ("" +:+ " " +:+ t) with (String " " t). by rewrite split_blank.
  - cbn [Notions.no_blank] in Hw. pose proof Hw as [Hd _]%andb_prop.
    apply negb_true_iff in Hd.
    change (String d w' +:+ " " +:+ t) with (String d (w' +:+ " " +:+ t)) in *.
    cbv beta iota. rewrite Hd. rewrite IH; [done|]. exact Hw.
Qed.

(** Joining words with one blank and splitting again gives the words. *)
Lemma split_join (ws : list string) :
  Forall (λ w, Notions.word w = true) ws → Py.split (Py.join " " ws) = ws.
Proof.
  induction 1 as [|w ws Hw Hws IH]; [done|].
  destruct ws as [|w' ws]; [by apply split_word|].
  change (Py.join " " (w :: w' :: ws)) with (w +:+ " " +:+ Py.join " " (w' :: ws)).
  by rewrite split_word_blank, IH.
Qed.

(** The strings that [split] returns are words. *)
Lemma split_words (s : string) : Forall (λ w, Notions.word w = true) (Py.split s).
Proof.
  induction s as [|c s IH]; [constructor|]. cbn [Py.split].
  destruct (Py.isspace c) eqn:Hc; [done|].
  assert (Hone : Notions.word (String c "") = true).
  { unfold Notions.word. simpl. by rewrite Hc. }
  destruct s as [|d s']; [by repeat constructor|].
  destruct (Py.isspace d) eqn:Hd; [by constructor|].
  destruct (Py.split (String d s')) as [|w ws]; [by repeat constructor|].
  inversion IH as [|? ? Hw Hws]; subst. constructor; [|done].
  unfold Notions.word in *. apply andb_prop in Hw as [_ Hw].
  simpl. by rewrite Hc, Hw.
Qed.

Lemma split_join_split (s : string) : Py.split (Py.join " " (Py.split s)) = Py.split s.
Proof. apply split_join, split_words. Qed.

Lemma slice_to_length (n : nat) (s : string) : String.length (Py.slice_to n s) ≤ n.
Proof.
  revert s. induction n as [|n IH]; intros [|c s]; simpl; try lia.
  specialize (IH s). lia.
Qed.

(** ** The tree that [_get_text_content] leaves *)

(** No element with one of the removed names is left in the tree. *)
Lemma decompose_node_names (names : list string) (n n' : Soup.node) :
  Soup.decompose_node names n = Some n' →
  Forall (λ m, ∀ t a cs, m = Soup.Tag t a cs → existsb (String.eqb t) names = false)
         (Soup.descendants n').
Proof.
  revert n'. induction n as [s|t attrs cs IH] using node_ind; intros n' Hn; simpl in Hn.
  - injection Hn as <-. by repeat constructor.
  - destruct (existsb (String.eqb t) names) eqn:Hkeep; [done|].
    injection Hn as <-. cbn [Soup.descendants]. constructor.
    { by intros ? ? ? [= <- _ _]. }
    clear Hkeep. induction IH as [|c cs Hc _ IHcs]; [constructor|].
    cbn [omap list_omap]. destruct (Soup.decompose_node names c) as [c'|] eqn:Hc'.
    + cbn [flat_map]. apply Forall_app. split; [by apply Hc|exact IHcs].
    + exact IHcs.
Qed.

Lemma decompose_names (names : list string) (doc : Soup.soup) :
  Forall (λ m, ∀ t a cs, m = Soup.Tag t a cs → existsb (String.eqb t) names = false)
         (flat_map Soup.descendants (Soup.decompose names doc)).
Proof.
  unfold Soup.decompose. induction doc as [|n doc IH]; [constructor|].
  cbn [omap list_omap]. destruct (Soup.decompose_node names n) as [n'|] eqn:Hn; [|exact IH].
  cbn [flat_map]. apply Forall_app. split; [|exact IH].
  by eapply decompose_node_names.
Qed.

(** A search for elements with a removed name finds nothing in it. *)
Lemma find_all_removed (names : list string) (p : string → gmap string string → bool)
    (doc : Soup.soup) :
  (∀ t a, p t a = true → existsb (String.eqb t) names = true) →
  Find.find_all p (Soup.decompose names doc) = [].
Proof.
  intros Hp. unfold Find.find_all.
  pose proof (decompose_names names doc) as Hall.
  induction Hall as [|m ms Hm _ IH]; [done|].
  rewrite filter_cons. destruct m as [s|t a cs]; simpl; [exact IH|].
  destruct (p t a) eqn:Hpt; simpl; [|exact IH].
  apply Hp in Hpt. by rewrite (Hm t a cs eq_refl) in Hpt.
Qed.

(** ** The dictionary that [crawl] builds *)

Lemma crawl_inv (urljoin : string → string → string)
    (urlparse : string → option Net.parsed_url) (ld : option string → list string)
    (client_get : string → option Extract.fetched) (url : string)
    (pd : PageData.page_data) :
  Extract.crawl urljoin urlparse ld client_get url = Some pd →
  ∃ response internal external,
    client_get url = Some response
    ∧ Extract._get_internal_links urljoin urlparse (Extract.response_soup response) url
      = Some internal
    ∧ Extract._get_external_links urljoin urlparse (Extract.response_soup response) url
      = Some external
    ∧ let doc := Extract.response_soup response in
      let doc' := Soup.decompose Crawler.removed_tags doc in
      let text := Py.slice_to Crawler.text_limit (Crawler.cleaned_text doc) in
      pd = {| PageData.url := Extract.response_url response;
              PageData.status_code := Extract.response_status_code response;
              PageData.headers := Extract.response_headers response;
              PageData.redirects := Extract.response_history response;
              PageData.title := Extract._get_title doc;
              PageData.meta_description := Extract._get_meta_description doc;
              PageData.canonical := Extract._get_canonical urljoin doc url;
              PageData.robots_meta := Extract._get_robots_meta doc;
              PageData.viewport_meta := Extract._get_viewport_meta doc;
              PageData.og_tags := Extract._get_og_tags doc;
              PageData.headings := Extract._get_headings doc;
              PageData.internal_links := internal;
              PageData.external_links := external;
              PageData.images := Crawler._get_images urljoin doc url;
              PageData.word_count := length (Py.split text);
              PageData.text_content := text;
              PageData.scripts := Crawler._get_scripts doc';
              PageData.stylesheets := Crawler._get_stylesheets doc';
              PageData.has_schema := Extract._has_schema doc';
              PageData.schema_types := Extract._get_schema_types ld doc';
              PageData.lang := Extract._get_language doc';
              PageData.small_touch_targets := None;
              PageData.small_text_count := None;
              PageData.horizontal_scroll := None |}.
Proof.
  unfold Extract.crawl. intros Hpd.
  destruct (client_get url) as [response|]; [|done]. cbn [mbind option_bind] in Hpd.
  destruct (Extract._get_internal_links _ _ _ _) as [internal|] eqn:Hint; [|done].
  cbn [mbind option_bind] in Hpd.
  destruct (Extract._get_external_links _ _ _ _) as [external|] eqn:Hext; [|done].
  cbn [mbind option_bind] in Hpd.
  exists response, internal, external. split_and!; [done..|].
  unfold Crawler._get_word_count in Hpd.
  rewrite (_get_text_content_spec (Extract.response_soup response)) in Hpd.
  cbv beta iota zeta in Hpd.
  rewrite _get_text_content_spec, cleaned_text_decompose, decompose_idempotent in Hpd.
  cbv beta iota zeta in Hpd |- *. apply (inj Some) in Hpd. symmetry. exact Hpd.
Qed.

(** ** Structured data of a crawled page ([crawler.py]) *)

Lemma has_schema_decomposed (doc : Soup.soup) :
  Extract._has_schema (Soup.decompose Crawler.removed_tags doc)
  = bool_decide (Find.find_all (Find.has_attr "itemscope")
                   (Soup.decompose Crawler.removed_tags doc) ≠ []).
Proof.
  unfold Extract._has_schema, Find.find.
  rewrite (find_all_removed Crawler.removed_tags
             (Find.both (Find.named "script") (Find.attr_is "type" "application/ld+json"))).
  - cbn [head]. by destruct (Find.find_all (Find.has_attr "itemscope") _).
  - intros t a [Ht _]%andb_prop. unfold Find.named in Ht.
    apply String.eqb_eq in Ht as ->. reflexivity.
Qed.

Lemma schema_types_decomposed (ld : option string → list string) (doc : Soup.soup) :
  Extract._get_schema_types ld (Soup.decompose Crawler.removed_tags doc)
  = (λ elem, Soup.get (Find.attrs elem) "itemtype" "")
      <$> Find.find_all (Find.has_attr "itemtype") (Soup.decompose Crawler.removed_tags doc).
Proof.
  unfold Extract._get_schema_types.
  rewrite (find_all_removed Crawler.removed_tags
             (Find.both (Find.named "script") (Find.attr_is "type" "application/ld+json"))).
  - reflexivity.
  - intros t a [Ht _]%andb_prop. unfold Find.named in Ht.
    apply String.eqb_eq in Ht as ->. reflexivity.
Qed.

(** [crawl] looks for structured data in the tree from which
    [_get_word_count] has removed the [script] elements: a JSON-LD script
    is never found.  [has_schema] is true exactly when an element left
    in the tree carries [itemscope], [schema_types] are the [itemtype]
    values of the elements left, and neither depends on what the JSON-LD
    scripts of the page hold. *)
Theorem crawled_schema_ignores_json_ld (urljoin : string → string → string)
    (urlparse : string → option Net.parsed_url) (ld : option string → list string)
    (client_get : string → option Extract.fetched) (url : string)
    (pd : PageData.page_data) :
  Extract.crawl urljoin urlparse ld client_get url = Some pd →
  ∃ response,
    client_get url = Some response
    ∧ let left := Soup.decompose Crawler.removed_tags (Extract.response_soup response) in
      Find.find_all (Find.named "script") left = []
      ∧ PageData.has_schema pd
        = bool_decide (Find.find_all (Find.has_attr "itemscope") left ≠ [])
      ∧ PageData.schema_types pd
        = (λ elem, Soup.get (Find.attrs elem) "itemtype" "")
            <$> Find.find_all (Find.has_attr "itemtype") left
      ∧ Report.passed (Technical._check_schema pd)
        = bool_decide (Find.find_all (Find.has_attr "itemscope") left ≠ []).
Proof.
  intros (response & internal & external & Hget & _ & _ & Hpd)%crawl_inv.
  exists response. split; [done|]. cbv zeta in Hpd |- *.
  assert (Hs : PageData.has_schema pd
               = bool_decide (Find.find_all (Find.has_attr "itemscope")
                   (Soup.decompose Crawler.removed_tags (Extract.response_soup response))
                   ≠ [])).
  { rewrite Hpd. cbn [PageData.has_schema]. apply has_schema_decomposed. }
  split_and!.
  - apply find_all_removed. intros t a Ht. unfold Find.named in Ht.
    apply String.eqb_eq in Ht as ->. reflexivity.
  - exact Hs.
  - rewrite Hpd. cbn [PageData.schema_types]. apply schema_types_decomposed.
  - unfold Technical._check_schema. rewrite <- Hs.
    by destruct (PageData.has_schema pd).
Qed.

(** The theorem at the shop page, whose structured data is a JSON-LD
    script: [has_schema] is false and the check fails. *)
Lemma crawled_schema_ignores_json_ld_witness :
  ∃ pd, Samples.shop_data = Some pd
    ∧ Find.find_all (Find.named "script") Samples.shop_page ≠ []
    ∧ PageData.has_schema pd = false
    ∧ PageData.schema_types pd = []
    ∧ Report.passed (Technical._check_schema pd) = false.
Proof.
  destruct Samples.shop_data as [pd|] eqn:Hpd; [|by vm_compute in Hpd].
  exists pd. split; [done|].
  destruct (crawled_schema_ignores_json_ld _ _ _ _ _ _ Hpd)
    as (response & Hget & _ & Hs & Ht & Hc).
  injection Hget as <-. split_and!.
  - by vm_compute.
  - rewrite Hs. by vm_compute.
  - rewrite Ht. by vm_compute.
  - rewrite Hc. by vm_compute.
Defined.

(** ** The mobile score of a crawled page ([main.py], [crawler.py]) *)

(** [crawl] writes none of the keys [small_touch_targets],
    [small_text_count] and [horizontal_scroll]: on a crawled page three
    of the four mobile checks always pass, and the mobile score is 100
    with a viewport [meta] element and 80 without. *)
Theorem crawled_page_mobile_score (urljoin : string → string → string)
    (urlparse : string → option Net.parsed_url) (ld : option string → list string)
    (client_get : string → option Extract.fetched) (url : string)
    (pd : PageData.page_data) (performance : Report.report) :
  Extract.crawl urljoin urlparse ld client_get url = Some pd →
  let m := Main.calculate_mobile_score pd performance in
  Report.score m = (if PageData.viewport_meta pd then 100 else 80)%Z
  ∧ Report.checks m !! "viewportMeta" = Some (Some (PageData.viewport_meta pd))
  ∧ Report.checks m !! "touchTargets" = Some (Some true)
  ∧ Report.checks m !! "readableText" = Some (Some true)
  ∧ Report.checks m !! "noHorizontalScroll" = Some (Some true)
  ∧ length (Report.issues m) = (if PageData.viewport_meta pd then 0 else 1).
Proof.
  intros (response & internal & external & _ & _ & _ & Hpd)%crawl_inv.
  cbv zeta in Hpd. intros m. subst m. unfold Main.calculate_mobile_score.
  assert (Ht : PageData.small_touch_targets pd = None) by (by rewrite Hpd).
  assert (Hs : PageData.small_text_count pd = None) by (by rewrite Hpd).
  assert (Hh : PageData.horizontal_scroll pd = None) by (by rewrite Hpd).
  rewrite Ht, Hs, Hh. clear Hpd.
  destruct (PageData.viewport_meta pd); split_and!; reflexivity.
Qed.

(** The theorem at the shop page, which has a viewport [meta] element. *)
Lemma crawled_page_mobile_score_witness :
  ∃ pd, Samples.shop_data = Some pd
    ∧ Report.score (Main.calculate_mobile_score pd Report.start) = 100%Z.
Proof.
  destruct Samples.shop_data as [pd|] eqn:Hpd; [|by vm_compute in Hpd].
  exists pd. split; [done|].
  destruct (crawled_page_mobile_score _ _ _ _ _ _ Report.start Hpd) as (Hscore & Hv & _).
  rewrite Hscore.
  assert (Hview : PageData.viewport_meta <$> Samples.shop_data = Some true)
    by (by vm_compute).
  rewrite Hpd in Hview. by injection Hview as ->.
Defined.

(** ** Links ([crawler.py]) *)

Lemma internal_or_external (base_domain : string) (parsed : Net.parsed_url) :
  Extract.is_external base_domain parsed = negb (Extract.is_internal base_domain parsed).
Proof.
  unfold Extract.is_external, Extract.is_internal.
  destruct (Net.netloc parsed =? base_domain)%string, (Py.truthy (Net.netloc parsed)); done.
Qed.

Lemma filter_partition_length {A} (f : A → bool) (l : list A) :
  length (filter (λ x, f x) l) + length (filter (λ x, negb (f x)) l) = length l.
Proof.
  induction l as [|x l IH]; [done|]. rewrite !filter_cons.
  destruct (f x); simpl; lia.
Qed.

Lemma link_of_parsed (urljoin : string → string → string)
    (urlparse : string → option Net.parsed_url) (base_url : string)
    (links : list (Net.parsed_url * PageData.link)) (nodes : list Soup.node) :
  mapM (Extract.link_of urljoin urlparse base_url) nodes = Some links →
  Forall (λ pl, urlparse (PageData.link_url pl.2) = Some pl.1) links.
Proof.
  intros Hlinks%mapM_Some. induction Hlinks as [|a pl ? ? Ha _ IH]; [constructor|].
  constructor; [|done]. unfold Extract.link_of in Ha.
  destruct (urlparse _) as [parsed|] eqn:Hp; [|done].
  cbn [mbind option_bind] in Ha. apply (inj Some) in Ha. subst pl.
  cbn [fst snd PageData.link_url]. exact Hp.
Qed.

(** Every anchor that has an [href] is classified once: the lists
    [internal] and [external] are built under the same conditions (both
    raise when [urlparse] raises on the base URL or on a resolved link),
    and before the slices their lengths add up to the number of anchors. *)
Theorem links_internal_or_external (urljoin : string → string → string)
    (urlparse : string → option Net.parsed_url) (doc : Soup.soup) (base_url : string) :
  match Extract.internal_all urljoin urlparse doc base_url,
        Extract.external_all urljoin urlparse doc base_url with
  | Some internal, Some external =>
      length internal + length external = length (Extract.anchors doc)
      ∧ ∃ base, urlparse base_url = Some base
          ∧ Forall (λ l, ∃ parsed, urlparse (PageData.link_url l) = Some parsed
                       ∧ Extract.is_internal (Net.netloc base) parsed = true) internal
          ∧ Forall (λ l, ∃ parsed, urlparse (PageData.link_url l) = Some parsed
                       ∧ Extract.is_internal (Net.netloc base) parsed = false) external
  | None, None => True
  | _, _ => False
  end.
Proof.
  unfold Extract.internal_all, Extract.external_all.
  destruct (urlparse base_url) as [base|]; [|done]. cbn [mbind option_bind].
  destruct (mapM (Extract.link_of urljoin urlparse base_url) (Extract.anchors doc))
    as [links|] eqn:Hlinks; [|done].
  cbn [mbind option_bind]. rewrite !length_fmap.
  assert (Hext : filter (λ pl : Net.parsed_url * PageData.link,
                           Extract.is_external (Net.netloc base) pl.1) links
                 = filter (λ pl, negb (Extract.is_internal (Net.netloc base) pl.1)) links).
  { apply list_filter_iff. intros pl. by rewrite internal_or_external. }
  rewrite Hext. split.
  - rewrite (filter_partition_length (λ pl, Extract.is_internal (Net.netloc base) pl.1)).
    apply length_mapM in Hlinks. done.
  - exists base. split; [done|].
    pose proof (link_of_parsed _ _ _ _ _ Hlinks) as Hurl.
    split; apply Forall_fmap, Forall_forall; intros pl [Hpl Hin]%list_elem_of_filter;
      rewrite Forall_forall in Hurl; exists pl.1; (split; [by apply Hurl|]).
    + by apply Is_true_true.
    + by apply negb_prop_elim, Is_true_false in Hpl.
Qed.

(** ** The size of the document model ([crawler.py]) *)

Lemma link_text_length (urljoin : string → string → string)
    (urlparse : string → option Net.parsed_url) (base_url : string)
    (links : list (Net.parsed_url * PageData.link)) (nodes : list Soup.node) :
  mapM (Extract.link_of urljoin urlparse base_url) nodes = Some links →
  Forall (λ pl, String.length (PageData.link_text pl.2) ≤ 100) links.
Proof.
  intros Hlinks%mapM_Some. induction Hlinks as [|a pl ? ? Ha _ IH]; [constructor|].
  constructor; [|done].
  unfold Extract.link_of in Ha. destruct (urlparse _) as [parsed|]; [|done].
  cbn [mbind option_bind] in Ha. apply (inj Some) in Ha. subst pl.
  cbn [snd PageData.link_text]. apply slice_to_length.
Qed.

(** The lists of a crawled page are bounded: at most 100 images, 100
    internal and 50 external links, link texts of at most 100
    characters, a text of at most 10,000 characters and so at most 5000
    words. *)
Theorem crawled_page_limits (urljoin : string → string → string)
    (urlparse : string → option Net.parsed_url) (ld : option string → list string)
    (client_get : string → option Extract.fetched) (url : string)
    (pd : PageData.page_data) :
  Extract.crawl urljoin urlparse ld client_get url = Some pd →
  length (PageData.images pd) ≤ 100
  ∧ length (PageData.internal_links pd) ≤ 100
  ∧ length (PageData.external_links pd) ≤ 50
  ∧ Forall (λ l, String.length (PageData.link_text l) ≤ 100)
      (PageData.internal_links pd ++ PageData.external_links pd)
  ∧ (Z.of_nat (String.length (PageData.text_content pd)) ≤ 10000)%Z
  ∧ (Z.of_nat (PageData.word_count pd) ≤ 5000)%Z
  ∧ PageData.word_count pd = length (Py.split (PageData.text_content pd)).
Proof.
  intros (response & internal & external & _ & Hint & Hext & Hpd)%crawl_inv.
  cbv zeta in Hpd.
  set (doc := Extract.response_soup response) in *.
  set (text := Py.slice_to Crawler.text_limit (Crawler.cleaned_text doc)) in *.
  assert (Htext : String.length text ≤ Crawler.text_limit) by apply slice_to_length.
  assert (Hlimit : Z.of_nat Crawler.text_limit = 10000%Z) by (vm_compute; reflexivity).
  assert (Hwords : 2 * length (Py.split text) ≤ String.length text + 1)
    by apply split_length.
  clearbody text.
  unfold Extract._get_internal_links, Extract.internal_all in Hint.
  unfold Extract._get_external_links, Extract.external_all in Hext.
  destruct (urlparse url) as [base|]; [|done]. cbn [mbind option_bind] in Hint, Hext.
  destruct (mapM _ _) as [links|] eqn:Hlinks; [|done].
  cbn [mbind option_bind] in Hint, Hext.
  injection Hint as <-. injection Hext as <-.
  pose proof (link_text_length _ _ _ _ _ Hlinks) as Hlen.
  rewrite Hpd. cbn [PageData.images PageData.internal_links PageData.external_links
                      PageData.text_content PageData.word_count].
  split_and!; [| | | |lia|lia|done].
  - unfold Crawler._get_images. rewrite length_take. lia.
  - rewrite length_take. lia.
  - rewrite length_take. lia.
  - apply Forall_app; split; apply Forall_take, Forall_fmap;
      apply Forall_forall; intros pl [_ Hin]%list_elem_of_filter;
      by apply (proj1 (Forall_forall _ _) Hlen).
Qed.

(** The theorem at the shop page. *)
Lemma crawled_page_limits_witness :
  ∃ pd, Samples.shop_data = Some pd
    ∧ length (PageData.images pd) ≤ 100
    ∧ PageData.word_count pd = length (Py.split (PageData.text_content pd)).
Proof.
  destruct Samples.shop_data as [pd|] eqn:Hpd; [|by vm_compute in Hpd].
  exists pd. split; [done|].
  destruct (crawled_page_limits _ _ _ _ _ _ Hpd) as (Himg & _ & _ & _ & _ & _ & Hwc).
  by split.
Defined.

(** ** Words of the visible text ([crawler.py]) *)

(** Normalising the blanks does not change the words: when the cleaned
    text fits in 10,000 characters, [_get_word_count] returns the number
    of words of the text of the tree without the removed elements, and
    the words of the text that [_get_text_content] returns are those
    words. *)
Theorem word_count_of_visible_text (doc : Soup.soup) :
  String.length (Crawler.cleaned_text doc) ≤ Crawler.text_limit →
  let visible := Soup.get_text " " (Soup.decompose Crawler.removed_tags doc) in
  (Crawler._get_word_count doc).2 = length (Py.split visible)
  ∧ Py.split (Crawler._get_text_content doc).2 = Py.split visible
  ∧ (Crawler._get_text_content doc).2 = Py.join " " (Py.split visible).
Proof.
  intros Hshort visible. unfold Crawler._get_word_count.
  rewrite (_get_text_content_spec doc). cbn [fst snd].
  rewrite (slice_to_all _ _ Hshort). unfold Crawler.cleaned_text. fold visible.
  by rewrite split_join_split.
Qed.

(** The theorem at the shop page. *)
Lemma word_count_of_visible_text_witness :
  (Crawler._get_word_count Samples.shop_page).2 = 6
  ∧ (Crawler._get_text_content Samples.shop_page).2 = "Shop All our goods About Partner".
Proof.
  assert (Hshort : String.length (Crawler.cleaned_text Samples.shop_page)
                   ≤ Crawler.text_limit).
  { apply Nat.leb_le. vm_compute. reflexivity. }
  destruct (word_count_of_visible_text Samples.shop_page Hshort) as (Hwc & _ & Htext).
  rewrite Hwc, Htext. split; vm_compute; reflexivity.
Defined.

(** ** Headings ([crawler.py], [onpage.py]) *)

Lemma _get_headings_eq (doc : Soup.soup) :
  let texts tag := Find.get_text_strip <$> Find.find_all (Find.named tag) doc in
  Extract._get_headings doc =
    <["h6" := texts "h6"]> (<["h5" := texts "h5"]> (<["h4" := texts "h4"]>
    (<["h3" := texts "h3"]> (<["h2" := texts "h2"]> (<["h1" := texts "h1"]> ∅))))).
Proof. reflexivity. Qed.

(** The dictionary of headings has the six keys [h1] to [h6] and no
    other, each with the stripped texts of its elements in document
    order. *)
Lemma _get_headings_lookup (doc : Soup.soup) (k : string) :
  Extract._get_headings doc !! k =
    if bool_decide (k ∈ ["h1"; "h2"; "h3"; "h4"; "h5"; "h6"])
    then Some (Find.get_text_strip <$> Find.find_all (Find.named k) doc)
    else None.
Proof.
  rewrite _get_headings_eq. cbv zeta.
  destruct (decide (k = "h6")) as [->|]; [by rewrite lookup_insert_eq|].
  destruct (decide (k = "h5")) as [->|];
    [by rewrite !lookup_insert_ne, lookup_insert_eq by done|].
  destruct (decide (k = "h4")) as [->|];
    [by rewrite !lookup_insert_ne, lookup_insert_eq by done|].
  destruct (decide (k = "h3")) as [->|];
    [by rewrite !lookup_insert_ne, lookup_insert_eq by done|].
  destruct (decide (k = "h2")) as [->|];
    [by rewrite !lookup_insert_ne, lookup_insert_eq by done|].
  destruct (decide (k = "h1")) as [->|];
    [by rewrite !lookup_insert_ne, lookup_insert_eq by done|].
  rewrite !lookup_insert_ne, lookup_empty by done.
  rewrite bool_decide_eq_false_2; [done|].
  intros Hk. repeat (apply elem_of_cons in Hk as [->|Hk]; [done|]).
  by apply elem_of_nil in Hk.
Qed.

(** The H1 check on the headings that [crawl] extracts counts the [h1]
    elements of the page, whatever their text and wherever they are: it
    passes with exactly one, reports [missing_h1] (15) with none and
    [multiple_h1] (5) with more; and whenever the hierarchy check fails
    on these headings, the H1 check fails too, so that 20 points are
    taken. *)
Theorem h1_check_counts_elements (doc : Soup.soup) :
  let n := length (Find.find_all (Find.named "h1") doc) in
  let headings := Extract._get_headings doc in
  let h1 := OnPage._check_h1 headings in
  let hierarchy := OnPage._check_heading_hierarchy headings in
  (Report.passed h1 = true ↔ n = 1)
  ∧ (Claims.penalty h1 = 15%Z ↔ n = 0)
  ∧ (Claims.penalty h1 = 5%Z ↔ 1 < n)
  ∧ (Report.passed hierarchy = false ↔
     n = 0 ∧ (Find.find_all (Find.named "h2") doc ≠ []
              ∨ Find.find_all (Find.named "h3") doc ≠ []))
  ∧ (Claims.penalty h1 + Claims.penalty hierarchy)%Z
    = (if Report.passed hierarchy then Claims.penalty h1 else 20%Z).
Proof.
  intros n headings h1 hierarchy. subst n headings h1 hierarchy.
  unfold OnPage._check_h1, OnPage._check_heading_hierarchy, OnPage.has_heading.
  rewrite !_get_headings_lookup. cbn [default].
  rewrite !bool_decide_eq_true_2 by (repeat first [by left | right]).
  cbn [default].
  destruct (Find.find_all (Find.named "h1") doc) as [|x [|y l]];
    destruct (Find.find_all (Find.named "h2") doc) as [|x2 l2];
    destruct (Find.find_all (Find.named "h3") doc) as [|x3 l3];
    cbn [fmap list_fmap length negb andb orb Nat.ltb Nat.leb];
    rewrite ?failing_penalty, ?pass_penalty; cbn [Report.passed Report.failing Report.pass];
    split_and!; try done; try (split; intros; first [done | lia]);
    try (split; [done | intros [? [?|?]]; done]);
    try (split; [intros _; split; [done | first [by left | by right]] | done]).
Qed.

(** ** Open Graph tags ([crawler.py], [onpage.py]) *)

Lemma og_step_lookup (og_tags : gmap string string) (meta : Soup.node) (k : string) :
  Extract.og_step og_tags meta !! k =
    match Notions.og_entry k meta with
    | Some content => Some content
    | None => og_tags !! k
    end.
Proof.
  unfold Extract.og_step, Notions.og_entry.
  set (prop := PyText.replace "og:" "" _). set (content := Soup.get _ "content" "").
  destruct (String.eqb_spec prop k) as [->|Hne]; cbn [andb].
  - destruct (Py.truthy k && Py.truthy content); [apply lookup_insert_eq|done].
  - destruct (Py.truthy prop && Py.truthy content); [by apply lookup_insert_ne|done].
Qed.

Lemma foldl_og_step_lookup (metas : list Soup.node) (k : string) :
  foldl Extract.og_step ∅ metas !! k = last (omap (Notions.og_entry k) metas).
Proof.
  induction metas as [|meta metas IH] using rev_ind; [apply lookup_empty|].
  rewrite foldl_app, omap_app. cbn [foldl omap list_omap].
  rewrite og_step_lookup, IH.
  destruct (Notions.og_entry k meta) as [content|]; [by rewrite last_snoc|].
  by rewrite app_nil_r.
Qed.

Lemma og_entry_not_empty (k : string) (meta : Soup.node) (content : string) :
  Notions.og_entry k meta = Some content → k ≠ "" ∧ content ≠ "".
Proof.
  unfold Notions.og_entry.
  set (prop := PyText.replace "og:" "" _). set (c := Soup.get _ "content" "").
  destruct (String.eqb_spec prop k) as [->|]; [|done]. cbn [andb].
  destruct (Py.truthy k) eqn:Hk; [|done]. cbn [andb].
  destruct (Py.truthy c) eqn:Hc; [|done]. intros [= <-].
  by split; apply truthy_true.
Qed.

Lemma last_omap_Some {A B} (f : A → option B) (l : list A) (y : B) :
  last (omap f l) = Some y → ∃ x, x ∈ l ∧ f x = Some y.
Proof.
  intros Hlast. apply last_Some_elem_of, list_elem_of_omap in Hlast.
  destruct Hlast as (x & Hx & Hfx). by exists x.
Qed.

(** The dictionary of Open Graph tags: under a key [k] it holds what
    the last [meta] element that writes [k] gives (the key is the
    [property] with every [og:] removed, the value the [content]); an
    element whose key or content is empty writes nothing, so that no
    entry has the empty key or the empty value.  The Open Graph check
    passes on it exactly when some element writes each of [title],
    [description] and [image]. *)
Theorem og_tags_entries (doc : Soup.soup) :
  (∀ k, Extract._get_og_tags doc !! k
        = last (omap (Notions.og_entry k) (Notions.og_metas doc)))
  ∧ Extract._get_og_tags doc !! "" = None
  ∧ (∀ k, Extract._get_og_tags doc !! k ≠ Some "")
  ∧ (Report.passed (OnPage._check_og_tags (Extract._get_og_tags doc)) = true
     ↔ Forall (λ k, Exists (λ meta, is_Some (Notions.og_entry k meta))
                      (Notions.og_metas doc))
         ["title"; "description"; "image"]).
Proof.
  assert (Hk : ∀ k, Extract._get_og_tags doc !! k
                    = last (omap (Notions.og_entry k) (Notions.og_metas doc))).
  { intros k. apply foldl_og_step_lookup. }
  assert (Hsome : ∀ k, is_Some (Extract._get_og_tags doc !! k)
                       ↔ Exists (λ meta, is_Some (Notions.og_entry k meta))
                           (Notions.og_metas doc)).
  { intros k. rewrite Hk, Exists_exists. split.
    - intros [v (meta & Hmeta & Hv)%last_omap_Some]. exists meta. by rewrite Hv.
    - intros (meta & Hmeta & [v Hv]).
      destruct (last (omap _ _)) as [w|] eqn:Hlast; [done|].
      apply last_None in Hlast.
      assert (Hin : v ∈ omap (Notions.og_entry k) (Notions.og_metas doc))
        by (apply list_elem_of_omap; eauto).
      rewrite Hlast in Hin. by apply elem_of_nil in Hin. }
  split_and!.
  - exact Hk.
  - destruct (Extract._get_og_tags doc !! "") as [v|] eqn:Hv; [|done].
    rewrite Hk in Hv. apply last_omap_Some in Hv as (meta & _ & Hv).
    by apply og_entry_not_empty in Hv as [? _].
  - intros k Hv. rewrite Hk in Hv. apply last_omap_Some in Hv as (meta & _ & Hv).
    by apply og_entry_not_empty in Hv as [_ ?].
  - rewrite !Forall_cons, Forall_nil, <- !Hsome.
    unfold OnPage._check_og_tags. rewrite !filter_cons, filter_nil.
    destruct (Extract._get_og_tags doc !! "title") as [t|];
      destruct (Extract._get_og_tags doc !! "description") as [d|];
      destruct (Extract._get_og_tags doc !! "image") as [i|];
      repeat case_decide; try done; cbn [Report.passed Report.failing Report.pass];
      split; try done; intros (Ha & Hb & Hc & _);
      first [by destruct Ha | by destruct Hb | by destruct Hc].
Qed.

(** A property in which [og:] occurs twice loses both occurrences. *)
Example og_key_of_nested_property :
  PyText.replace "og:" "" "og:title" = "title"
  ∧ PyText.replace "og:" "" "og:blog:title" = "bltitle"
  ∧ PyText.strip "  a description " = "a description".
Proof. split_and!; reflexivity. Qed.

(** ** The meta description check ([onpage.py]) *)

(** The check by the length [n] of the description, the absent and the
    empty description having length 0: it passes from 70 to 160
    characters, reports a missing description (15) for [n = 0], a short
    one (5) below 70 and a long one (3) above 160. *)
Theorem meta_description_by_length (description : option string) :
  let n := String.length (default "" description) in
  let r := OnPage._check_meta_description description in
  (Report.passed r = true ↔ 70 ≤ n ≤ 160)
  ∧ (Claims.penalty r = 15%Z ↔ n = 0)
  ∧ (Claims.penalty r = 5%Z ↔ 0 < n < 70)
  ∧ (Claims.penalty r = 3%Z ↔ 160 < n)
  ∧ (Report.code <$> Report.issue_of r = Some (Some "missing_meta_description") ↔ n = 0).
Proof.
  intros n r. subst n r. unfold OnPage._check_meta_description.
  destruct description as [[|c d]|]; cbn [Py.truthy_opt negb default].
  - split_and!; split; (done || cbn; lia).
  - change (Py.truthy (String c d)) with true. cbn [negb]. unfold id.
    set (n := String.length (String c d)).
    assert (Hn : 0 < n) by (subst n; cbn; lia). clearbody n.
    destruct (Nat.ltb_spec n 70); [|destruct (Nat.ltb_spec 160 n)];
      rewrite ?failing_penalty, ?pass_penalty;
      cbn [Report.passed Report.failing Report.pass Report.issue_of Report.code
           fmap option_fmap option_map];
      split_and!; split; intros; first [done | lia].
  - split_and!; split; (done || cbn; lia).
Qed.

(** ** The image check ([onpage.py]) *)

Lemma percentage_exact_all : forallb Notions.percentage_exact (seqZ 1 100) = true.
Proof. vm_compute. reflexivity. Qed.

Lemma percentage_exceeds_50 (missing total : Z) :
  (1 ≤ missing ≤ total)%Z → (total ≤ 100)%Z →
  PyFloat.ltb (PyFloat.of_int 50) (Notions.percentage missing total)
  = (total <? 2 * missing)%Z.
Proof.
  intros Hm Ht. pose proof percentage_exact_all as Hall.
  rewrite forallb_forall in Hall.
  specialize (Hall total). unfold Notions.percentage_exact in Hall.
  rewrite forallb_forall in Hall.
  apply eqb_prop, Hall.
  - apply list_elem_of_In, elem_of_seqZ. lia.
  - apply list_elem_of_In, elem_of_seqZ. lia.
Qed.

Lemma filter_length_le {A} (f : A → bool) (l : list A) :
  length (filter (λ x, f x) l) ≤ length l.
Proof. apply length_filter. Qed.

(** The thresholds of the image check are exact in binary64 arithmetic
    for the lists that the crawler builds (at most 100 images): the
    check passes when no image lacks an alternative text, reports
    [many_images_missing_alt] (15) when more than half of the images
    lack one, and [images_missing_alt] (5) otherwise; exactly half is
    not more than half. *)
Theorem image_check_thresholds (images : list Crawler.image) :
  length images ≤ 100 →
  let missing := length (filter (λ img, negb (Crawler.has_alt img)) images) in
  let r := OnPage._check_images images in
  (Report.passed r = true ↔ missing = 0)
  ∧ (Claims.penalty r = 15%Z ↔ length images < 2 * missing)
  ∧ (Claims.penalty r = 5%Z ↔ 0 < missing ∧ 2 * missing ≤ length images).
Proof.
  intros Hlen missing r. subst r missing. unfold OnPage._check_images.
  destruct images as [|x l].
  { cbn. split_and!; split; first [done | lia]. }
  set (images := x :: l) in *. clearbody images. clear x l.
  pose proof (filter_length_le (λ img, negb (Crawler.has_alt img)) images) as Hle.
  set (missing := length (filter (λ img, negb (Crawler.has_alt img)) images)) in *.
  clearbody missing.
  destruct (Nat.ltb_spec 0 missing) as [Hpos|Hzero].
  - change (PyFloat.mul _ _)
      with (Notions.percentage (Z.of_nat missing) (Z.of_nat (length images))).
    rewrite percentage_exceeds_50 by lia.
    destruct (Z.ltb_spec (Z.of_nat (length images)) (2 * Z.of_nat missing));
      rewrite ?failing_penalty; cbn [Report.passed Report.failing];
      split_and!; split; intros; first [done | lia].
  - rewrite pass_penalty. cbn [Report.passed Report.pass].
    split_and!; split; intros; first [done | lia].
Qed.

(** The theorem at four images of which two lack an alternative text:
    exactly half is reported as [images_missing_alt]. *)
Lemma image_check_thresholds_witness :
  Claims.penalty
    (OnPage._check_images
       [Fixtures.img "a.png" ""; Fixtures.img "b.png" "b"; Fixtures.img "c.png" "";
        Fixtures.img "d.png" "d"]) = 5%Z.
Proof.
  assert (Hlen : length [Fixtures.img "a.png" ""; Fixtures.img "b.png" "b";
                         Fixtures.img "c.png" ""; Fixtures.img "d.png" "d"] ≤ 100)
    by (cbn [length]; lia).
  destruct (image_check_thresholds _ Hlen) as (_ & _ & Hwarn).
  apply Hwarn. vm_compute. lia.
Defined.

(** ** The ranges of the scores *)

Lemma onpage_penalties_le (pd : PageData.page_data) :
  (Claims.penalty (OnPage._check_title (PageData.title pd)) ≤ 20
   ∧ Claims.penalty (OnPage._check_meta_description (PageData.meta_description pd)) ≤ 15
   ∧ Claims.penalty (OnPage._check_h1 (PageData.headings pd)) ≤ 15
   ∧ Claims.penalty (OnPage._check_heading_hierarchy (PageData.headings pd)) ≤ 5
   ∧ Claims.penalty (OnPage._check_images (PageData.images pd)) ≤ 15
   ∧ Claims.penalty (OnPage._check_content (PageData.word_count pd)) ≤ 10
   ∧ Claims.penalty (OnPage._check_internal_links (PageData.internal_links pd)) ≤ 5
   ∧ Claims.penalty (OnPage._check_og_tags (PageData.og_tags pd)) ≤ 3)%Z.
Proof.
  unfold OnPage._check_title, OnPage._check_meta_description, OnPage._check_h1,
    OnPage._check_heading_hierarchy, OnPage._check_images, OnPage._check_content,
    OnPage._check_internal_links, OnPage._check_og_tags.
  split_and!; penalty_cases.
Qed.

Lemma onpage_score_ge_12 (pd : PageData.page_data) :
  (12 ≤ Report.score (OnPage.analyze pd))%Z.
Proof.
  destruct (onpage_analyze_spec pd) as [_ ->].
  pose proof (onpage_penalties_le pd). lia.
Qed.

(** The on-page score lies between 12 and 100, both reached: the eight
    deductions add up to 88 at most, so the score is 100 less the
    penalties and [max(0, score)] changes nothing. *)
Theorem onpage_score_range :
  (∀ pd,
     (12 ≤ Report.score (OnPage.analyze pd) ≤ 100)%Z
     ∧ Report.score (OnPage.analyze pd) =
         (100 - Claims.penalty (OnPage._check_title (PageData.title pd))
          - Claims.penalty (OnPage._check_meta_description (PageData.meta_description pd))
          - Claims.penalty (OnPage._check_h1 (PageData.headings pd))
          - Claims.penalty (OnPage._check_heading_hierarchy (PageData.headings pd))
          - Claims.penalty (OnPage._check_images (PageData.images pd))
          - Claims.penalty (OnPage._check_content (PageData.word_count pd))
          - Claims.penalty (OnPage._check_internal_links (PageData.internal_links pd))
          - Claims.penalty (OnPage._check_og_tags (PageData.og_tags pd)))%Z)
  ∧ Report.score (OnPage.analyze Samples.worst_page) = 12%Z
  ∧ Report.score (OnPage.analyze Fixtures.good_page) = 100%Z.
Proof.
  split_and!; [|by vm_compute..].
  intros pd. pose proof (onpage_score_ge_12 pd). pose proof (onpage_score_le_100 pd).
  split; [lia|]. destruct (onpage_analyze_spec pd) as [_ Hscore].
  rewrite Hscore in *. lia.
Qed.

Lemma technical_penalties_le (urlparse : string → option Net.parsed_url)
    (net : Net.network) (url : string) (pd : PageData.page_data)
    (cr : Report.check_result) :
  Technical._check_canonical urlparse url pd = Some cr →
  (Claims.penalty cr ≤ 15
   ∧ Claims.penalty (Technical._check_robots pd) ≤ 5
   ∧ Claims.penalty (Technical._check_robots_txt urlparse net url) ≤ 5
   ∧ Claims.penalty (Technical._check_sitemap urlparse net url) ≤ 5
   ∧ Claims.penalty (Technical._check_https url) ≤ 20
   ∧ Claims.penalty (Technical._check_redirects pd) ≤ 10
   ∧ Claims.penalty (Technical._check_status_code pd) ≤ 30
   ∧ Claims.penalty (Technical._check_language pd) ≤ 3
   ∧ Claims.penalty (Technical._check_schema pd) ≤ 5)%Z.
Proof.
  intros Hcr. split_and!.
  - unfold Technical._check_canonical in Hcr.
    destruct (negb (Py.truthy_opt (PageData.canonical pd))); [by injection Hcr as <-|].
    destruct (urlparse (default "" (PageData.canonical pd))) as [pc|]; [|done].
    destruct (urlparse url) as [pu|]; [|done]. cbn [mbind option_bind] in Hcr.
    destruct (negb (Net.path pc =? Net.path pu)%string); by injection Hcr as <-.
  - unfold Technical._check_robots. penalty_cases.
  - unfold Technical._check_robots_txt, Technical.robots_txt_error. penalty_cases.
  - unfold Technical._check_sitemap, Technical.sitemap_check_failed. penalty_cases.
  - unfold Technical._check_https. penalty_cases.
  - unfold Technical._check_redirects. penalty_cases.
  - unfold Technical._check_status_code. penalty_cases.
  - unfold Technical._check_language. penalty_cases.
  - unfold Technical._check_schema. penalty_cases.
Qed.

Lemma technical_score_ge_2 (urlparse : string → option Net.parsed_url)
    (net : Net.network) (url : string) (pd : PageData.page_data) (r : Report.report) :
  Technical.analyze urlparse net url pd = Some r → (2 ≤ Report.score r)%Z.
Proof.
  intros (cr & Hcr & _ & ->)%technical_analyze_inv.
  pose proof (technical_penalties_le urlparse net url pd cr Hcr). lia.
Qed.

(** The technical score lies between 2 and 100 whenever the analyzer
    returns: the nine deductions add up to 98 at most, and
    [max(0, score)] changes nothing. *)
Theorem technical_score_range (urlparse : string → option Net.parsed_url)
    (net : Net.network) (url : string) (pd : PageData.page_data) (r : Report.report) :
  Technical.analyze urlparse net url pd = Some r →
  (2 ≤ Report.score r ≤ 100)%Z
  ∧ ∃ cr, Technical._check_canonical urlparse url pd = Some cr
      ∧ Report.score r =
          (100 - Claims.penalty cr
           - Claims.penalty (Technical._check_robots pd)
           - Claims.penalty (Technical._check_robots_txt urlparse net url)
           - Claims.penalty (Technical._check_sitemap urlparse net url)
           - Claims.penalty (Technical._check_https url)
           - Claims.penalty (Technical._check_redirects pd)
           - Claims.penalty (Technical._check_status_code pd)
           - Claims.penalty (Technical._check_language pd)
           - Claims.penalty (Technical._check_schema pd))%Z.
Proof.
  intros Hr. pose proof (technical_score_ge_2 _ _ _ _ _ Hr) as Hge.
  pose proof (technical_score_le_100 _ _ _ _ _ Hr) as Hle. split; [lia|].
  apply technical_analyze_inv in Hr as (cr & Hcr & _ & Hscore).
  exists cr. split; [done|]. rewrite Hscore in *. lia.
Qed.

(** The theorem at the worst page, where the score is 2. *)
Lemma technical_score_range_witness :
  ∃ r, Technical.analyze Fixtures.urlparse_simple (Samples.answering 404)
         "http://old.example/" Samples.worst_page = Some r
    ∧ Report.score r = 2%Z ∧ (2 ≤ Report.score r ≤ 100)%Z.
Proof.
  destruct (Technical.analyze Fixtures.urlparse_simple (Samples.answering 404)
              "http://old.example/" Samples.worst_page) as [r|] eqn:Hr;
    [|by vm_compute in Hr].
  exists r. split; [done|]. split.
  - assert (Hs : Report.score <$> Technical.analyze Fixtures.urlparse_simple
                   (Samples.answering 404) "http://old.example/" Samples.worst_page
                 = Some 2%Z) by (by vm_compute).
    rewrite Hr in Hs. by injection Hs.
  - apply (technical_score_range _ _ _ _ _ Hr).
Defined.

(** ** Sensitive paths ([security.py]) *)

Lemma probe_paths_spec (client : string → Net.outcome) (base_url : string)
    (paths : list string) (acc : list Report.issue * Z) :
  let found := filter (λ path, Notions.answers_200 (client (base_url +:+ path))) paths in
  Security.probe_paths client base_url paths acc
  = (acc.1 ++ (Security.exposed_issue <$> found), (acc.2 + 10 * Z.of_nat (length found))%Z).
Proof.
  cbv zeta. revert acc. induction paths as [|path paths IH]; intros [issues deduction].
  { cbn. rewrite app_nil_r. f_equal. lia. }
  cbn [Security.probe_paths].
  destruct (Notions.answers_200 (client (base_url +:+ path))) eqn:Hans.
  - rewrite filter_cons_True by (by rewrite Hans).
    unfold Notions.answers_200 in Hans.
    destruct (client (base_url +:+ path)) as [response|]; [|done]. rewrite Hans.
    rewrite IH. cbn [fst snd length fmap list_fmap].
    rewrite <- app_assoc. f_equal. lia.
  - rewrite filter_cons_False by (rewrite Hans; intros []).
    unfold Notions.answers_200 in Hans.
    destruct (client (base_url +:+ path)) as [response|]; [rewrite Hans|]; apply IH.
Qed.

Lemma check_sensitive_paths_spec (urlparse : string → option Net.parsed_url)
    (net : Net.network) (url : string) (parsed : Net.parsed_url) :
  urlparse url = Some parsed →
  Security._check_sensitive_paths urlparse net url =
    Some {| Report.m_passed := (length (Notions.exposed net parsed) =? 0);
            Report.m_issues := Security.exposed_issue <$> Notions.exposed net parsed;
            Report.m_deduction := (10 * Z.of_nat (length (Notions.exposed net parsed)))%Z |}.
Proof.
  intros Hparsed. unfold Security._check_sensitive_paths. rewrite Hparsed.
  cbn [mbind option_bind]. destruct net as [client|]; [|reflexivity].
  rewrite probe_paths_spec. cbn [fst snd app]. unfold Notions.exposed, Notions.base_url.
  by rewrite length_fmap.
Qed.

Lemma exposed_length (net : Net.network) (parsed : Net.parsed_url) :
  length (Notions.exposed net parsed) ≤ 6.
Proof.
  unfold Notions.exposed. destruct net as [client|]; [|cbn; lia].
  etrans; [apply length_filter|]. reflexivity.
Qed.

(** The check of sensitive paths, once the URL parses: its issues are
    one per path that answers 200, in the order of the list of paths,
    and it deducts 10 for each, 60 at most; a redirect, another status,
    a GET that raises and a client that cannot be opened all count as
    "not exposed", so the check passes when the network is down. *)
Theorem sensitive_paths_result (urlparse : string → option Net.parsed_url)
    (net : Net.network) (url : string) (parsed : Net.parsed_url) :
  urlparse url = Some parsed →
  ∃ r, Security._check_sensitive_paths urlparse net url = Some r
    ∧ Report.m_issues r = Security.exposed_issue <$> Notions.exposed net parsed
    ∧ Report.m_deduction r = (10 * Z.of_nat (length (Notions.exposed net parsed)))%Z
    ∧ (Report.m_deduction r ≤ 60)%Z
    ∧ (Report.m_passed r = true ↔ Notions.exposed net parsed = [])
    ∧ (Report.m_passed r = true ↔
       ∀ client path, net = Some client → path ∈ Security.sensitive_paths →
         Notions.answers_200 (client (Notions.base_url parsed +:+ path)) = false).
Proof.
  intros Hparsed. eexists. split; [by apply check_sensitive_paths_spec|].
  cbn [Report.m_issues Report.m_deduction Report.m_passed].
  pose proof (exposed_length net parsed) as Hlen.
  assert (Hnil : (length (Notions.exposed net parsed) =? 0) = true
                 ↔ Notions.exposed net parsed = []).
  { rewrite Nat.eqb_eq. by destruct (Notions.exposed net parsed). }
  split_and!; [done|done|lia|done|]. rewrite Hnil. unfold Notions.exposed.
  destruct net as [client|].
  - split.
    + intros Hnone client' path [= <-] Hpath.
      destruct (Notions.answers_200 _) eqn:Hans; [|done].
      assert (Hin : path ∈ filter (λ path, Notions.answers_200
                                     (client (Notions.base_url parsed +:+ path)))
                             Security.sensitive_paths).
      { apply list_elem_of_filter. split; [by rewrite Hans|done]. }
      rewrite Hnone in Hin. by apply elem_of_nil in Hin.
    + intros Hall.
      destruct (filter _ _) as [|path rest] eqn:Hf; [done|].
      assert (Hin : path ∈ path :: rest) by left. rewrite <- Hf in Hin.
      apply list_elem_of_filter in Hin as [Hans Hpath].
      rewrite (Hall client path eq_refl Hpath) in Hans. done.
  - split; [|done]. intros _ client path Hnet. discriminate Hnet.
Qed.

(** The theorem on a network where every GET raises: the check passes. *)
Lemma sensitive_paths_result_witness :
  ∃ r, Security._check_sensitive_paths Fixtures.urlparse_simple Fixtures.offline
         "https://example.com/" = Some r
    ∧ Report.m_passed r = true ∧ Report.m_deduction r = 0%Z.
Proof.
  destruct (sensitive_paths_result Fixtures.urlparse_simple Fixtures.offline
              "https://example.com/"
              {| Net.scheme := "https"; Net.netloc := "example.com"; Net.path := "/" |}
              eq_refl) as (r & Hr & _ & Hded & _ & Hpass & _).
  exists r. split; [done|]. split.
  - by apply Hpass.
  - by rewrite Hded.
Defined.

(** ** Security headers ([security.py]) *)

Lemma in_headers_lower_iff (headers : gmap string string) (name : string) :
  Security.in_headers_lower headers name = true
  ↔ ∃ k, is_Some (headers !! k) ∧ Py.lower k = name.
Proof.
  unfold Security.in_headers_lower. rewrite existsb_exists. split.
  - intros ([k v] & Hin & Heq). exists k. split.
    + exists v. by apply elem_of_map_to_list, list_elem_of_In.
    + by apply String.eqb_eq.
  - intros (k & [v Hv] & Heq). exists (k, v). split.
    + by apply list_elem_of_In, elem_of_map_to_list.
    + by apply String.eqb_eq.
Qed.

(** The check of the security headers looks the names up without regard
    to case.  It passes exactly when [X-Content-Type-Options],
    [Strict-Transport-Security] and [Content-Security-Policy] are all
    present, which is when [_list_security_headers] lists the three;
    [X-Frame-Options] is asked for only when there is no
    [Content-Security-Policy].  The deduction is 2, 3, 5 and 3 for the
    four findings, 13 at most, one finding for each. *)
Theorem security_headers_check (headers : gmap string string) :
  let has := Security.in_headers_lower headers in
  let r := Security._check_security_headers headers in
  (∀ name, has name = true ↔ ∃ k, is_Some (headers !! k) ∧ Py.lower k = name)
  ∧ Report.m_passed r
    = has "x-content-type-options" && has "strict-transport-security"
      && has "content-security-policy"
  ∧ Report.m_deduction r
    = ((if has "x-content-type-options" then 0 else 2)
       + (if has "x-frame-options" || has "content-security-policy" then 0 else 3)
       + (if has "strict-transport-security" then 0 else 5)
       + (if has "content-security-policy" then 0 else 3))%Z
  ∧ (0 ≤ Report.m_deduction r ≤ 13)%Z
  ∧ (Report.m_passed r = true ↔ Report.m_deduction r = 0%Z)
  ∧ (Report.m_passed r = true ↔
     ["x-content-type-options"; "strict-transport-security"; "content-security-policy"]
       ⊆ SecurityData._list_security_headers headers)
  ∧ length (Report.m_issues r)
    = length (filter (λ b : bool, negb b)
                [has "x-content-type-options";
                 has "x-frame-options" || has "content-security-policy";
                 has "strict-transport-security"; has "content-security-policy"]).
Proof.
  intros has r. subst r.
  assert (Hlist : ∀ name, name ∈ SecurityData.security_headers →
                    (name ∈ SecurityData._list_security_headers headers ↔ has name = true)).
  { intros name Hname. unfold SecurityData._list_security_headers.
    rewrite list_elem_of_filter. fold has. split.
    - intros [Hhas _]. by apply Is_true_true.
    - intros Hhas. split; [by apply Is_true_true|done]. }
  assert (Hsub : ["x-content-type-options"; "strict-transport-security";
                  "content-security-policy"]
                   ⊆ SecurityData._list_security_headers headers
                 ↔ has "x-content-type-options" = true
                   ∧ has "strict-transport-security" = true
                   ∧ has "content-security-policy" = true).
  { split.
    - intros Hsub. split_and!; apply Hlist;
        try (apply Hsub; repeat first [by left | right]);
        unfold SecurityData.security_headers; repeat first [by left | right].
    - intros (Ha & Hb & Hc) name Hname.
      repeat (apply elem_of_cons in Hname as [->|Hname];
              [apply Hlist; [unfold SecurityData.security_headers;
                             repeat first [by left | right]|done]|]).
      by apply elem_of_nil in Hname. }
  split; [intros name; apply in_headers_lower_iff|].
  rewrite Hsub. clear Hsub Hlist.
  unfold Security._check_security_headers. fold has.
  destruct (has "x-content-type-options"), (has "x-frame-options"),
    (has "strict-transport-security"), (has "content-security-policy");
    cbn; split_and!; try done; try lia; try (split; intros; first [done | lia]);
    try (split; [done | by intros (? & ? & ?)]).
Qed.

(** ** The range of the security score *)

Lemma security_penalties_le (urlparse : string → option Net.parsed_url)
    (net : Net.network) (url : string) (pd : PageData.page_data)
    (sr : Report.multi_result) :
  Security._check_sensitive_paths urlparse net url = Some sr →
  (Claims.penalty (Security._check_https url) ≤ 25
   ∧ Claims.penalty_multi (Security._check_security_headers (PageData.headers pd)) ≤ 13
   ∧ Claims.penalty (Security._check_mixed_content pd) ≤ 15
   ∧ Claims.penalty_multi sr ≤ 60)%Z.
Proof.
  intros Hsr. split_and!.
  - unfold Security._check_https. penalty_cases.
  - unfold Security._check_security_headers, Claims.penalty_multi.
    repeat case_match; simplify_eq/=; lia.
  - unfold Security._check_mixed_content. penalty_cases.
  - unfold Security._check_sensitive_paths in Hsr.
    destruct (urlparse url) as [parsed|] eqn:Hparsed; [|done].
    cbn [mbind option_bind] in Hsr.
    pose proof (check_sensitive_paths_spec urlparse net url parsed Hparsed) as Hspec.
    unfold Security._check_sensitive_paths in Hspec. rewrite Hparsed in Hspec.
    cbn [mbind option_bind] in Hspec. rewrite Hspec in Hsr. injection Hsr as <-.
    pose proof (exposed_length net parsed). unfold Claims.penalty_multi.
    cbn [Report.m_passed Report.m_deduction].
    destruct (length (Notions.exposed net parsed) =? 0); lia.
Qed.

(** The security score lies between 0 and 100 whenever the analyzer
    returns; the four deductions can add up to 113, so that here
    [max(0, score)] does change the result: a page requested over
    [http://], served over [https://] with an image fetched over
    [http://], without security headers and with the six sensitive
    paths exposed has the score 0 and not -13. *)
Theorem security_score_range (urlparse : string → option Net.parsed_url)
    (net : Net.network) (url : string) (pd : PageData.page_data) (r : Report.report) :
  Security.analyze urlparse net url pd = Some r →
  (0 ≤ Report.score r ≤ 100)%Z
  ∧ ∃ sr, Security._check_sensitive_paths urlparse net url = Some sr
      ∧ Report.score r =
          Z.max 0 (100 - Claims.penalty (Security._check_https url)
                   - Claims.penalty_multi
                       (Security._check_security_headers (PageData.headers pd))
                   - Claims.penalty (Security._check_mixed_content pd)
                   - Claims.penalty_multi sr)
      ∧ (-13 ≤ 100 - Claims.penalty (Security._check_https url)
               - Claims.penalty_multi
                   (Security._check_security_headers (PageData.headers pd))
               - Claims.penalty (Security._check_mixed_content pd)
               - Claims.penalty_multi sr)%Z.
Proof.
  intros Hr. pose proof (security_score_le_100 _ _ _ _ _ Hr) as Hle.
  apply security_analyze_inv in Hr as (sr & Hsr & _ & Hscore).
  pose proof (security_penalties_le urlparse net url pd sr Hsr).
  split; [lia|]. exists sr. split_and!; [done|done|lia].
Qed.

(** The theorem at the worst page: the score is 0, the sum is -13. *)
Lemma security_score_range_witness :
  ∃ r sr, Security.analyze Fixtures.urlparse_simple (Samples.answering 200)
            "http://old.example/" Samples.worst_page = Some r
    ∧ Security._check_sensitive_paths Fixtures.urlparse_simple (Samples.answering 200)
        "http://old.example/" = Some sr
    ∧ Report.score r = 0%Z
    ∧ (100 - Claims.penalty (Security._check_https "http://old.example/")
       - Claims.penalty_multi
           (Security._check_security_headers (PageData.headers Samples.worst_page))
       - Claims.penalty (Security._check_mixed_content Samples.worst_page)
       - Claims.penalty_multi sr = -13)%Z.
Proof.
  destruct (Security.analyze Fixtures.urlparse_simple (Samples.answering 200)
              "http://old.example/" Samples.worst_page) as [r|] eqn:Hr;
    [|by vm_compute in Hr].
  destruct (security_score_range _ _ _ _ _ Hr) as (_ & sr & Hsr & Hscore & _).
  exists r, sr. split_and!; [done|done| |].
  - rewrite Hscore.
    assert (Hs : Claims.penalty_multi <$>
                   Security._check_sensitive_paths Fixtures.urlparse_simple
                     (Samples.answering 200) "http://old.example/" = Some 60%Z)
      by (by vm_compute).
    rewrite Hsr in Hs. injection Hs as ->. by vm_compute.
  - assert (Hs : Claims.penalty_multi <$>
                   Security._check_sensitive_paths Fixtures.urlparse_simple
                     (Samples.answering 200) "http://old.example/" = Some 60%Z)
      by (by vm_compute).
    rewrite Hsr in Hs. injection Hs as ->. by vm_compute.
Defined.

(** ** The robots.txt probe ([technical.py]) *)

(** The probe of robots.txt passes when the GET of
    [scheme://netloc/robots.txt] returns status 200, whatever the body
    and the content type; it deducts 5 when the GET returns another
    status, and 3 when parsing the URL, opening the client or the GET
    itself raises (unlike the sitemap probe, where a GET that raises
    costs 5). *)
Theorem robots_txt_deductions (urlparse : string → option Net.parsed_url)
    (net : Net.network) (url : string) :
  let r := Technical._check_robots_txt urlparse net url in
  (Report.passed r = true ↔
   ∃ parsed client response,
     urlparse url = Some parsed ∧ net = Some client
     ∧ client (Notions.robots_url parsed) = Net.Responded response
     ∧ Net.status response = 200%Z)
  ∧ (Claims.penalty r = 5%Z ↔
     ∃ parsed client response,
       urlparse url = Some parsed ∧ net = Some client
       ∧ client (Notions.robots_url parsed) = Net.Responded response
       ∧ Net.status response ≠ 200%Z)
  ∧ (Claims.penalty r = 3%Z ↔
     urlparse url = None ∨ net = None
     ∨ ∃ parsed client,
         urlparse url = Some parsed ∧ net = Some client
         ∧ client (Notions.robots_url parsed) = Net.Raised)
  ∧ (Claims.penalty r = 0%Z ∨ Claims.penalty r = 5%Z ∨ Claims.penalty r = 3%Z).
Proof.
  intros r. subst r. unfold Technical._check_robots_txt, Technical.robots_txt_error.
  destruct (urlparse url) as [parsed|].
  2:{ cbn. split_and!; [split; [done|by intros (? & ? & ? & ? & _)]
                        |split; [done|by intros (? & ? & ? & ? & _)]
                        |split; [by left|done] | by right; right]. }
  fold (Notions.robots_url parsed).
  destruct net as [client|].
  2:{ cbn. split_and!; [split; [done|by intros (? & ? & ? & _ & ? & _)]
                        |split; [done|by intros (? & ? & ? & _ & ? & _)]
                        |split; [by right; left|done] | by right; right]. }
  destruct (client (Notions.robots_url parsed)) as [response|] eqn:Hget.
  2:{ cbn. split_and!; [split; [done|]|split; [done|]|split; [|done]|by right; right].
      - intros (p & c & resp & [= <-] & [= <-] & Hc & _). by rewrite Hget in Hc.
      - intros (p & c & resp & [= <-] & [= <-] & Hc & _). by rewrite Hget in Hc.
      - intros _. right; right. by exists parsed, client. }
  destruct (Z.eqb_spec (Net.status response) 200) as [Hst|Hst];
    rewrite ?failing_penalty, ?pass_penalty; cbn [Report.passed Report.pass Report.failing].
  - split_and!; [split; [|done]|split; [done|]|split; [done|]|by left].
    + intros _. by exists parsed, client, response.
    + intros (p & c & resp & [= <-] & [= <-] & Hc & Hne).
      rewrite Hget in Hc. by injection Hc as <-.
    + intros [|[|(p & c & [= <-] & [= <-] & Hc)]]; [done|done|].
      by rewrite Hget in Hc.
  - split_and!; [split; [done|]|split; [|done]|split; [done|]|by right; left].
    + intros (p & c & resp & [= <-] & [= <-] & Hc & Heq).
      rewrite Hget in Hc. by injection Hc as <-.
    + intros _. by exists parsed, client, response.
    + intros [|[|(p & c & [= <-] & [= <-] & Hc)]]; [done|done|].
      by rewrite Hget in Hc.
Qed.

(** ** When the analyzers raise ([technical.py], [security.py]) *)

Lemma technical_analyze_None (urlparse : string → option Net.parsed_url)
    (net : Net.network) (url : string) (pd : PageData.page_data) :
  Technical.analyze urlparse net url pd = None ↔
  ∃ c, PageData.canonical pd = Some c ∧ c ≠ ""
       ∧ (urlparse c = None ∨ urlparse url = None).
Proof.
  unfold Technical.analyze, Technical._check_canonical.
  destruct (PageData.canonical pd) as [c|]; cbn [Py.truthy_opt negb default].
  2:{ cbn. split; [done|]. by intros (c & ? & _). }
  unfold id. destruct (Py.truthy c) eqn:Hc; cbn [negb].
  - apply truthy_true in Hc.
    destruct (urlparse c) as [pc|] eqn:Hpc; cbn [mbind option_bind].
    + destruct (urlparse url) as [pu|] eqn:Hpu; cbn [mbind option_bind].
      * destruct (negb _); cbn [mbind option_bind]; split; try done;
          intros (c' & [= <-] & _ & [Hn|Hn]); congruence.
      * split; [|done]. intros _. exists c. by split_and!; [| |right].
    + split; [|done]. intros _. exists c. by split_and!; [| |left].
  - cbn [mbind option_bind]. split; [done|].
    intros (c' & [= <-] & Hne & _). apply truthy_true in Hne. congruence.
Qed.

Lemma security_analyze_None (urlparse : string → option Net.parsed_url)
    (net : Net.network) (url : string) (pd : PageData.page_data) :
  Security.analyze urlparse net url pd = None ↔ urlparse url = None.
Proof.
  unfold Security.analyze, Security._check_sensitive_paths.
  destruct (urlparse url) as [parsed|]; cbn [mbind option_bind]; [|done].
  destruct net as [client|]; [destruct (Security.probe_paths _ _ _ _)|]; done.
Qed.

(** The technical analyzer raises exactly when the page has a non-empty
    canonical URL and [urlparse] raises on it or on the requested URL
    (without a canonical URL it returns a report whatever the URL is,
    the two probes handling the error, each with a deduction of 3); the
    security analyzer raises exactly when [urlparse] raises on the
    requested URL. *)
Theorem analyzers_raise_iff (urlparse : string → option Net.parsed_url)
    (net : Net.network) (url : string) (pd : PageData.page_data) :
  (Technical.analyze urlparse net url pd = None ↔
   ∃ c, PageData.canonical pd = Some c ∧ c ≠ ""
        ∧ (urlparse c = None ∨ urlparse url = None))
  ∧ (Security.analyze urlparse net url pd = None ↔ urlparse url = None)
  ∧ (PageData.canonical pd = None → urlparse url = None →
     ∃ r, Technical.analyze urlparse net url pd = Some r
       ∧ Claims.penalty (Technical._check_robots_txt urlparse net url) = 3%Z
       ∧ Claims.penalty (Technical._check_sitemap urlparse net url) = 3%Z).
Proof.
  split_and!; [apply technical_analyze_None|apply security_analyze_None|].
  intros Hc Hu.
  destruct (Technical.analyze urlparse net url pd) as [r|] eqn:Hr.
  - exists r. split; [done|].
    unfold Technical._check_robots_txt, Technical._check_sitemap. by rewrite Hu.
  - apply technical_analyze_None in Hr as (c & Hc' & _). congruence.
Qed.

(** The theorem at a page without a canonical URL, for a [urlparse]
    that rejects every URL. *)
Lemma analyzers_raise_iff_witness :
  ∃ r, Technical.analyze (λ _, None) Fixtures.serving "http://[malformed"
         Samples.worst_page = Some r
    ∧ Claims.penalty (Technical._check_robots_txt (λ _, None) Fixtures.serving
                        "http://[malformed") = 3%Z
    ∧ Claims.penalty (Technical._check_sitemap (λ _, None) Fixtures.serving
                        "http://[malformed") = 3%Z.
Proof.
  apply (proj2 (proj2 (analyzers_raise_iff (λ _, None) Fixtures.serving
                         "http://[malformed" Samples.worst_page))); reflexivity.
Defined.

(** ** The report of the performance analyzer ([performance.py]) *)

Lemma flag_spec (name : string) (cond : bool) (i : Report.issue) (st : Report.report) :
  Performance.flag name cond i st =
    {| Report.score := Report.score st;
       Report.issues := Report.issues st ++ (if cond then [i] else []);
       Report.checks := <[name := Some (negb cond)]> (Report.checks st) |}.
Proof. unfold Performance.flag. destruct cond; [done|]. by rewrite app_nil_r. Qed.






(** What [analyze_lighthouse] returns, by the results of the score and
    of the six comparisons. *)
Lemma analyze_lighthouse_inv (data : Performance.lighthouse) (r : Report.report) :
  Performance.analyze_lighthouse data = Some r →
  ∃ (slow_lcp high_cls slow_fcp unoptimized large lazy : bool),
    PyFloat.to_int (Notions.score_times_100 data) = Some (Report.score r)
    ∧ Report.checks r =
        <["lazyLoading" := Some lazy]> (<["bundleSize" := Some (negb large)]>
        (<["imageOptimization" := Some (negb unoptimized)]>
        (<["fcp" := Some (negb slow_fcp)]> (<["cls" := Some (negb high_cls)]>
        (<["lcp" := Some (negb slow_lcp)]> ∅)))))
    ∧ Report.code <$> Report.issues r =
        (if slow_lcp then [Some "slow_lcp"] else [])
        ++ (if high_cls then [Some "high_cls"] else [])
        ++ (if slow_fcp then [Some "slow_fcp"] else [])
        ++ (if unoptimized then [Some "unoptimized_images"] else [])
        ++ (if large then [Some "large_bundle"] else []).
Proof.
  unfold Performance.analyze_lighthouse. fold (Notions.score_times_100 data).
  destruct (PyFloat.to_int (Notions.score_times_100 data)) as [s|]; [|done].
  cbn [mbind option_bind].
  destruct (Performance.metric_exceeds (Performance.largest_contentful_paint data) _)
    as [slow_lcp|]; [|done]. cbn [mbind option_bind].
  destruct (Performance.metric_exceeds (Performance.cumulative_layout_shift data) _)
    as [high_cls|]; [|done]. cbn [mbind option_bind].
  destruct (Performance.metric_exceeds (Performance.first_contentful_paint data) _)
    as [slow_fcp|]; [|done]. cbn [mbind option_bind].
  destruct (Performance.lt _ _ _) as [unoptimized|]; [|done]. cbn [mbind option_bind].
  destruct (Performance.gt _ _ _) as [large|]; [|done]. cbn [mbind option_bind].
  destruct (Performance.ge _ _ _) as [lazy|]; [|done]. cbn [mbind option_bind].
  rewrite !flag_spec. cbn [Report.score Report.issues Report.checks].
  intros [= <-]. exists slow_lcp, high_cls, slow_fcp, unoptimized, large, lazy.
  cbn [Report.score Report.issues Report.checks]. split_and!; [done|done|].
  destruct slow_lcp, high_cls, slow_fcp, unoptimized, large; reflexivity.
Qed.

(** A report built from the provider's answer has the six checks, each
    a boolean and none [None]; its findings are those of the failed
    checks among [lcp], [cls], [fcp], [imageOptimization] and
    [bundleSize], in this order, a failed [lazyLoading] check adding
    none; and its score is the provider's score times 100, truncated,
    whatever the checks are. *)
Theorem performance_report_shape (data : Performance.lighthouse) (r : Report.report) :
  Performance.analyze_lighthouse data = Some r →
  PyFloat.to_int (Notions.score_times_100 data) = Some (Report.score r)
  ∧ (∀ k, k ∈ ["lcp"; "cls"; "fcp"; "imageOptimization"; "bundleSize"; "lazyLoading"]
          ↔ ∃ b : bool, Report.checks r !! k = Some (Some b))
  ∧ (∀ k, Report.checks r !! k ≠ Some None)
  ∧ Report.code <$> Report.issues r =
      omap (λ kc : string * string,
              if bool_decide (Report.checks r !! kc.1 = Some (Some false))
              then Some (Some kc.2) else None)
           [("lcp", "slow_lcp"); ("cls", "high_cls"); ("fcp", "slow_fcp");
            ("imageOptimization", "unoptimized_images"); ("bundleSize", "large_bundle")].
Proof.
  intros (slow_lcp & high_cls & slow_fcp & unoptimized & large & lazy
          & Hscore & Hchecks & Hcodes)%analyze_lighthouse_inv.
  assert (Hlookup : ∀ k v, Report.checks r !! k = Some v →
    k ∈ ["lcp"; "cls"; "fcp"; "imageOptimization"; "bundleSize"; "lazyLoading"]
    ∧ is_Some v).
  { intros k v Hk. rewrite Hchecks in Hk.
    repeat (apply lookup_insert_Some in Hk as [[<- <-]|[_ Hk]];
            [split; [repeat first [by left | right] | by eexists]|]).
    by rewrite lookup_empty in Hk. }
  rewrite Hcodes. clear Hcodes.
  split_and!.
  - done.
  - intros k. split.
    + intros Hk. rewrite Hchecks.
      repeat (apply elem_of_cons in Hk as [->|Hk];
              [eexists; rewrite ?lookup_insert_ne by done; apply lookup_insert_eq|]).
      by apply elem_of_nil in Hk.
    + intros [b Hb]. apply Hlookup in Hb as [Hin _]. exact Hin.
  - intros k Hk. apply Hlookup in Hk as [_ [b Hb]]. discriminate Hb.
  - rewrite Hchecks. cbn [omap list_omap fst snd].
    rewrite !lookup_insert_ne by done. rewrite !lookup_insert_eq.
    destruct slow_lcp, high_cls, slow_fcp, unoptimized, large; reflexivity.
Qed.

(** The theorem at an answer with the score 0.9 and a slow largest
    contentful paint. *)
Lemma performance_report_shape_witness :
  ∃ r, Performance.analyze_lighthouse
         (Samples.lighthouse_reply 90 (Performance.Num (PyFloat.of_int 3100))) = Some r
    ∧ Report.score r = 90%Z
    ∧ ∃ b : bool, Report.checks r !! "lazyLoading" = Some (Some b).
Proof.
  destruct (Performance.analyze_lighthouse _) as [r|] eqn:Hr; [|by vm_compute in Hr].
  exists r. split; [done|].
  destruct (performance_report_shape _ _ Hr) as (Hscore & Hkeys & _).
  split.
  - assert (Hs : PyFloat.to_int (Notions.score_times_100
                   (Samples.lighthouse_reply 90 (Performance.Num (PyFloat.of_int 3100))))
                 = Some 90%Z) by (by vm_compute).
    rewrite Hscore in Hs. by injection Hs.
  - apply Hkeys. repeat first [by left | right].
Defined.

(** ** A [null] in the provider's answer ([performance.py]) *)



(** ** The performance score is truncated ([performance.py]) *)

Lemma truncated_all : forallb Notions.truncated_as_expected (seqZ 0 101) = true.
Proof. vm_compute. reflexivity. Qed.

(** [int(score * 100)] truncates a binary64 product: for the provider's
    score [k/100] with [k] from 0 to 100 the reported score is [k],
    except for 0.29, 0.57 and 0.58, which are reported as 28, 56 and
    57. *)
Theorem performance_score_truncated (k : Z) (data : Performance.lighthouse)
    (r : Report.report) :
  (0 ≤ k ≤ 100)%Z →
  Performance.performance_score data = Performance.Num (PyFloat.literal k 100) →
  Performance.analyze_lighthouse data = Some r →
  Report.score r = (if bool_decide (k ∈ [29; 57; 58]%Z) then k - 1 else k)%Z.
Proof.
  intros Hk Hdata (? & ? & ? & ? & ? & ? & Hscore & _)%analyze_lighthouse_inv.
  unfold Notions.score_times_100 in Hscore. rewrite Hdata in Hscore.
  pose proof truncated_all as Hall. rewrite forallb_forall in Hall.
  specialize (Hall k). unfold Notions.truncated_as_expected, Notions.truncated in Hall.
  rewrite Hscore in Hall.
  assert (Hin : In k (seqZ 0 101)) by (apply list_elem_of_In, elem_of_seqZ; lia).
  apply Hall, bool_decide_eq_true in Hin. by injection Hin.
Qed.

(** The theorem at the score 0.29, reported as 28. *)
Lemma performance_score_truncated_witness :
  ∃ r, Performance.analyze_lighthouse
         (Samples.lighthouse_reply 29 (Performance.Num (PyFloat.of_int 3100))) = Some r
    ∧ Report.score r = 28%Z.
Proof.
  destruct (Performance.analyze_lighthouse _) as [r|] eqn:Hr; [|by vm_compute in Hr].
  exists r. split; [done|].
  rewrite (performance_score_truncated 29
             (Samples.lighthouse_reply 29 (Performance.Num (PyFloat.of_int 3100))) r
             ltac:(lia) eq_refl Hr).
  reflexivity.
Defined.

(** ** The endpoint ([main.py]) *)

(** A page that [crawl] returned has a URL that [urlparse] accepts. *)
Lemma crawl_parses_url (urljoin : string → string → string)
    (urlparse : string → option Net.parsed_url) (ld : option string → list string)
    (client_get : string → option Extract.fetched) (url : string)
    (pd : PageData.page_data) :
  Extract.crawl urljoin urlparse ld client_get url = Some pd → is_Some (urlparse url).
Proof.
  intros (response & internal & external & _ & Hint & _)%crawl_inv.
  unfold Extract._get_internal_links, Extract.internal_all in Hint.
  by destruct (urlparse url).
Qed.

Lemma crawl_mobile_score (urljoin : string → string → string)
    (urlparse : string → option Net.parsed_url) (ld : option string → list string)
    (client_get : string → option Extract.fetched) (url : string)
    (pd : PageData.page_data) (performance : Report.report) :
  Extract.crawl urljoin urlparse ld client_get url = Some pd →
  Report.score (Main.calculate_mobile_score pd performance)
  = (if PageData.viewport_meta pd then 100 else 80)%Z.
Proof.
  intros (response & internal & external & _ & _ & _ & Hpd)%crawl_inv.
  cbv zeta in Hpd. unfold Main.calculate_mobile_score.
  assert (Ht : PageData.small_touch_targets pd = None) by (by rewrite Hpd).
  assert (Hs : PageData.small_text_count pd = None) by (by rewrite Hpd).
  assert (Hh : PageData.horizontal_scroll pd = None) by (by rewrite Hpd).
  rewrite Ht, Hs, Hh. by destruct (PageData.viewport_meta pd).
Qed.

(** The analyzers on a crawled page when the metrics provider is
    unavailable: they raise exactly when the page has a non-empty
    canonical URL that [urlparse] rejects, and otherwise the overall
    score is an integer nearest to the weighted sum, with the
    performance score 50. *)
Lemma run_analyzers_crawled (w : Endpoint.world) (url : string) (pd : PageData.page_data) :
  Extract.crawl (Endpoint.urljoin w) (Endpoint.urlparse w) (Endpoint.ld_json_types w)
    (Endpoint.client_get w) url = Some pd →
  Claims.provider_unavailable (Endpoint.api_key w) (Endpoint.provider_reply w) →
  match Endpoint.run_analyzers w url pd with
  | None => ∃ c, PageData.canonical pd = Some c ∧ c ≠ "" ∧ Endpoint.urlparse w c = None
  | Some body =>
      Endpoint.audit_url body = url
      ∧ Technical.analyze (Endpoint.urlparse w) (Endpoint.technical_net w) url pd
        = Some (Endpoint.technical body)
      ∧ Endpoint.onPage body = OnPage.analyze pd
      ∧ Endpoint.performance body = Performance._get_fallback_analysis url
      ∧ Security.analyze (Endpoint.urlparse w) (Endpoint.security_net w) url pd
        = Some (Endpoint.security body)
      ∧ Report.score (Endpoint.mobile body)
        = (if PageData.viewport_meta pd then 100 else 80)%Z
      ∧ (Z.abs (20 * Endpoint.overallScore body
                - Spec.weighted_sum_20 (Report.score (Endpoint.technical body))
                    (Report.score (Endpoint.onPage body)) 50
                    (Report.score (Endpoint.security body))
                    (Report.score (Endpoint.mobile body))) ≤ 10)%Z
      ∧ (28 ≤ Endpoint.overallScore body ≤ 88)%Z
  end.
Proof.
  intros Hcrawl Hun. unfold Endpoint.run_analyzers.
  rewrite (analyze_unavailable _ _ url Hun).
  pose proof (crawl_parses_url _ _ _ _ _ _ Hcrawl) as [parsed Hparsed].
  destruct (Technical.analyze _ _ url pd) as [t|] eqn:Ht; cbn [mbind option_bind].
  2:{ apply technical_analyze_None in Ht as (c & Hc & Hne & [Hn|Hn]); [by exists c|].
      congruence. }
  destruct (Security.analyze _ _ url pd) as [s|] eqn:Hs; cbn [mbind option_bind].
  2:{ apply security_analyze_None in Hs. congruence. }
  pose proof (crawl_mobile_score _ _ _ _ _ _ (Performance._get_fallback_analysis url) Hcrawl)
    as Hm.
  pose proof (technical_score_ge_2 _ _ _ _ _ Ht). pose proof (technical_score_le_100 _ _ _ _ _ Ht).
  pose proof (onpage_score_ge_12 pd). pose proof (onpage_score_le_100 pd).
  pose proof (security_score_le_100 _ _ _ _ _ Hs).
  assert (0 ≤ Report.score s)%Z.
  { apply security_analyze_inv in Hs as (sr & _ & _ & ->). lia. }
  set (m := Report.score (Main.calculate_mobile_score pd _)) in *.
  assert (m = 80 ∨ m = 100)%Z as Hm' by (destruct (PageData.viewport_meta pd); lia).
  change (Report.score (Performance._get_fallback_analysis url)) with 50%Z.
  destruct (overall_score_near (Report.score t) (Report.score (OnPage.analyze pd)) 50
              (Report.score s) m) as (r & -> & Hr); try lia.
  cbn [mbind option_bind Endpoint.audit_url Endpoint.technical Endpoint.onPage
         Endpoint.performance Endpoint.security Endpoint.mobile Endpoint.overallScore].
  fold m. unfold Spec.weighted_sum_20 in *. split_and!; try done; lia.
Qed.



(** Without the metrics provider the performance score is 50, and the
    overall score of every audit that the endpoint returns lies between
    28 and 88: it is an integer nearest to
    [0.25*technical + 0.25*onPage + 12.5 + 0.10*security + 0.15*mobile]
    with a technical score of at least 2, an on-page score of at least
    12 and a mobile score of 80 or 100. *)
Theorem overall_score_without_provider (w : Endpoint.world) (url : string)
    (body : Endpoint.audit) :
  Claims.provider_unavailable (Endpoint.api_key w) (Endpoint.provider_reply w) →
  Endpoint.analyze_url w url = Endpoint.Returned body →
  (28 ≤ Endpoint.overallScore body ≤ 88)%Z
  ∧ Report.score (Endpoint.performance body) = 50%Z
  ∧ (2 ≤ Report.score (Endpoint.technical body) ≤ 100)%Z
  ∧ (12 ≤ Report.score (Endpoint.onPage body) ≤ 100)%Z
  ∧ (0 ≤ Report.score (Endpoint.security body) ≤ 100)%Z
  ∧ (Report.score (Endpoint.mobile body) = 80%Z
     ∨ Report.score (Endpoint.mobile body) = 100%Z)
  ∧ (Z.abs (20 * Endpoint.overallScore body
            - Spec.weighted_sum_20 (Report.score (Endpoint.technical body))
                (Report.score (Endpoint.onPage body)) 50
                (Report.score (Endpoint.security body))
                (Report.score (Endpoint.mobile body))) ≤ 10)%Z.
Proof.
  intros Hun. unfold Endpoint.analyze_url.
  destruct (Extract.crawl _ _ _ _ url) as [pd|] eqn:Hcrawl; [|done].
  pose proof (run_analyzers_crawled w url pd Hcrawl Hun) as Hrun.
  destruct (Endpoint.run_analyzers w url pd) as [body'|]; [|done].
  intros [= ->]. destruct Hrun as (_ & Ht & Ho & Hp & Hs & Hm & Hnear & Hrange).
  pose proof (technical_score_ge_2 _ _ _ _ _ Ht).
  pose proof (technical_score_le_100 _ _ _ _ _ Ht).
  pose proof (onpage_score_ge_12 pd). pose proof (onpage_score_le_100 pd).
  pose proof (security_score_le_100 _ _ _ _ _ Hs).
  assert (0 ≤ Report.score (Endpoint.security body))%Z.
  { apply security_analyze_inv in Hs as (sr & _ & _ & ->). lia. }
  rewrite Ho, Hp in *. split_and!; try done; try lia.
  rewrite Hm. destruct (PageData.viewport_meta pd); [by right|by left].
Qed.

(** The theorem at the shop, whose overall score is 70. *)
Lemma overall_score_without_provider_witness :
  ∃ body, Endpoint.analyze_url Samples.shop_world "https://shop.example/"
          = Endpoint.Returned body
    ∧ (28 ≤ Endpoint.overallScore body ≤ 88)%Z.
Proof.
  destruct (Endpoint.analyze_url Samples.shop_world "https://shop.example/")
    as [code|body] eqn:Hbody; [by vm_compute in Hbody|].
  exists body. split; [done|].
  apply (overall_score_without_provider Samples.shop_world "https://shop.example/" body);
    [by left|exact Hbody].
Defined.

(** ** Mixed content of a crawled page ([security.py], [crawler.py]) *)

Lemma crawl_scripts (urljoin : string → string → string)
    (urlparse : string → option Net.parsed_url) (ld : option string → list string)
    (client_get : string → option Extract.fetched) (url : string)
    (pd : PageData.page_data) :
  Extract.crawl urljoin urlparse ld client_get url = Some pd → PageData.scripts pd = [].
Proof.
  intros (response & internal & external & _ & _ & _ & Hpd)%crawl_inv.
  cbv zeta in Hpd. rewrite Hpd. cbn [PageData.scripts]. unfold Crawler._get_scripts.
  by rewrite find_all_decompose.
Qed.

(** On a crawled page the mixed-content check never sees a script: the
    list of scripts is empty, so an [https://] page passes the check
    exactly when none of its images and none of its stylesheets is
    fetched over [http://], whatever scripts it loads. *)
Theorem crawled_mixed_content_ignores_scripts (urljoin : string → string → string)
    (urlparse : string → option Net.parsed_url) (ld : option string → list string)
    (client_get : string → option Extract.fetched) (url : string)
    (pd : PageData.page_data) :
  Extract.crawl urljoin urlparse ld client_get url = Some pd →
  PageData.scripts pd = []
  ∧ (Report.passed (Security._check_mixed_content pd) = true
     ↔ Py.startswith (PageData.url pd) "https://" = false
       ∨ (Claims.http_count (Crawler.src <$> PageData.images pd) = 0
          ∧ Claims.http_count (Crawler.href <$> PageData.stylesheets pd) = 0)).
Proof.
  intros Hscripts%crawl_scripts. split; [done|].
  unfold Security._check_mixed_content. rewrite Hscripts, !http_count_fmap.
  change (Claims.http_count (Crawler.script_src <$> [])) with 0.
  destruct (Py.startswith (PageData.url pd) "https://"); cbn [negb].
  2:{ cbn. split; [by left|done]. }
  rewrite Nat.add_0_r.
  destruct (Nat.ltb_spec 0 (Claims.http_count (Crawler.src <$> PageData.images pd)
                            + Claims.http_count (Crawler.href <$> PageData.stylesheets pd)));
    cbn [Report.passed Report.failing Report.pass].
  - split; [done|]. intros [|[? ?]]; [done|lia].
  - split; [|done]. intros _. right. lia.
Qed.

(** The theorem at the shop page. *)
Lemma crawled_mixed_content_ignores_scripts_witness :
  ∃ pd, Samples.shop_data = Some pd ∧ PageData.scripts pd = [].
Proof.
  destruct Samples.shop_data as [pd|] eqn:Hpd; [|by vm_compute in Hpd].
  exists pd. split; [done|].
  apply (crawled_mixed_content_ignores_scripts _ _ _ _ _ _ Hpd).
Defined.

(** ** When the crawl fails ([crawler.py]) *)



(** ** [str.strip] and the extracted texts ([crawler.py]) *)

Lemma lstrip_starts (s : string) : Notions.starts_with_blank (PyText.lstrip s) = false.
Proof.
  induction s as [|c s IH]; [done|]. cbn [PyText.lstrip].
  destruct (Py.isspace c) eqn:Hc; [exact IH|]. cbn. exact Hc.
Qed.

Lemma lstrip_fixed (s : string) :
  Notions.starts_with_blank s = false → PyText.lstrip s = s.
Proof. destruct s as [|c s]; [done|]. cbn. by intros ->. Qed.

Lemma rstrip_cons (c : ascii) (s : string) :
  PyText.rstrip (String c s) =
    match PyText.rstrip s with
    | "" => if Py.isspace c then "" else String c ""
    | kept => String c kept
    end.
Proof. reflexivity. Qed.

Lemma rstrip_idempotent (s : string) : PyText.rstrip (PyText.rstrip s) = PyText.rstrip s.
Proof.
  induction s as [|c s IH]; [done|]. rewrite rstrip_cons.
  destruct (PyText.rstrip s) as [|d k] eqn:Hk.
  - destruct (Py.isspace c) eqn:Hc; [done|]. rewrite rstrip_cons. cbn. by rewrite Hc.
  - rewrite rstrip_cons. by rewrite IH.
Qed.

Lemma rstrip_starts (s : string) :
  Notions.starts_with_blank s = false → Notions.starts_with_blank (PyText.rstrip s) = false.
Proof.
  destruct s as [|c s]; [done|]. cbn [Notions.starts_with_blank]. rewrite rstrip_cons.
  intros Hc. rewrite Hc. by destruct (PyText.rstrip s).
Qed.

Lemma strip_stripped (s : string) : Notions.stripped (PyText.strip s).
Proof.
  unfold Notions.stripped, PyText.strip. split.
  - apply rstrip_starts, lstrip_starts.
  - apply rstrip_idempotent.
Qed.

Lemma stripped_strip (s : string) : Notions.stripped s → PyText.strip s = s.
Proof. intros [Hl Hr]. unfold PyText.strip. by rewrite lstrip_fixed. Qed.

Lemma rstrip_app (a b : string) :
  b ≠ "" → PyText.rstrip b = b → PyText.rstrip (a +:+ b) = a +:+ b.
Proof.
  intros Hb Hr. induction a as [|c a IH]; [done|].
  change (String c a +:+ b) with (String c (a +:+ b)). rewrite rstrip_cons.
  rewrite IH. destruct (a +:+ b) as [|d k] eqn:Hab; [|done].
  destruct a; [|done]. by destruct Hb.
Qed.

Lemma stripped_app (a b : string) :
  a ≠ "" → b ≠ "" → Notions.stripped a → Notions.stripped b → Notions.stripped (a +:+ b).
Proof.
  intros Ha Hb [Hla _] [_ Hrb]. split.
  - destruct a as [|c a]; [done|]. exact Hla.
  - by apply rstrip_app.
Qed.

Lemma join_stripped (l : list string) :
  Forall (λ s, s ≠ "" ∧ Notions.stripped s) l →
  Notions.stripped (Py.join "" l) ∧ (l ≠ [] → Py.join "" l ≠ "").
Proof.
  induction 1 as [|s l [Hs Hst] Hl [IH1 IH2]]; [done|].
  destruct l as [|s' l]; [by split|].
  change (Py.join "" (s :: s' :: l)) with (s +:+ Py.join "" (s' :: l)).
  split.
  - apply stripped_app; [done|by apply IH2|done|done].
  - intros _. by destruct s.
Qed.

Lemma get_text_strip_stripped (n : Soup.node) : Notions.stripped (Find.get_text_strip n).
Proof.
  unfold Find.get_text_strip. apply join_stripped, Forall_forall.
  intros s [Hs Hin]%list_elem_of_filter. split.
  - apply truthy_true. by apply Is_true_true.
  - apply list_elem_of_fmap in Hin as (s' & -> & _). apply strip_stripped.
Qed.

(** The texts that the crawler extracts with [strip] carry no blank at
    either end: the title, the meta description, the robots directive
    and every heading are fixed by [strip], so the lengths that the
    checks compare with their bounds count no surrounding blank; and a
    title element that holds only blanks gives the empty title, which
    the title check reports as missing. *)
Theorem extracted_texts_are_stripped (doc : Soup.soup) :
  from_option (λ t, PyText.strip t = t) True (Extract._get_title doc)
  ∧ from_option (λ t, PyText.strip t = t) True (Extract._get_meta_description doc)
  ∧ from_option (λ t, PyText.strip t = t) True (Extract._get_robots_meta doc)
  ∧ (∀ k, Forall (λ t, PyText.strip t = t) (default [] (Extract._get_headings doc !! k)))
  ∧ (∀ t, PyText.strip (PyText.strip t) = PyText.strip t)
  ∧ (Report.code <$> Report.issue_of (OnPage._check_title (Extract._get_title doc))
       = Some (Some "missing_title")
     ↔ from_option (λ t, Forall (λ s, PyText.strip s = "") (Soup.all_strings t)) True
         (Find.find (Find.named "title") doc)).
Proof.
  split_and!.
  - unfold Extract._get_title. destruct (Find.find _ _) as [t|]; [|done].
    apply stripped_strip, get_text_strip_stripped.
  - unfold Extract._get_meta_description. destruct (Find.find _ _) as [t|]; [|done].
    apply stripped_strip, strip_stripped.
  - unfold Extract._get_robots_meta. destruct (Find.find _ _) as [t|]; [|done].
    apply stripped_strip, strip_stripped.
  - intros k. rewrite _get_headings_lookup. case_bool_decide; [|constructor].
    cbn [default]. apply Forall_fmap, Forall_forall. intros n _.
    apply stripped_strip, get_text_strip_stripped.
  - intros t. apply stripped_strip, strip_stripped.
  - unfold Extract._get_title. destruct (Find.find _ _) as [t|]; [|done].
    cbn [from_option]. unfold OnPage._check_title. cbn [Py.truthy_opt].
    pose proof (join_stripped (filter (λ s, Py.truthy s) (PyText.strip <$> Soup.all_strings t)))
      as Hjoin.
    unfold Find.get_text_strip.
    set (pieces := filter (λ s, Py.truthy s) (PyText.strip <$> Soup.all_strings t)) in *.
    assert (Hpieces : Forall (λ s, s ≠ "" ∧ Notions.stripped s) pieces).
    { apply Forall_forall. intros s [Hs Hin]%list_elem_of_filter. split.
      - apply truthy_true. by apply Is_true_true.
      - apply list_elem_of_fmap in Hin as (s' & -> & _). apply strip_stripped. }
    destruct (Hjoin Hpieces) as [_ Hne].
    assert (Hnil : pieces = [] ↔ Forall (λ s, PyText.strip s = "") (Soup.all_strings t)).
    { subst pieces. clear. induction (Soup.all_strings t) as [|s l IH].
      - split; [constructor|done].
      - rewrite fmap_cons, filter_cons, Forall_cons.
        destruct (String.eqb_spec (PyText.strip s) "") as [Heq|Hneq].
        + rewrite Heq. cbn. rewrite IH. tauto.
        + apply truthy_true in Hneq. rewrite decide_True by (by rewrite Hneq).
          split; [done|]. intros [Hs _]. apply truthy_true in Hneq. done. }
    rewrite <- Hnil. destruct pieces as [|p ps].
    + cbn. split; done.
    + assert (Hj : Py.join "" (p :: ps) ≠ "") by (by apply Hne).
      apply truthy_true in Hj. rewrite Hj. cbn [negb].
      split; [|done]. unfold id.
      destruct (String.length _ <? 30); [done|].
      destruct (60 <? String.length _); done.
Qed.

(** ** The mobile report ([main.py]) *)

Lemma mobile_checks (pd : PageData.page_data) (performance : Report.report) :
  Report.checks (Main.calculate_mobile_score pd performance) =
    <["noHorizontalScroll" :=
        Some (negb (default false (PageData.horizontal_scroll pd)))]>
    (<["readableText" := Some (default 0 (PageData.small_text_count pd) <=? 5)%Z]>
    (<["touchTargets" := Some (default 0 (PageData.small_touch_targets pd) =? 0)%Z]>
    (<["viewportMeta" := Some (PageData.viewport_meta pd)]> ∅))).
Proof.
  unfold Main.calculate_mobile_score.
  destruct (negb (PageData.viewport_meta pd)),
    (0 <? default 0 (PageData.small_touch_targets pd))%Z,
    (5 <? default 0 (PageData.small_text_count pd))%Z,
    (default false (PageData.horizontal_scroll pd)); reflexivity.
Qed.

Lemma mobile_failed_checks (b1 b2 b3 b4 : bool) :
  length (filter (λ k, bool_decide
                         ((<["noHorizontalScroll" := Some b4]>
                           (<["readableText" := Some b3]>
                           (<["touchTargets" := Some b2]>
                           (<["viewportMeta" := Some b1]>
                              (∅ : gmap string (option bool)))))) !! k
                          = Some (Some false)))
            ["viewportMeta"; "touchTargets"; "readableText"; "noHorizontalScroll"])
  = length (filter (λ b : bool, negb b) [b1; b2; b3; b4]).
Proof. destruct b1, b2, b3, b4; vm_compute; reflexivity. Qed.

(** The mobile report is consistent when the count of small touch
    targets is not negative: the score is 100 less 20 without a
    viewport, [min(2 * targets, 15)], 10 for more than five small texts
    and 15 for horizontal scrolling; there is one issue for each check
    that fails; and the score is 100 exactly when there is no issue,
    which is exactly when the four checks pass. *)
Theorem mobile_report_consistent (pd : PageData.page_data) (performance : Report.report) :
  let targets := default 0%Z (PageData.small_touch_targets pd) in
  let texts := default 0%Z (PageData.small_text_count pd) in
  let scroll := default false (PageData.horizontal_scroll pd) in
  let m := Main.calculate_mobile_score pd performance in
  (0 ≤ targets)%Z →
  Report.score m
  = (100 - (if PageData.viewport_meta pd then 0 else 20) - Z.min (targets * 2) 15
     - (if (5 <? texts)%Z then 10 else 0) - (if scroll then 15 else 0))%Z
  ∧ length (Report.issues m)
    = length (filter (λ k, bool_decide (Report.checks m !! k = Some (Some false)))
                ["viewportMeta"; "touchTargets"; "readableText"; "noHorizontalScroll"])
  ∧ (Report.score m = 100%Z ↔ Report.issues m = [])
  ∧ (Report.issues m = [] ↔ Report.all_passed m).
Proof.
  intros targets texts scroll m Hpos. subst m.
  assert (Hall : Report.all_passed (Main.calculate_mobile_score pd performance)
                 ↔ PageData.viewport_meta pd = true ∧ (targets =? 0)%Z = true
                   ∧ (texts <=? 5)%Z = true ∧ negb scroll = true).
  { unfold Report.all_passed. rewrite mobile_checks. fold targets texts scroll. split.
    - intros Hall. entry_passed Hall "viewportMeta". entry_passed Hall "touchTargets".
      entry_passed Hall "readableText". entry_passed Hall "noHorizontalScroll". done.
    - intros (H1 & H2 & H3 & H4) k v Hk. rewrite H1, H2, H3, H4 in Hk.
      repeat (apply lookup_insert_Some in Hk as [[_ <-]|[_ Hk]]; [done|]).
      by rewrite lookup_empty in Hk. }
  rewrite Hall, mobile_checks, mobile_failed_checks. clear Hall.
  fold targets texts scroll.
  unfold Main.calculate_mobile_score. fold targets texts scroll.
  destruct (PageData.viewport_meta pd), scroll;
    destruct (Z.ltb_spec 0 targets), (Z.eqb_spec targets 0); try lia;
    destruct (Z.ltb_spec 5 texts), (Z.leb_spec texts 5); try lia;
    cbn [negb app length Report.score Report.issues Z.max filter list_filter];
    (split_and!; [lia | reflexivity | split; intros; first [done | lia]
                 | split; [intros; try done | intros (? & ? & ? & ?); try done]]).
Qed.

(** The theorem at the shop page: no mobile issue, score 100. *)
Lemma mobile_report_consistent_witness :
  ∃ pd, Samples.shop_data = Some pd
    ∧ Report.score (Main.calculate_mobile_score pd Report.start) = 100%Z
    ∧ Report.issues (Main.calculate_mobile_score pd Report.start) = [].
Proof.
  destruct Samples.shop_data as [pd|] eqn:Hpd; [|by vm_compute in Hpd].
  exists pd. split; [done|].
  assert (Ht : PageData.small_touch_targets <$> Samples.shop_data = Some None)
    by (by vm_compute).
  rewrite Hpd in Ht. injection Ht as Ht.
  assert (Hpos : (0 ≤ default 0 (PageData.small_touch_targets pd))%Z) by (by rewrite Ht).
  destruct (mobile_report_consistent pd Report.start Hpos) as (_ & _ & Hscore & _).
  assert (Hs : (Report.score ∘ (λ pd, Main.calculate_mobile_score pd Report.start))
                 <$> Samples.shop_data = Some 100%Z) by (by vm_compute).
  rewrite Hpd in Hs. injection Hs as Hs. split; [done|]. by apply Hscore.
Defined.

(** With a negative count of small touch targets the check
    [touchTargets] fails while nothing is deducted and no issue is
    reported. *)
Example mobile_negative_touch_targets :
  let pd := Fixtures.good_page in
  let odd :=
    {| PageData.url := PageData.url pd; PageData.status_code := PageData.status_code pd;
       PageData.headers := PageData.headers pd; PageData.redirects := PageData.redirects pd;
       PageData.title := PageData.title pd;
       PageData.meta_description := PageData.meta_description pd;
       PageData.canonical := PageData.canonical pd;
       PageData.robots_meta := PageData.robots_meta pd;
       PageData.viewport_meta := PageData.viewport_meta pd;
       PageData.og_tags := PageData.og_tags pd; PageData.headings := PageData.headings pd;
       PageData.internal_links := PageData.internal_links pd;
       PageData.external_links := PageData.external_links pd;
       PageData.images := PageData.images pd; PageData.word_count := PageData.word_count pd;
       PageData.text_content := PageData.text_content pd;
       PageData.scripts := PageData.scripts pd;
       PageData.stylesheets := PageData.stylesheets pd;
       PageData.has_schema := PageData.has_schema pd;
       PageData.schema_types := PageData.schema_types pd; PageData.lang := PageData.lang pd;
       PageData.small_touch_targets := Some (-1)%Z;
       PageData.small_text_count := None; PageData.horizontal_scroll := None |} in
  Report.score (Main.calculate_mobile_score odd Report.start) = 100%Z
  ∧ Report.issues (Main.calculate_mobile_score odd Report.start) = []
  ∧ Report.checks (Main.calculate_mobile_score odd Report.start) !! "touchTargets"
    = Some (Some false).
Proof. split_and!; vm_compute; reflexivity. Qed.

(** ** The issues of a report ([onpage.py], [technical.py]) *)

(** The loop of [analyze] over a list of named check results. *)
Lemma record_checks (l : list (string * Report.check_result)) (st : Report.report) :
  let st' := foldl (λ st p, Report.record_check p.1 p.2 st) st l in
  Report.issues st' = Report.issues st ++ flat_map (λ p, Notions.reported p.2) l
  ∧ Report.checks st'
    = foldr (λ p m, <[p.1 := Some (Report.passed p.2)]> m) (Report.checks st) (reverse l).
Proof.
  revert st. induction l as [|[n r] l IH]; intros st; cbn [foldl flat_map fst snd].
  { by rewrite app_nil_r. }
  destruct (IH (Report.record_check n r st)) as [Hi Hc]. cbv zeta. split.
  - rewrite Hi. unfold Report.record_check, Notions.reported. cbn [fst snd].
    destruct (Report.passed r); cbn [Report.issues]; [done|]. by rewrite <- app_assoc.
  - rewrite Hc, reverse_cons, foldr_app. cbn [foldr fst snd]. f_equal.
    unfold Report.record_check. by destruct (Report.passed r).
Qed.

Lemma failed_entries (l : list (string * Report.check_result)) :
  length (filter (λ kv : string * option bool, kv.2 = Some false)
            ((λ p, (p.1, Some (Report.passed p.2))) <$> l))
  = length (flat_map (λ p, option_list
                            (if Report.passed p.2 then None else Some p.1)) l).
Proof.
  induction l as [|[n r] l IH]; [done|]. cbn [fmap list_fmap flat_map fst snd].
  rewrite filter_cons, length_app. cbn [snd].
  destruct (Report.passed r); [rewrite decide_False by done|rewrite decide_True by done];
    cbn [option_list length]; by rewrite IH.
Qed.

Lemma failed_checks_of_loop (l : list (string * Report.check_result)) :
  NoDup l.*1 →
  Notions.failed_checks
    (Report.finish (foldl (λ st p, Report.record_check p.1 p.2 st) Report.start l))
  = length (flat_map (λ p, option_list
                            (if Report.passed p.2 then None else Some p.1)) l).
Proof.
  intros Hnd. unfold Notions.failed_checks, Report.finish. cbn [Report.checks].
  destruct (record_checks l Report.start) as [_ ->]. cbn [Report.start Report.checks].
  rewrite <- failed_entries.
  set (kvs := (λ p, (p.1, Some (Report.passed p.2))) <$> l).
  assert (Hm : foldr (λ p m, <[p.1 := Some (Report.passed p.2)]> m)
                 (∅ : gmap string (option bool)) (reverse l)
               = list_to_map (reverse kvs)).
  { subst kvs. rewrite <- fmap_reverse. induction (reverse l) as [|p k IH]; [done|].
    cbn [foldr fmap list_fmap list_to_map]. by rewrite IH. }
  rewrite Hm.
  assert (Hp : map_to_list (list_to_map (M := gmap string (option bool)) (reverse kvs))
               ≡ₚ kvs).
  { rewrite map_to_list_to_map.
    - apply reverse_Permutation.
    - rewrite fmap_reverse, reverse_Permutation. subst kvs.
      rewrite <- list_fmap_compose.
      by replace (fst ∘ (λ p : string * Report.check_result,
                           (p.1, Some (Report.passed p.2)))) with
           (fst : string * Report.check_result → string) by done. }
  by rewrite Hp.
Qed.

Lemma issues_of_loop (l : list (string * Report.check_result)) :
  NoDup l.*1 →
  Forall (λ p, Notions.failure_reported p.2) l →
  let r := Report.finish
             (foldl (λ st p, Report.record_check p.1 p.2 st) Report.start l) in
  length (Report.issues r) = Notions.failed_checks r
  ∧ Forall (λ i, Report.code i ≠ Some "canonical_mismatch") (Report.issues r).
Proof.
  intros Hnd Hl r. subst r. rewrite failed_checks_of_loop by done.
  unfold Report.finish. cbn [Report.issues].
  destruct (record_checks l Report.start) as [-> _]. cbn [Report.start Report.issues app].
  clear Hnd. induction Hl as [|[n c] l Hc _ [IH1 IH2]]; [by split|].
  cbn [flat_map fst snd] in *. rewrite !length_app, Forall_app, IH1.
  unfold Notions.reported. destruct (Report.passed c) eqn:Hp; [by split|].
  destruct (Hc Hp) as (i & -> & Hi). split; [done|]. split; [|done].
  by repeat constructor.
Qed.

Ltac check_cases :=
  cbv zeta;
  repeat match goal with
         | |- Notions.failure_reported (if ?b then _ else _) => destruct b
         | |- Notions.failure_reported (match ?x with _ => _ end) => destruct x
         end;
  intros Hp;
  first [ discriminate Hp
        | eexists; split; [reflexivity | cbn [Report.code]; discriminate] ].

Lemma onpage_failures_reported (pd : PageData.page_data) :
  Forall (λ p : string * Report.check_result, Notions.failure_reported p.2)
    [("title", OnPage._check_title (PageData.title pd));
     ("metaDescription", OnPage._check_meta_description (PageData.meta_description pd));
     ("h1", OnPage._check_h1 (PageData.headings pd));
     ("headingHierarchy", OnPage._check_heading_hierarchy (PageData.headings pd));
     ("imageAlt", OnPage._check_images (PageData.images pd));
     ("contentLength", OnPage._check_content (PageData.word_count pd));
     ("internalLinks", OnPage._check_internal_links (PageData.internal_links pd));
     ("openGraph", OnPage._check_og_tags (PageData.og_tags pd))].
Proof.
  repeat apply Forall_cons_2; [..|apply Forall_nil_2]; cbn [snd].
  - unfold OnPage._check_title. check_cases.
  - unfold OnPage._check_meta_description. check_cases.
  - unfold OnPage._check_h1. check_cases.
  - unfold OnPage._check_heading_hierarchy. check_cases.
  - unfold OnPage._check_images. check_cases.
  - unfold OnPage._check_content. check_cases.
  - unfold OnPage._check_internal_links. check_cases.
  - unfold OnPage._check_og_tags. check_cases.
Qed.

Lemma canonical_failure_reported (urlparse : string → option Net.parsed_url)
    (url : string) (pd : PageData.page_data) (cr : Report.check_result) :
  Technical._check_canonical urlparse url pd = Some cr →
  Notions.failure_reported cr.
Proof.
  unfold Technical._check_canonical. intros Hcr Hp.
  destruct (negb (Py.truthy_opt (PageData.canonical pd))).
  - apply (inj Some) in Hcr. subst cr. eexists. split; [reflexivity|].
    cbn [Report.code]. discriminate.
  - destruct (urlparse (default "" (PageData.canonical pd))) as [pc|]; [|done].
    destruct (urlparse url) as [pu|]; [|done]. cbn [mbind option_bind] in Hcr.
    destruct (negb (Net.path pc =? Net.path pu)%string);
      apply (inj Some) in Hcr; subst cr; discriminate Hp.
Qed.

Lemma technical_failures_reported (urlparse : string → option Net.parsed_url)
    (net : Net.network) (url : string) (pd : PageData.page_data) :
  Forall (λ p : string * Report.check_result, Notions.failure_reported p.2)
    [("robotsMeta", Technical._check_robots pd);
     ("robotsTxt", Technical._check_robots_txt urlparse net url);
     ("sitemap", Technical._check_sitemap urlparse net url);
     ("https", Technical._check_https url);
     ("redirectChain", Technical._check_redirects pd);
     ("statusCode", Technical._check_status_code pd);
     ("language", Technical._check_language pd);
     ("structuredData", Technical._check_schema pd)].
Proof.
  repeat apply Forall_cons_2; [..|apply Forall_nil_2]; cbn [snd].
  - unfold Technical._check_robots. check_cases.
  - unfold Technical._check_robots_txt. check_cases.
  - unfold Technical._check_sitemap. check_cases.
  - unfold Technical._check_https. check_cases.
  - unfold Technical._check_redirects. check_cases.
  - unfold Technical._check_status_code. check_cases.
  - unfold Technical._check_language. check_cases.
  - unfold Technical._check_schema. check_cases.
Qed.

(** The [issues] list of an on-page or technical report has one entry
    for each check recorded as [False] in [checks], and no more.  In
    particular the warning that [_check_canonical] builds when the
    canonical path differs from the path of the URL, in a result that
    passes, is never part of the report. *)
Theorem issues_are_the_failed_checks (urlparse : string → option Net.parsed_url)
    (net : Net.network) (url : string) (pd : PageData.page_data) :
  length (Report.issues (OnPage.analyze pd)) = Notions.failed_checks (OnPage.analyze pd)
  ∧ match Technical.analyze urlparse net url pd with
    | Some r =>
        length (Report.issues r) = Notions.failed_checks r
        ∧ Forall (λ i, Report.code i ≠ Some "canonical_mismatch") (Report.issues r)
    | None => True
    end.
Proof.
  split.
  - refine (proj1 (issues_of_loop _ _ (onpage_failures_reported pd))).
    cbn [fmap list_fmap fst]. apply (bool_decide_unpack _). by vm_compute.
  - unfold Technical.analyze.
    destruct (Technical._check_canonical urlparse url pd) as [cr|] eqn:Hcr; [|done].
    cbn [mbind option_bind].
    refine (issues_of_loop (("canonical", cr) :: _) _
              (Forall_cons_2 (λ p : string * Report.check_result,
                                Notions.failure_reported p.2) ("canonical", cr) _
                 (canonical_failure_reported _ _ _ _ Hcr)
                 (technical_failures_reported urlparse net url pd))).
    cbn [fmap list_fmap fst]. apply (bool_decide_unpack _). by vm_compute.
Qed.

(** The warning exists: the check of a page whose canonical link names
    another path passes and carries it. *)
Example canonical_mismatch_is_built :
  (λ c, (Report.passed c, Report.code <$> Report.issue_of c)) <$>
    Technical._check_canonical Fixtures.urlparse_simple "https://example.com/"
      Fixtures.moved_page
  = Some (true, Some (Some "canonical_mismatch")).
Proof. vm_compute. reflexivity. Qed.
